(** * Zillow MCP server: calculation engine and tool dispatcher

    A shallow embedding of [src/zillow-api.ts] (class [ZillowApiClient]) and of
    the [CallToolRequestSchema] handler of [src/server/server.ts], together
    with the properties of the affordability / mortgage formulas and of the
    dispatcher's provider handling.

    Numbers.  A JavaScript [number] is modelled by its exact value: a
    rational, or one of the three IEEE special values.  Arithmetic on finite
    values is exact (the binary64 rounding error and the sign of zero are not
    represented); the special values follow the IEEE / ECMAScript rules, so a
    division [0/0] is [NaN] here exactly as it is in the program. *)

From Stdlib Require Import ZArith QArith Qround Qpower Qabs Lqa Lia.
From Stdlib Require Import List String Ascii Bool DecimalString Sorted.
Import ListNotations.

Set Implicit Arguments.

(* ================================================================== *)
(** ** JavaScript numbers *)

Module JsNum.

Inductive number : Type :=
| Fin (q : Q)
| PosInf
| NegInf
| NaN.

Definition ofZ (z : Z) : number := Fin (inject_Z z).

(** Unary minus. *)
Definition neg (x : number) : number :=
  match x with
  | Fin q => Fin (- q)
  | PosInf => NegInf
  | NegInf => PosInf
  | NaN => NaN
  end.

(** [x + y]. *)
Definition add (x y : number) : number :=
  match x, y with
  | NaN, _ | _, NaN => NaN
  | Fin a, Fin b => Fin (a + b)
  | PosInf, NegInf | NegInf, PosInf => NaN
  | PosInf, _ | _, PosInf => PosInf
  | NegInf, _ | _, NegInf => NegInf
  end.

(** [x - y]. *)
Definition sub (x y : number) : number := add x (neg y).

(** The infinity whose sign is the sign of [q] times the sign of [inf];
    [NaN] for [q == 0]. *)
Definition scaleInf (positive : bool) (q : Q) : number :=
  match q ?= 0 with
  | Eq => NaN
  | Gt => if positive then PosInf else NegInf
  | Lt => if positive then NegInf else PosInf
  end.

(** [x * y]. *)
Definition mul (x y : number) : number :=
  match x, y with
  | NaN, _ | _, NaN => NaN
  | Fin a, Fin b => Fin (a * b)
  | PosInf, Fin b => scaleInf true b
  | NegInf, Fin b => scaleInf false b
  | Fin a, PosInf => scaleInf true a
  | Fin a, NegInf => scaleInf false a
  | PosInf, PosInf | NegInf, NegInf => PosInf
  | PosInf, NegInf | NegInf, PosInf => NegInf
  end.

(** [x / y].  A finite non-zero value divided by zero is an infinity, [0/0]
    is [NaN]. *)
Definition div (x y : number) : number :=
  match x, y with
  | NaN, _ | _, NaN => NaN
  | Fin a, Fin b =>
      if Qeq_bool b 0 then
        match a ?= 0 with
        | Eq => NaN
        | Gt => PosInf
        | Lt => NegInf
        end
      else Fin (a / b)
  | Fin _, (PosInf | NegInf) => Fin 0
  | PosInf, Fin b => if Qle_bool 0 b then PosInf else NegInf
  | NegInf, Fin b => if Qle_bool 0 b then NegInf else PosInf
  | (PosInf | NegInf), (PosInf | NegInf) => NaN
  end.

(** [Math.pow(x, n)] at a whole exponent [n]. *)
Definition pow (x : number) (n : Z) : number :=
  if (n =? 0)%Z then Fin 1
  else
    match x with
    | NaN => NaN
    | Fin q =>
        if (n <? 0)%Z && Qeq_bool q 0 then PosInf else Fin (q ^ n)
    | PosInf => if (0 <? n)%Z then PosInf else Fin 0
    | NegInf =>
        if (0 <? n)%Z then (if Z.odd n then NegInf else PosInf) else Fin 0
    end.

(** [Math.round(x)]: the nearest integer, a tie going up. *)
Definition roundQ (q : Q) : Z := Qfloor (q + (1 # 2)).

Definition round (x : number) : number :=
  match x with
  | Fin q => ofZ (roundQ q)
  | other => other
  end.

(** [x < y]; false as soon as one side is [NaN]. *)
Definition lt (x y : number) : bool :=
  match x, y with
  | NaN, _ | _, NaN => false
  | Fin a, Fin b => negb (Qle_bool b a)
  | _, NegInf => false
  | NegInf, _ => true
  | PosInf, _ => false
  | Fin _, PosInf => true
  end.

(** [x <= y], [x >= y], [x > y] of the language. *)
Definition le (x y : number) : bool :=
  match x, y with
  | NaN, _ | _, NaN => false
  | Fin a, Fin b => Qle_bool a b
  | NegInf, _ => true
  | _, PosInf => true
  | _, NegInf => false
  | PosInf, _ => false
  end.

Definition gt (x y : number) : bool := lt y x.

(** Truthiness of a number: [0] and [NaN] are falsy. *)
Definition truthy (x : number) : bool :=
  match x with
  | Fin q => negb (Qeq_bool q 0)
  | NaN => false
  | _ => true
  end.

Definition isNaN (x : number) : bool :=
  match x with NaN => true | _ => false end.

Definition isFinite (x : number) : bool :=
  match x with Fin _ => true | _ => false end.

(** Mathematical equality of two numbers of the model (the fractions
    [1/2] and [2/4] are the same number). *)
Definition same (x y : number) : Prop :=
  match x, y with
  | Fin a, Fin b => a == b
  | PosInf, PosInf | NegInf, NegInf | NaN, NaN => True
  | _, _ => False
  end.

(** *** [Number.prototype.toFixed] *)

Definition digitsOfZ (z : Z) : string :=
  NilZero.string_of_uint (N.to_uint (Z.to_N z)).

Fixpoint zeros (k : nat) : string :=
  match k with
  | O => EmptyString
  | S k' => String "0"%char (zeros k')
  end.

(** [x.toFixed(f)].  The sign is split off first, the magnitude is scaled by
    [10^f] and rounded to the nearest integer [n] (the larger one on a tie),
    and the digits of [n] are padded to [f+1] places before the point is
    inserted.  Magnitudes of [10^21] and more, which the language prints in
    exponent notation, are printed positionally as well. *)
Definition toFixed (f : nat) (x : number) : string :=
  match x with
  | NaN => "NaN"
  | PosInf => "Infinity"
  | NegInf => "-Infinity"
  | Fin q =>
      let s := if Qle_bool 0 q then EmptyString else "-"%string in
      let n := roundQ (Qabs q * inject_Z (10 ^ Z.of_nat f)) in
      let m := digitsOfZ n in
      let m := (zeros (S f - String.length m) ++ m)%string in
      let k := String.length m in
      match f with
      | O => (s ++ m)%string
      | _ => (s ++ substring 0 (k - f) m ++ "." ++ substring (k - f) f m)%string
      end
  end.

End JsNum.

Import JsNum.

Declare Scope js_scope.
Delimit Scope js_scope with js.
Infix "+" := add : js_scope.
Infix "-" := sub : js_scope.
Infix "*" := mul : js_scope.
Infix "/" := div : js_scope.
Infix "<" := lt : js_scope.

(** Decimal literals of the program. *)
Definition lit (num : Z) (den : positive) : number := Fin (num # den).

(* ================================================================== *)
(** ** Values that may be absent: [undefined], and the [||] operator *)

(** [o || d] for an optional number. *)
Definition orNum (o : option number) (d : number) : number :=
  match o with
  | Some v => if truthy v then v else d
  | None => d
  end.

(** Truthiness of an optional number, as tested by [if (x)]. *)
Definition truthyNum (o : option number) : bool :=
  match o with
  | Some v => truthy v
  | None => false
  end.

Definition nonEmpty (s : string) : bool :=
  match s with EmptyString => false | _ => true end.

(** Truthiness of an optional string: [undefined] and [""] are falsy. *)
Definition truthyStr (o : option string) : bool :=
  match o with
  | Some s => nonEmpty s
  | None => false
  end.

(** [a || b] where both sides may be [undefined]. *)
Definition orStrOpt (a b : option string) : option string :=
  if truthyStr a then a else b.

(** [a || d] with a string literal on the right. *)
Definition orStr (a : option string) (d : string) : string :=
  match a with
  | Some s => if nonEmpty s then s else d
  | None => d
  end.

(** Interpolation of a possibly absent string in a template literal. *)
Definition showStrOpt (a : option string) : string :=
  match a with
  | Some s => s
  | None => "undefined"
  end.

(* ================================================================== *)
(** ** Completions: a call returns a value or throws *)

Inductive exn : Type :=
| ErrorObj (message : string)   (* an instance of [Error] *)
| OtherThrown.                  (* any other thrown value *)

Inductive completion (A : Type) : Type :=
| Normal (a : A)
| Throw (e : exn).

Arguments Normal {A} a.
Arguments Throw {A} e.

Definition returns {A : Type} (c : completion A) : Prop :=
  exists a, c = Normal a.

Definition throws {A : Type} (c : completion A) : Prop :=
  exists e, c = Throw e.

(* ================================================================== *)
(** ** Provider data, as declared in [zillow-api.ts]

    Every field of a provider reply may be missing at run time; the handlers
    guard their reads with [?.] and [||], so each field is optional here. *)

Inductive StatusType : Type := ForSale | ForRent.

Definition statusTypeName (s : StatusType) : string :=
  match s with
  | ForSale => "ForSale"
  | ForRent => "ForRent"
  end.

Module PropertyDetails.
Record t : Type := mk {
  zpid : option string;
  address : option string;
  price : option number;
  bedrooms : option number;
  bathrooms : option number;
  livingArea : option number;
  propertyType : option string;
  listingStatus : option string;
  imgSrc : option string;
  latitude : option number;
  longitude : option number;
  daysOnZillow : option number;
  lotAreaValue : option number;
  lotAreaUnit : option string;
  hasImage : option bool
}.
End PropertyDetails.

Module SearchResult.
Record t : Type := mk {
  totalResultCount : option number;
  resultsPerPage : option number;
  totalPages : option number;
  currentPage : option number;
  props : option (list PropertyDetails.t)
}.
End SearchResult.

Module MetaData.
Record t : Type := mk {
  lat : option number;
  lng : option number;
  regionType : option string
}.
End MetaData.

Module LocationSuggestion.
Record t : Type := mk {
  display : option string;
  name : option string;
  metaData : option MetaData.t
}.
End LocationSuggestion.

Module ResultGroup.
Record t : Type := mk {
  results : option (list LocationSuggestion.t)
}.
End ResultGroup.

Module LocationSuggestions.
Record t : Type := mk {
  resultGroups : option (list ResultGroup.t)
}.
End LocationSuggestions.

Module PropertySearchParams.
Record t : Type := mk {
  location : string;
  status_type : option StatusType;
  home_type : option string;
  minPrice : option number;
  maxPrice : option number;
  bathsMin : option number;
  bedsMin : option number;
  sqftMin : option number;
  sqftMax : option number;
  page : option number;
  sort : option string
}.
End PropertySearchParams.

Module CoordinateParams.
Record t : Type := mk {
  lat : number;
  lng : number;
  status_type : option StatusType;
  radius : option number;
  page : option number
}.
End CoordinateParams.

(** *** Outbound requests *)

Inductive qvalue : Type :=
| QStr (s : string)
| QNum (x : number).

(** One [fetch]: the endpoint and the query parameters appended to the URL,
    in order. *)
Record Request : Type := mkRequest {
  endpoint : string;
  query : list (string * qvalue)
}.

(** The provider and the rest of the environment.  A reply is a function of
    what was asked before and of the request; a failed call (network error,
    non-success status, unreadable body) is a thrown [Error].
    [randomIds k] is the [k]-th value of [String(Math.random())]. *)
Record World : Type := mkWorld {
  fetchSearch : list Request -> Request -> completion (option SearchResult.t);
  fetchSuggestions :
    list Request -> Request -> completion (option LocationSuggestions.t);
  randomIds : nat -> string
}.

(** The host's printing of numbers: [String(x)] / template interpolation,
    and [x.toLocaleString()]. *)
Class Host : Type := mkHost {
  numberToString : number -> string;
  toLocaleString : number -> string
}.

(** What a run has done so far: the requests issued, oldest first, and how
    many random identifiers were drawn. *)
Record State : Type := mkState {
  trace : list Request;
  randoms : nat
}.

Definition initState : State := {| trace := []; randoms := 0 |}.

(* ================================================================== *)
(** ** Effectful code: state passing with exceptions *)

Definition M (A : Type) : Type := State -> completion A * State.

Definition ret {A : Type} (a : A) : M A := fun s => (Normal a, s).

Definition bind {A B : Type} (m : M A) (k : A -> M B) : M B :=
  fun s =>
    match m s with
    | (Normal a, s') => k a s'
    | (Throw e, s') => (Throw e, s')
    end.

Definition throw {A : Type} (e : exn) : M A := fun s => (Throw e, s).

(** [try { m } catch (e) { ... }], with the outcome of [m] handed to the
    continuation; effects made before a throw persist. *)
Definition attempt {A : Type} (m : M A) : M (completion A) :=
  fun s => let (c, s') := m s in (Normal c, s').

Definition liftC {A : Type} (c : completion A) : M A := fun s => (c, s).

Declare Scope m_scope.
Delimit Scope m_scope with M.
Notation "x <- m ;; k" := (bind m (fun x => k))
  (at level 61, m at next level, right associativity) : m_scope.
Notation "' pat <- m ;; k" := (bind m (fun x => match x with pat => k end))
  (at level 61, pat pattern, m at next level, right associativity) : m_scope.

(** [String(Math.random())]. *)
Definition randomId (w : World) : M string :=
  fun s =>
    (Normal (randomIds w (randoms s)),
     {| trace := trace s; randoms := S (randoms s) |}).

(* ================================================================== *)
(** ** The class [ZillowApiClient] *)

Module AffordabilityParams.
Record t : Type := mk {
  annualIncome : number;
  downPayment : number;
  creditScore : number;
  monthlyDebts : number;
  interestRate : option number
}.
End AffordabilityParams.

Module Breakdown.
Record t : Type := mk {
  principalAndInterest : number;
  propertyTax : number;
  insurance : number;
  pmi : number;
  total : number
}.
End Breakdown.

Module Assumptions.
Record t : Type := mk {
  loanTerm : number;
  propertyTaxRate : number;
  insuranceRate : number;
  maxDtiRatio : number
}.
End Assumptions.

Module AffordabilityResult.
Record t : Type := mk {
  maxHomePrice : number;
  monthlyPayment : number;
  loanAmount : number;
  downPayment : number;
  interestRate : number;
  creditScore : number;
  dtiRatio : string;
  breakdown : Breakdown.t;
  assumptions : Assumptions.t
}.
End AffordabilityResult.

Module MortgageParams.
(** The loan term is a whole number of years (the tool schema offers 15
    and 30), so [Math.pow] is only ever needed at a whole exponent. *)
Record t : Type := mk {
  homePrice : number;
  downPayment : number;
  interestRate : number;
  loanTerm : Z
}.
End MortgageParams.

Module MortgagePaymentResult.
Record t : Type := mk {
  homePrice : number;
  downPayment : number;
  loanAmount : number;
  interestRate : number;
  loanTerm : Z;
  monthlyPayment : number;
  totalPayment : number;
  totalInterest : number;
  apr : number
}.
End MortgagePaymentResult.

Module ZillowApiClient.

Local Open Scope string_scope.
Local Open Scope list_scope.
Local Open Scope js_scope.

(** *** Network methods *)

Section Network.
Variable w : World.

(** [makeRequest] appends every parameter that is neither [undefined] nor
    [null] to the URL, performs the [fetch], throws on a non-success
    status and otherwise returns the decoded body. *)
Fixpoint present (params : list (string * option qvalue))
  : list (string * qvalue) :=
  match params with
  | [] => []
  | (k, Some v) :: rest => (k, v) :: present rest
  | (_, None) :: rest => present rest
  end.

Definition makeRequest {T : Type}
    (fetch : World -> list Request -> Request -> completion T)
    (endpoint : string) (params : list (string * option qvalue)) : M T :=
  fun s =>
    let req := mkRequest endpoint (present params) in
    (fetch w (trace s) req,
     {| trace := trace s ++ [req]; randoms := randoms s |}).

(** [if (v) apiParams.k = v;] for a number and for a string. *)
Definition optNum (k : string) (v : option number)
  : list (string * option qvalue) :=
  match v with
  | Some x => if truthy x then [(k, Some (QNum x))] else []
  | None => []
  end.

Definition optStr (k : string) (v : option string)
  : list (string * option qvalue) :=
  match v with
  | Some x => if nonEmpty x then [(k, Some (QStr x))] else []
  | None => []
  end.

Definition statusOrForSale (s : option StatusType) : StatusType :=
  match s with
  | Some st => st
  | None => ForSale
  end.

(** The [apiParams] object built by [searchProperties]. *)
Definition searchApiParams (params : PropertySearchParams.t)
  : list (string * option qvalue) :=
  [ ("location", Some (QStr (PropertySearchParams.location params)));
    ("status_type",
     Some (QStr (statusTypeName
                   (statusOrForSale
                      (PropertySearchParams.status_type params)))));
    ("page", Some (QNum (orNum (PropertySearchParams.page params) (ofZ 1)))) ]
  ++ optStr "home_type" (PropertySearchParams.home_type params)
  ++ optNum "minPrice" (PropertySearchParams.minPrice params)
  ++ optNum "maxPrice" (PropertySearchParams.maxPrice params)
  ++ optNum "bathsMin" (PropertySearchParams.bathsMin params)
  ++ optNum "bedsMin" (PropertySearchParams.bedsMin params)
  ++ optNum "sqftMin" (PropertySearchParams.sqftMin params)
  ++ optNum "sqftMax" (PropertySearchParams.sqftMax params)
  ++ optStr "sort" (PropertySearchParams.sort params).

(** Reading [result.totalResultCount] for the log line: a [null] body is a
    TypeError (V8's wording), thrown inside the [try]. *)
Definition readTotalResultCount (result : option SearchResult.t)
  : M (option SearchResult.t) :=
  match result with
  | None =>
      throw
        (ErrorObj
           "Cannot read properties of null (reading 'totalResultCount')")
  | Some _ => ret result
  end.

(** [searchProperties]: the reply is logged with its [totalResultCount] and
    returned; the [catch] logs and rethrows. *)
Definition searchProperties (params : PropertySearchParams.t)
  : M (option SearchResult.t) :=
  bind (makeRequest fetchSearch "/propertyExtendedSearch"
          (searchApiParams params))
       readTotalResultCount.

Definition coordinateApiParams (params : CoordinateParams.t)
  : list (string * option qvalue) :=
  [ ("lat", Some (QNum (CoordinateParams.lat params)));
    ("lng", Some (QNum (CoordinateParams.lng params)));
    ("status_type",
     Some (QStr (statusTypeName
                   (statusOrForSale (CoordinateParams.status_type params)))));
    ("page", Some (QNum (orNum (CoordinateParams.page params) (ofZ 1)))) ]
  ++ optNum "radius" (CoordinateParams.radius params).

Definition searchPropertiesByCoordinates (params : CoordinateParams.t)
  : M (option SearchResult.t) :=
  bind (makeRequest fetchSearch "/propertyByCoordinates"
          (coordinateApiParams params))
       readTotalResultCount.

Definition searchLocationSuggestions (location : string)
  : M (option LocationSuggestions.t) :=
  makeRequest fetchSuggestions "/locationSuggestions"
    [("location", Some (QStr location))].
End Network.

(** *** Calculations *)

(** The intermediate constants of [calculateAffordability], in the order of
    the source. *)
Section AffordabilitySteps.
Variable params : AffordabilityParams.t.

Definition interestRate : number :=
  match AffordabilityParams.interestRate params with
  | Some r => r
  | None => lit 65 10
  end.

Definition monthlyIncome : number :=
  AffordabilityParams.annualIncome params / ofZ 12.

Definition maxMonthlyPayment : number :=
  (monthlyIncome * lit 43 100) - AffordabilityParams.monthlyDebts params.

Definition monthlyRate : number := interestRate / ofZ 100 / ofZ 12.

Definition numPayments : Z := (30 * 12)%Z.

Definition maxLoanAmount : number :=
  maxMonthlyPayment *
  ((pow (ofZ 1 + monthlyRate) numPayments - ofZ 1) /
   (monthlyRate * pow (ofZ 1 + monthlyRate) numPayments)).

Definition maxHomePrice : number :=
  round (maxLoanAmount + AffordabilityParams.downPayment params).

Definition estimatedMonthlyPayment : number := round maxMonthlyPayment.

Definition principalAndInterest : number :=
  round (maxLoanAmount *
         (monthlyRate * pow (ofZ 1 + monthlyRate) numPayments) /
         (pow (ofZ 1 + monthlyRate) numPayments - ofZ 1)).

Definition propertyTax : number :=
  round (maxHomePrice * lit 12 1000 / ofZ 12).

Definition insurance : number :=
  round (maxHomePrice * lit 4 1000 / ofZ 12).

Definition pmi : number :=
  if AffordabilityParams.downPayment params < maxHomePrice * lit 2 10
  then round (maxLoanAmount * lit 5 1000 / ofZ 12)
  else ofZ 0.

Definition calculateAffordability : completion AffordabilityResult.t :=
  Normal
    {| AffordabilityResult.maxHomePrice := maxHomePrice;
       AffordabilityResult.monthlyPayment := estimatedMonthlyPayment;
       AffordabilityResult.loanAmount := round maxLoanAmount;
       AffordabilityResult.downPayment :=
         AffordabilityParams.downPayment params;
       AffordabilityResult.interestRate := interestRate;
       AffordabilityResult.creditScore :=
         AffordabilityParams.creditScore params;
       AffordabilityResult.dtiRatio :=
         toFixed 2
           ((estimatedMonthlyPayment + AffordabilityParams.monthlyDebts params)
            / monthlyIncome * ofZ 100);
       AffordabilityResult.breakdown :=
         {| Breakdown.principalAndInterest := principalAndInterest;
            Breakdown.propertyTax := propertyTax;
            Breakdown.insurance := insurance;
            Breakdown.pmi := pmi;
            Breakdown.total :=
              principalAndInterest + propertyTax + insurance + pmi |};
       AffordabilityResult.assumptions :=
         {| Assumptions.loanTerm := ofZ 30;
            Assumptions.propertyTaxRate := lit 12 10;
            Assumptions.insuranceRate := lit 4 10;
            Assumptions.maxDtiRatio := ofZ 43 |} |}.
End AffordabilitySteps.

(** [calculateMortgagePayment]. *)
Definition calculateMortgagePayment (params : MortgageParams.t)
  : completion MortgagePaymentResult.t :=
  let homePrice := MortgageParams.homePrice params in
  let downPayment := MortgageParams.downPayment params in
  let interestRate := MortgageParams.interestRate params in
  let loanTerm := MortgageParams.loanTerm params in
  let loanAmount := homePrice - downPayment in
  let monthlyRate := interestRate / ofZ 100 / ofZ 12 in
  let numPayments := (loanTerm * 12)%Z in
  let monthlyPayment :=
    round (loanAmount * (monthlyRate * pow (ofZ 1 + monthlyRate) numPayments) /
           (pow (ofZ 1 + monthlyRate) numPayments - ofZ 1)) in
  let totalPayment := monthlyPayment * ofZ numPayments in
  let totalInterest := totalPayment - loanAmount in
  Normal
    {| MortgagePaymentResult.homePrice := homePrice;
       MortgagePaymentResult.downPayment := downPayment;
       MortgagePaymentResult.loanAmount := loanAmount;
       MortgagePaymentResult.interestRate := interestRate;
       MortgagePaymentResult.loanTerm := loanTerm;
       MortgagePaymentResult.monthlyPayment := monthlyPayment;
       MortgagePaymentResult.totalPayment := totalPayment;
       MortgagePaymentResult.totalInterest := totalInterest;
       MortgagePaymentResult.apr := interestRate + lit 2 10 |}.

End ZillowApiClient.

(* ================================================================== *)
(** ** The tool dispatcher of [server.ts] *)

(** An arbitrary JSON value (the [filters] argument is passed through). *)
#[local] Unset Elimination Schemes.
Inductive json : Type :=
| JNull
| JBool (b : bool)
| JNum (x : number)
| JStr (s : string)
| JArr (items : list json)
| JObj (fields : list (string * json)).
#[local] Set Elimination Schemes.

Module Server.

Local Open Scope string_scope.

(** *** Widgets and presentation metadata *)

Record ZillowWidget : Type := mkWidget {
  id : string;
  title : string;
  templateUri : string;
  invoking : string;
  invoked : string;
  responseText : string
}.

Record WidgetMeta : Type := mkWidgetMeta {
  outputTemplate : string;
  toolInvoking : string;
  toolInvoked : string;
  widgetAccessible : bool;
  resultCanProduceWidget : bool
}.

Definition widgetMeta (widget : ZillowWidget) : WidgetMeta :=
  {| outputTemplate := templateUri widget;
     toolInvoking := invoking widget;
     toolInvoked := invoked widget;
     widgetAccessible := true;
     resultCanProduceWidget := true |}.

Definition areasWidget : ZillowWidget :=
  {| id := "zillow_city_neighborhood_real_estate_information";
     title := "Zillow Areas & Neighborhoods";
     templateUri := "ui://widget/zillow-areas.html";
     invoking := "Working with Zillow to find areas";
     invoked := "Loaded areas with Zillow";
     responseText := "Found matching areas and neighborhoods" |}.

Definition affordabilityWidget : ZillowWidget :=
  {| id := "calculateHomeAffordability";
     title := "Home Affordability Calculator";
     templateUri := "ui://widget/zillow-buyability.html";
     invoking :=
       "Working with Zillow Home Loans (NMLS ID#: 10287) to calculate affordability";
     invoked :=
       "Loaded affordability calculator with Zillow Home Loans (NMLS ID#: 10287)";
     responseText := "Calculated home affordability" |}.

Definition propertySearchWidget : ZillowWidget :=
  {| id := "zillow_property_search";
     title := "Zillow Property Search";
     templateUri := "ui://widget/zillow-property-search.html";
     invoking := "Working with Zillow to find properties";
     invoked := "Loaded properties with Zillow";
     responseText := "Found matching properties" |}.

(** The value returned by a tool call: the summary text, the structured
    payload, the presentation metadata and the error flag. *)
Record ToolResult (P : Type) : Type := mkToolResult {
  text : string;
  structuredContent : option P;
  meta : option WidgetMeta;
  isError : bool
}.

Arguments mkToolResult {P} _ _ _ _.
Arguments text {P} _.
Arguments structuredContent {P} _.
Arguments meta {P} _.
Arguments isError {P} _.

(** [error instanceof Error ? error.message : 'Unknown error']. *)
Definition errorMessage (e : exn) : string :=
  match e with
  | ErrorObj message => message
  | OtherThrown => "Unknown error"
  end.

Definition errorResult {P : Type} (prefix : string) (e : exn) : ToolResult P :=
  {| text := prefix ++ errorMessage e;
     structuredContent := None;
     meta := None;
     isError := true |}.

(** The client object [zillowApi]: present when [RAPIDAPI_KEY] is set. *)
Record ZillowApiConfig : Type := mkConfig {
  rapidApiKey : string;
  rapidApiHost : string
}.

(** *** Arguments of the tools (after validation) *)

Inductive PropertyIntent : Type := IntentForSale | IntentForRent | IntentBoth.

Inductive ListingType : Type := ListingForSale | ListingForRent.

Module AreasArgs.
Record t : Type := mk {
  location : string;
  propertyType : option PropertyIntent;
  filters : option json
}.
End AreasArgs.

Module AffordabilityArgs.
Record t : Type := mk {
  annualIncome : option number;
  downPayment : option number;
  creditScore : option number;
  monthlyDebts : option number;
  location : option string
}.
End AffordabilityArgs.

Module PropertySearchArgs.
Record t : Type := mk {
  location : string;
  listingType : option ListingType;
  minPrice : option number;
  maxPrice : option number;
  bedrooms : option number;
  bathrooms : option number;
  propertyType : option string;
  sqftMin : option number;
  sqftMax : option number
}.
End PropertySearchArgs.

(** *** Payloads *)

Module Area.
Record t : Type := mk {
  name : string;
  propertyCount : number;
  rentalCount : number;
  avgPrice : number;
  type : string;
  latitude : option number;
  longitude : option number;
  description : option string
}.
End Area.

Module Featured.
Record t : Type := mk {
  id : string;
  address : option string;
  price : number;
  subtitle : string;
  description : string;
  imageUrl : option string;
  latitude : option number;
  longitude : option number;
  bedrooms : option number;
  bathrooms : option number;
  sqft : option number;
  propertyType : option string
}.
End Featured.

Module AreasPayload.
Record t : Type := mk {
  location : string;
  propertyType : PropertyIntent;
  areas : list Area.t;
  featuredProperties : list Featured.t;
  filters : option json;
  totalResults : option number;
  usingMockData : bool
}.
End AreasPayload.

Module MockBreakdown.
Record t : Type := mk {
  principalAndInterest : number;
  propertyTax : number;
  insurance : number;
  pmi : number
}.
End MockBreakdown.

(** The affordability payload has one shape on the live path (the result of
    [calculateAffordability] spread, plus the location) and another on the
    fallback path. *)
Inductive AffordabilityPayload : Type :=
| AffordabilityLive
    (result : AffordabilityResult.t)
    (location : string) (latitude longitude : option number)
| AffordabilityMock
    (annualIncome downPayment creditScore monthlyDebts : number)
    (location : string) (latitude longitude : number)
    (maxHomePrice monthlyPayment interestRate : number)
    (breakdown : MockBreakdown.t)
    (usingMockData : bool).

Module PropertyCard.
Record t : Type := mk {
  id : option string;
  address : option string;
  price : option number;
  bedrooms : option number;
  bathrooms : option number;
  sqft : option number;
  propertyType : option string;
  imageUrl : option string;
  listingType : ListingType;
  listingStatus : option string;
  daysOnZillow : option number;
  latitude : option number;
  longitude : option number;
  lotAreaValue : option number;
  lotAreaUnit : option string;
  hasImage : option bool
}.
End PropertyCard.

Module SearchFilters.
Record t : Type := mk {
  minPrice : option number;
  maxPrice : option number;
  bedrooms : option number;
  bathrooms : option number;
  propertyType : option string;
  sqftMin : option number;
  sqftMax : option number
}.
End SearchFilters.

Module SearchPayload.
Record t : Type := mk {
  location : string;
  listingType : ListingType;
  filters : SearchFilters.t;
  properties : list PropertyCard.t;
  totalResults : number;
  currentPage : option number;
  totalPages : option number;
  usingMockData : bool
}.
End SearchPayload.

(** *** The handlers *)

Section Handlers.
Context {host : Host}.
Variable w : World.

Local Open Scope list_scope.
Local Open Scope m_scope.

Definition showNat (n : nat) : string := numberToString (ofZ (Z.of_nat n)).

(** **** [zillow_city_neighborhood_real_estate_information] *)

Definition wantsSale (propertyType : option PropertyIntent) : bool :=
  match propertyType with
  | Some IntentForSale | Some IntentBoth | None => true
  | Some IntentForRent => false
  end.

Definition wantsRent (propertyType : option PropertyIntent) : bool :=
  match propertyType with
  | Some IntentForRent | Some IntentBoth => true
  | _ => false
  end.

(** The object pushed for one listing of an area. *)
Definition featuredOf (location : LocationSuggestion.t)
    (propertyCount : number) (id : string) (prop : PropertyDetails.t)
  : Featured.t :=
  {| Featured.id := id;
     Featured.address :=
       orStrOpt (PropertyDetails.address prop)
                (LocationSuggestion.display location);
     Featured.price := orNum (Some propertyCount) (ofZ 0);
     Featured.subtitle := orStr (PropertyDetails.listingStatus prop) "For Sale";
     Featured.description :=
       (orStr (PropertyDetails.propertyType prop) "Property" ++ " - "
        ++ numberToString (orNum (PropertyDetails.bedrooms prop) (ofZ 0))
        ++ " bed, "
        ++ numberToString (orNum (PropertyDetails.bathrooms prop) (ofZ 0))
        ++ " bath")%string;
     Featured.imageUrl := PropertyDetails.imgSrc prop;
     Featured.latitude := PropertyDetails.latitude prop;
     Featured.longitude := PropertyDetails.longitude prop;
     Featured.bedrooms := PropertyDetails.bedrooms prop;
     Featured.bathrooms := PropertyDetails.bathrooms prop;
     Featured.sqft := PropertyDetails.livingArea prop;
     Featured.propertyType := PropertyDetails.propertyType prop |}.

(** [propsToAdd.forEach(...)]: each listing is pushed while fewer than 8
    are held. *)
Fixpoint pushFeatured (location : LocationSuggestion.t)
    (propertyCount : number) (propsToAdd : list PropertyDetails.t)
    (featuredProperties : list Featured.t) : M (list Featured.t) :=
  match propsToAdd with
  | [] => ret featuredProperties
  | prop :: rest =>
      featuredProperties' <-
        (if (List.length featuredProperties <? 8)%nat then
           id <- (if truthyStr (PropertyDetails.zpid prop)
                  then ret (showStrOpt (PropertyDetails.zpid prop))
                  else randomId w) ;;
           ret (featuredProperties
                ++ [featuredOf location propertyCount id prop])
         else ret featuredProperties) ;;
      pushFeatured location propertyCount rest featuredProperties'
  end.

(** The for-sale part of the [try] block. *)
Definition salePhase (args : AreasArgs.t) (location : LocationSuggestion.t)
    (lat lng : number) (featuredProperties : list Featured.t)
  : M (number * list Featured.t) :=
  if wantsSale (AreasArgs.propertyType args) then
    saleResults <-
      ZillowApiClient.searchPropertiesByCoordinates w
        {| CoordinateParams.lat := lat;
           CoordinateParams.lng := lng;
           CoordinateParams.status_type := Some ForSale;
           CoordinateParams.radius := None;
           CoordinateParams.page := Some (ofZ 1) |} ;;
    let propertyCount :=
      orNum (match saleResults with
             | Some r => SearchResult.totalResultCount r
             | None => None
             end) (ofZ 0) in
    match saleResults with
    | Some {| SearchResult.props := Some props |} =>
        if (List.length featuredProperties <? 8)%nat then
          featuredProperties' <-
            pushFeatured location propertyCount (firstn 2 props)
              featuredProperties ;;
          ret (propertyCount, featuredProperties')
        else ret (propertyCount, featuredProperties)
    | _ => ret (propertyCount, featuredProperties)
    end
  else ret (ofZ 0, featuredProperties).

(** The for-rent part of the [try] block. *)
Definition rentPhase (args : AreasArgs.t) (lat lng : number) : M number :=
  if wantsRent (AreasArgs.propertyType args) then
    rentResults <-
      ZillowApiClient.searchPropertiesByCoordinates w
        {| CoordinateParams.lat := lat;
           CoordinateParams.lng := lng;
           CoordinateParams.status_type := Some ForRent;
           CoordinateParams.radius := None;
           CoordinateParams.page := Some (ofZ 1) |} ;;
    ret (orNum (match rentResults with
                | Some r => SearchResult.totalResultCount r
                | None => None
                end) (ofZ 0))
  else ret (ofZ 0).

(** The counts of one area.  A failure of either search is caught and
    logged; what was assigned before it stays. *)
Definition areaCounts (args : AreasArgs.t) (location : LocationSuggestion.t)
    (lat lng : option number) (featuredProperties : list Featured.t)
  : M (number * number * list Featured.t) :=
  match lat, lng with
  | Some la, Some ln =>
      if truthy la && truthy ln then
        sale <- attempt (salePhase args location la ln featuredProperties) ;;
        match sale with
        | Throw _ => ret (ofZ 0, ofZ 0, featuredProperties)
        | Normal (propertyCount, featuredProperties') =>
            rent <- attempt (rentPhase args la ln) ;;
            match rent with
            | Throw _ => ret (propertyCount, ofZ 0, featuredProperties')
            | Normal rentalCount =>
                ret (propertyCount, rentalCount, featuredProperties')
            end
        end
      else ret (ofZ 0, ofZ 0, featuredProperties)
  | _, _ => ret (ofZ 0, ofZ 0, featuredProperties)
  end.

Definition metaLat (location : LocationSuggestion.t) : option number :=
  match LocationSuggestion.metaData location with
  | Some m => MetaData.lat m
  | None => None
  end.

Definition metaLng (location : LocationSuggestion.t) : option number :=
  match LocationSuggestion.metaData location with
  | Some m => MetaData.lng m
  | None => None
  end.

Definition metaRegionType (location : LocationSuggestion.t) : option string :=
  match LocationSuggestion.metaData location with
  | Some m => MetaData.regionType m
  | None => None
  end.

(** The object pushed to [areas]. *)
Definition areaOf (args : AreasArgs.t) (location : LocationSuggestion.t)
    (propertyCount rentalCount : number) : Area.t :=
  let shown :=
    orStrOpt (LocationSuggestion.display location)
             (LocationSuggestion.name location) in
  {| Area.name :=
       (if truthyStr shown then showStrOpt shown else AreasArgs.location args);
     Area.propertyCount := propertyCount;
     Area.rentalCount := rentalCount;
     Area.avgPrice := ofZ 0;
     Area.type := orStr (metaRegionType location) "neighborhood";
     Area.latitude := metaLat location;
     Area.longitude := metaLng location;
     Area.description :=
       Some (showStrOpt shown ++ " - " ++ numberToString propertyCount
             ++ " homes for sale"
             ++ (if gt rentalCount (ofZ 0)
                 then ", " ++ numberToString rentalCount ++ " for rent"
                 else ""))%string |}.

(** The loop over the candidate locations. *)
Fixpoint areaLoop (args : AreasArgs.t) (locations : list LocationSuggestion.t)
    (areas : list Area.t) (featuredProperties : list Featured.t)
  : M (list Area.t * list Featured.t) :=
  match locations with
  | [] => ret (areas, featuredProperties)
  | location :: rest =>
      counts <-
        areaCounts args location (metaLat location) (metaLng location)
          featuredProperties ;;
      match counts with
      | (propertyCount, rentalCount, featuredProperties') =>
          areaLoop args rest
            (areas ++ [areaOf args location propertyCount rentalCount])
            featuredProperties'
      end
  end.

(** [locationResults?.resultGroups?.[0]?.results]. *)
Definition firstGroupResults (locationResults : option LocationSuggestions.t)
  : option (list LocationSuggestion.t) :=
  match locationResults with
  | Some {| LocationSuggestions.resultGroups := Some (g :: _) |} =>
      ResultGroup.results g
  | _ => None
  end.

Definition intentOrBoth (p : option PropertyIntent) : PropertyIntent :=
  match p with
  | Some i => i
  | None => IntentBoth
  end.

Definition sumPropertyCounts (areas : list Area.t) : number :=
  fold_left
    (fun sum area => add sum (orNum (Some (Area.propertyCount area)) (ofZ 0)))
    areas (ofZ 0).

Definition areasLive (args : AreasArgs.t) : M (ToolResult AreasPayload.t) :=
  locationResults <-
    ZillowApiClient.searchLocationSuggestions w (AreasArgs.location args) ;;
  collected <-
    match firstGroupResults locationResults with
    | Some results => areaLoop args (firstn 5 results) [] []
    | None => ret ([], [])
    end ;;
  match collected with
  | (areas, featuredProperties) =>
      let totalResults := sumPropertyCounts areas in
      ret {| text :=
               ("Found " ++ showNat (List.length areas) ++ " areas in "
                ++ AreasArgs.location args ++ " with "
                ++ numberToString totalResults
                ++ " properties available.")%string;
             structuredContent :=
               Some {| AreasPayload.location := AreasArgs.location args;
                       AreasPayload.propertyType :=
                         intentOrBoth (AreasArgs.propertyType args);
                       AreasPayload.areas := areas;
                       AreasPayload.featuredProperties := featuredProperties;
                       AreasPayload.filters := AreasArgs.filters args;
                       AreasPayload.totalResults := Some totalResults;
                       AreasPayload.usingMockData := false |};
             meta := Some (widgetMeta areasWidget);
             isError := false |}
  end.

Definition mockAreas (args : AreasArgs.t) : list Area.t :=
  [ {| Area.name := (AreasArgs.location args ++ " - Downtown")%string;
       Area.propertyCount := ofZ 45;
       Area.rentalCount := ofZ 32;
       Area.avgPrice := ofZ 450000;
       Area.type := "neighborhood";
       Area.latitude := Some (lit 476062 10000);
       Area.longitude := Some (lit (-1223321) 10000);
       Area.description := None |};
    {| Area.name := (AreasArgs.location args ++ " - Suburbs")%string;
       Area.propertyCount := ofZ 120;
       Area.rentalCount := ofZ 85;
       Area.avgPrice := ofZ 350000;
       Area.type := "neighborhood";
       Area.latitude := Some (lit 476205 10000);
       Area.longitude := Some (lit (-1223209) 10000);
       Area.description := None |} ].

Definition mockFeaturedProperties : list Featured.t :=
  [ {| Featured.id := "1";
       Featured.address := Some "Capitol Hill, WA";
       Featured.price := ofZ 45;
       Featured.subtitle := "Urban living";
       Featured.description := "Vibrant neighborhood with great nightlife";
       Featured.imageUrl :=
         Some "https://photos.zillowstatic.com/fp/d6025c6891ff0e4f6c3b1b5e1eac3f09-cc_ft_768.webp";
       Featured.latitude := Some (lit 476205 10000);
       Featured.longitude := Some (lit (-1223209) 10000);
       Featured.bedrooms := None;
       Featured.bathrooms := None;
       Featured.sqft := None;
       Featured.propertyType := None |};
    {| Featured.id := "2";
       Featured.address := Some "Queen Anne, WA";
       Featured.price := ofZ 32;
       Featured.subtitle := "Hilltop views";
       Featured.description := "Stunning views of the city and mountains";
       Featured.imageUrl :=
         Some "https://photos.zillowstatic.com/fp/3c4e2d3c1b8f7e9a5c6d8e2f3a4b5c6d-cc_ft_768.webp";
       Featured.latitude := Some (lit 476369 10000);
       Featured.longitude := Some (lit (-1223573) 10000);
       Featured.bedrooms := None;
       Featured.bathrooms := None;
       Featured.sqft := None;
       Featured.propertyType := None |} ].

Definition areasMock (args : AreasArgs.t) : ToolResult AreasPayload.t :=
  {| text :=
       ("Found " ++ showNat (List.length (mockAreas args)) ++ " areas in "
        ++ AreasArgs.location args
        ++ " (using demo data - set RAPIDAPI_KEY for real data).")%string;
     structuredContent :=
       Some {| AreasPayload.location := AreasArgs.location args;
               AreasPayload.propertyType :=
                 intentOrBoth (AreasArgs.propertyType args);
               AreasPayload.areas := mockAreas args;
               AreasPayload.featuredProperties := mockFeaturedProperties;
               AreasPayload.filters := AreasArgs.filters args;
               AreasPayload.totalResults := None;
               AreasPayload.usingMockData := true |};
     meta := Some (widgetMeta areasWidget);
     isError := false |}.

(** The whole case of the [switch]: the outer [catch] turns any failure
    into an error-flagged result. *)
Definition areasHandler (zillowApi : option ZillowApiConfig)
    (args : AreasArgs.t) : M (ToolResult AreasPayload.t) :=
  outcome <-
    attempt (match zillowApi with
             | Some _ => areasLive args
             | None => ret (areasMock args)
             end) ;;
  match outcome with
  | Normal result => ret result
  | Throw error =>
      ret (errorResult
             ("Error fetching data for " ++ AreasArgs.location args ++ ": ")
             error)
  end.

(** **** [calculateHomeAffordability] *)

(** [locationResults?.resultGroups?.[0]?.results?.[0]]. *)
Definition firstResult (locationResults : option LocationSuggestions.t)
  : option LocationSuggestion.t :=
  match firstGroupResults locationResults with
  | Some (r :: _) => Some r
  | _ => None
  end.

(** The coordinates shown with the result; a failed lookup is caught and
    leaves both [undefined]. *)
Definition locateForDisplay (location : option string)
  : M (option number * option number) :=
  match location with
  | Some l =>
      if nonEmpty l then
        looked <- attempt (ZillowApiClient.searchLocationSuggestions w l) ;;
        match looked with
        | Normal locationResults =>
            match firstResult locationResults with
            | Some first => ret (metaLat first, metaLng first)
            | None => ret (None, None)
            end
        | Throw _ => ret (None, None)
        end
      else ret (None, None)
  | None => ret (None, None)
  end.

Definition affordabilityLive (args : AffordabilityArgs.t)
  : M (ToolResult AffordabilityPayload) :=
  result <-
    liftC (ZillowApiClient.calculateAffordability
             {| AffordabilityParams.annualIncome :=
                  orNum (AffordabilityArgs.annualIncome args) (ofZ 75000);
                AffordabilityParams.downPayment :=
                  orNum (AffordabilityArgs.downPayment args) (ofZ 50000);
                AffordabilityParams.creditScore :=
                  orNum (AffordabilityArgs.creditScore args) (ofZ 720);
                AffordabilityParams.monthlyDebts :=
                  orNum (AffordabilityArgs.monthlyDebts args) (ofZ 500);
                AffordabilityParams.interestRate := None |}) ;;
  coordinates <- locateForDisplay (AffordabilityArgs.location args) ;;
  match coordinates with
  | (latitude, longitude) =>
      ret {| text :=
               ("Based on your financial profile, you can afford a home up to $"
                ++ toLocaleString (AffordabilityResult.maxHomePrice result)
                ++ " with an estimated monthly payment of $"
                ++ toLocaleString (AffordabilityResult.monthlyPayment result)
                ++ ". Your DTI ratio is "
                ++ AffordabilityResult.dtiRatio result ++ "%.")%string;
             structuredContent :=
               Some (AffordabilityLive result
                       (orStr (AffordabilityArgs.location args)
                              "United States")
                       latitude longitude);
             meta := Some (widgetMeta affordabilityWidget);
             isError := false |}
  end.

Definition affordabilityMock (args : AffordabilityArgs.t)
  : ToolResult AffordabilityPayload :=
  let income := orNum (AffordabilityArgs.annualIncome args) (ofZ 75000) in
  let downPayment := orNum (AffordabilityArgs.downPayment args) (ofZ 50000) in
  let maxHomePrice := round (add (mul income (ofZ 3)) downPayment) in
  let monthlyPayment := round (mul maxHomePrice (lit 5 1000)) in
  {| text :=
       ("Based on your financial profile, you can afford a home up to $"
        ++ toLocaleString maxHomePrice
        ++ " with an estimated monthly payment of $"
        ++ toLocaleString monthlyPayment
        ++ " (using demo calculation - set RAPIDAPI_KEY for real data).")%string;
     structuredContent :=
       Some (AffordabilityMock
               income downPayment
               (orNum (AffordabilityArgs.creditScore args) (ofZ 720))
               (orNum (AffordabilityArgs.monthlyDebts args) (ofZ 500))
               (orStr (AffordabilityArgs.location args) "United States")
               (lit 476062 10000) (lit (-1223321) 10000)
               maxHomePrice monthlyPayment (lit 65 10)
               {| MockBreakdown.principalAndInterest :=
                    round (mul monthlyPayment (lit 7 10));
                  MockBreakdown.propertyTax :=
                    round (mul monthlyPayment (lit 15 100));
                  MockBreakdown.insurance :=
                    round (mul monthlyPayment (lit 1 10));
                  MockBreakdown.pmi :=
                    round (mul monthlyPayment (lit 5 100)) |}
               true);
     meta := Some (widgetMeta affordabilityWidget);
     isError := false |}.

Definition affordabilityHandler (zillowApi : option ZillowApiConfig)
    (args : AffordabilityArgs.t) : M (ToolResult AffordabilityPayload) :=
  outcome <-
    attempt (match zillowApi with
             | Some _ => affordabilityLive args
             | None => ret (affordabilityMock args)
             end) ;;
  match outcome with
  | Normal result => ret result
  | Throw error =>
      ret (errorResult "Error calculating affordability: " error)
  end.

(** **** [zillow_property_search] *)

Definition listingOrForSale (l : option ListingType) : ListingType :=
  match l with
  | Some t => t
  | None => ListingForSale
  end.

(** [if (v) searchParams.k = v;]: the value is kept when truthy. *)
Definition keepNum (v : option number) : option number :=
  if truthyNum v then v else None.

Definition keepStr (v : option string) : option string :=
  if truthyStr v then v else None.

(** The [searchParams] object handed to the client. *)
Definition searchParamsOf (args : PropertySearchArgs.t)
  : PropertySearchParams.t :=
  {| PropertySearchParams.location := PropertySearchArgs.location args;
     PropertySearchParams.status_type :=
       Some (match PropertySearchArgs.listingType args with
             | Some ListingForRent => ForRent
             | _ => ForSale
             end);
     PropertySearchParams.home_type :=
       keepStr (PropertySearchArgs.propertyType args);
     PropertySearchParams.minPrice :=
       keepNum (PropertySearchArgs.minPrice args);
     PropertySearchParams.maxPrice :=
       keepNum (PropertySearchArgs.maxPrice args);
     PropertySearchParams.bathsMin :=
       keepNum (PropertySearchArgs.bathrooms args);
     PropertySearchParams.bedsMin :=
       keepNum (PropertySearchArgs.bedrooms args);
     PropertySearchParams.sqftMin :=
       keepNum (PropertySearchArgs.sqftMin args);
     PropertySearchParams.sqftMax :=
       keepNum (PropertySearchArgs.sqftMax args);
     PropertySearchParams.page := Some (ofZ 1);
     PropertySearchParams.sort := None |}.

Definition cardOf (args : PropertySearchArgs.t) (prop : PropertyDetails.t)
  : PropertyCard.t :=
  {| PropertyCard.id := PropertyDetails.zpid prop;
     PropertyCard.address := PropertyDetails.address prop;
     PropertyCard.price := PropertyDetails.price prop;
     PropertyCard.bedrooms := PropertyDetails.bedrooms prop;
     PropertyCard.bathrooms := PropertyDetails.bathrooms prop;
     PropertyCard.sqft := PropertyDetails.livingArea prop;
     PropertyCard.propertyType := PropertyDetails.propertyType prop;
     PropertyCard.imageUrl := PropertyDetails.imgSrc prop;
     PropertyCard.listingType :=
       listingOrForSale (PropertySearchArgs.listingType args);
     PropertyCard.listingStatus := PropertyDetails.listingStatus prop;
     PropertyCard.daysOnZillow := PropertyDetails.daysOnZillow prop;
     PropertyCard.latitude := PropertyDetails.latitude prop;
     PropertyCard.longitude := PropertyDetails.longitude prop;
     PropertyCard.lotAreaValue := PropertyDetails.lotAreaValue prop;
     PropertyCard.lotAreaUnit := PropertyDetails.lotAreaUnit prop;
     PropertyCard.hasImage := PropertyDetails.hasImage prop |}.

Definition propertySearchLive (args : PropertySearchArgs.t)
  : M (ToolResult SearchPayload.t) :=
  reply <- ZillowApiClient.searchProperties w (searchParamsOf args) ;;
  match reply with
  | None =>
      (* reading [.props] of [null] is a TypeError (V8's wording) *)
      throw (ErrorObj "Cannot read properties of null (reading 'props')")
  | Some searchResult =>
      let properties :=
        match SearchResult.props searchResult with
        | Some props => map (cardOf args) (firstn 10 props)
        | None => []
        end in
      let shownTotal :=
        orNum (SearchResult.totalResultCount searchResult)
              (ofZ (Z.of_nat (List.length properties))) in
      ret {| text :=
               ("Found " ++ numberToString shownTotal ++ " properties in "
                ++ PropertySearchArgs.location args
                ++ " matching your criteria. Showing "
                ++ showNat (List.length properties) ++ " results.")%string;
             structuredContent :=
               Some {| SearchPayload.location :=
                         PropertySearchArgs.location args;
                       SearchPayload.listingType :=
                         listingOrForSale
                           (PropertySearchArgs.listingType args);
                       SearchPayload.filters :=
                         {| SearchFilters.minPrice :=
                              PropertySearchArgs.minPrice args;
                            SearchFilters.maxPrice :=
                              PropertySearchArgs.maxPrice args;
                            SearchFilters.bedrooms :=
                              PropertySearchArgs.bedrooms args;
                            SearchFilters.bathrooms :=
                              PropertySearchArgs.bathrooms args;
                            SearchFilters.propertyType :=
                              PropertySearchArgs.propertyType args;
                            SearchFilters.sqftMin :=
                              PropertySearchArgs.sqftMin args;
                            SearchFilters.sqftMax :=
                              PropertySearchArgs.sqftMax args |};
                       SearchPayload.properties := properties;
                       SearchPayload.totalResults := shownTotal;
                       SearchPayload.currentPage :=
                         Some (orNum (SearchResult.currentPage searchResult)
                                     (ofZ 1));
                       SearchPayload.totalPages :=
                         Some (orNum (SearchResult.totalPages searchResult)
                                     (ofZ 1));
                       SearchPayload.usingMockData := false |};
             meta := Some (widgetMeta propertySearchWidget);
             isError := false |}
  end.

Definition mockProperties (args : PropertySearchArgs.t)
  : list PropertyCard.t :=
  let card (id address : string) (price bathrooms sqft : number) :=
    {| PropertyCard.id := Some id;
       PropertyCard.address := Some address;
       PropertyCard.price := Some price;
       PropertyCard.bedrooms :=
         Some (orNum (PropertySearchArgs.bedrooms args) (ofZ 3));
       PropertyCard.bathrooms := Some bathrooms;
       PropertyCard.sqft := Some sqft;
       PropertyCard.propertyType :=
         Some (orStr (PropertySearchArgs.propertyType args) "house");
       PropertyCard.imageUrl := Some "https://via.placeholder.com/400x300";
       PropertyCard.listingType :=
         listingOrForSale (PropertySearchArgs.listingType args);
       PropertyCard.listingStatus := None;
       PropertyCard.daysOnZillow := None;
       PropertyCard.latitude := None;
       PropertyCard.longitude := None;
       PropertyCard.lotAreaValue := None;
       PropertyCard.lotAreaUnit := None;
       PropertyCard.hasImage := None |} in
  [ card "1" ("123 Main St, " ++ PropertySearchArgs.location args)%string
      (ofZ 425000)
      (orNum (PropertySearchArgs.bathrooms args) (ofZ 2)) (ofZ 2000);
    card "2" ("456 Oak Ave, " ++ PropertySearchArgs.location args)%string
      (ofZ 385000) (lit 25 10) (ofZ 1850) ].

Definition propertySearchMock (args : PropertySearchArgs.t)
  : ToolResult SearchPayload.t :=
  {| text :=
       ("Found " ++ showNat (List.length (mockProperties args))
        ++ " properties in " ++ PropertySearchArgs.location args
        ++ " matching your criteria (using demo data - set RAPIDAPI_KEY for real data).")%string;
     structuredContent :=
       Some {| SearchPayload.location := PropertySearchArgs.location args;
               SearchPayload.listingType :=
                 listingOrForSale (PropertySearchArgs.listingType args);
               SearchPayload.filters :=
                 {| SearchFilters.minPrice := PropertySearchArgs.minPrice args;
                    SearchFilters.maxPrice := PropertySearchArgs.maxPrice args;
                    SearchFilters.bedrooms := PropertySearchArgs.bedrooms args;
                    SearchFilters.bathrooms :=
                      PropertySearchArgs.bathrooms args;
                    SearchFilters.propertyType :=
                      PropertySearchArgs.propertyType args;
                    SearchFilters.sqftMin := None;
                    SearchFilters.sqftMax := None |};
               SearchPayload.properties := mockProperties args;
               SearchPayload.totalResults :=
                 ofZ (Z.of_nat (List.length (mockProperties args)));
               SearchPayload.currentPage := None;
               SearchPayload.totalPages := None;
               SearchPayload.usingMockData := true |};
     meta := Some (widgetMeta propertySearchWidget);
     isError := false |}.

Definition propertySearchHandler (zillowApi : option ZillowApiConfig)
    (args : PropertySearchArgs.t) : M (ToolResult SearchPayload.t) :=
  outcome <-
    attempt (match zillowApi with
             | Some _ => propertySearchLive args
             | None => ret (propertySearchMock args)
             end) ;;
  match outcome with
  | Normal result => ret result
  | Throw error =>
      ret (errorResult
             ("Error searching properties in "
              ++ PropertySearchArgs.location args ++ ": ")
             error)
  end.

End Handlers.

End Server.

(* ================================================================== *)
(** ** Exact values of the amortization formula

    The rationals computed by the affordability formula when every input is
    finite; they are related to the program's values in the properties
    below. *)

Definition monthlyRateQ (rho : Q) : Q := rho / 100 / 12.

Definition growthQ (rho : Q) : Q := (1 + monthlyRateQ rho) ^ 360.

(** The present value of an annuity of one unit per month over the term. *)
Definition annuityFactorQ (rho : Q) : Q :=
  (growthQ rho - 1) / (monthlyRateQ rho * growthQ rho).

Definition maxMonthlyPaymentQ (income debts : Q) : Q :=
  income / 12 * (43 # 100) - debts.

(** Bounds on a power computed with truncation to multiples of [1/k], so
    that the 360th power of the monthly growth can be bounded without
    building its exact numerator and denominator. *)
Definition truncDown (k : positive) (q : Q) : Q :=
  Qfloor (q * inject_Z (Z.pos k)) # k.

Definition truncUp (k : positive) (q : Q) : Q :=
  (Qfloor (q * inject_Z (Z.pos k)) + 1) # k.

Fixpoint powBounds (k : positive) (lo hi : Q) (n : positive) : Q * Q :=
  match n with
  | xH => (lo, hi)
  | xO m =>
      let (a, b) := powBounds k lo hi m in
      (truncDown k (a * a), truncUp k (b * b))
  | xI m =>
      let (a, b) := powBounds k lo hi m in
      (truncDown k (lo * (a * a)), truncUp k (hi * (b * b)))
  end.

(** Inputs that agree except on one field. *)
Definition setDownPayment (p : AffordabilityParams.t) (d : number)
  : AffordabilityParams.t :=
  {| AffordabilityParams.annualIncome := AffordabilityParams.annualIncome p;
     AffordabilityParams.downPayment := d;
     AffordabilityParams.creditScore := AffordabilityParams.creditScore p;
     AffordabilityParams.monthlyDebts := AffordabilityParams.monthlyDebts p;
     AffordabilityParams.interestRate := AffordabilityParams.interestRate p |}.

Definition setMonthlyDebts (p : AffordabilityParams.t) (m : number)
  : AffordabilityParams.t :=
  {| AffordabilityParams.annualIncome := AffordabilityParams.annualIncome p;
     AffordabilityParams.downPayment := AffordabilityParams.downPayment p;
     AffordabilityParams.creditScore := AffordabilityParams.creditScore p;
     AffordabilityParams.monthlyDebts := m;
     AffordabilityParams.interestRate := AffordabilityParams.interestRate p |}.

(** The sum of the four components of a breakdown. *)
Definition componentsSum (b : Breakdown.t) : number :=
  add (add (add (Breakdown.principalAndInterest b) (Breakdown.propertyTax b))
           (Breakdown.insurance b))
      (Breakdown.pmi b).

(** ** Sample inputs *)

(** [annualIncome=95000, downPayment=65000, creditScore=740,
    monthlyDebts=450, interestRate=6.5]. *)
Definition input95000 : AffordabilityParams.t :=
  {| AffordabilityParams.annualIncome := ofZ 95000;
     AffordabilityParams.downPayment := ofZ 65000;
     AffordabilityParams.creditScore := ofZ 740;
     AffordabilityParams.monthlyDebts := ofZ 450;
     AffordabilityParams.interestRate := Some (lit 65 10) |}.

(** An income of 12000 a year against debts of 500 a month: the housing
    budget [1000 * 0.43 - 500] is negative. *)
Definition inputOverIndebted : AffordabilityParams.t :=
  {| AffordabilityParams.annualIncome := ofZ 12000;
     AffordabilityParams.downPayment := ofZ 50000;
     AffordabilityParams.creditScore := ofZ 720;
     AffordabilityParams.monthlyDebts := ofZ 500;
     AffordabilityParams.interestRate := None |}.


(** A 30-year loan of 320000 at a rate of zero. *)
Definition loanAtZeroRate : MortgageParams.t :=
  {| MortgageParams.homePrice := ofZ 400000;
     MortgageParams.downPayment := ofZ 80000;
     MortgageParams.interestRate := ofZ 0;
     MortgageParams.loanTerm := 30 |}.

(** ** Observing the requests of a run *)

Definition isStr (v : qvalue) (s : string) : bool :=
  match v with
  | QStr t => String.eqb t s
  | QNum _ => false
  end.

(** A coordinate search ([/propertyByCoordinates]) with the given
    [status_type]. *)
Definition isCoordinateSearch (status : StatusType) (r : Request) : bool :=
  String.eqb (endpoint r) "/propertyByCoordinates"
  && existsb (fun kv => String.eqb (fst kv) "status_type"
                        && isStr (snd kv) (statusTypeName status))
             (query r).

(** Every request a computation issues satisfies [P]: whatever the state it
    starts from, the requests it adds to the trace all satisfy [P]. *)
Definition emits {A : Type} (P : Request -> Prop) (m : M A) : Prop :=
  forall s : State,
    exists new : list Request,
      trace (snd (m s)) = (trace s ++ new)%list /\ Forall P new.


(** A listing with another price. *)
Definition setPrice (prop : PropertyDetails.t) (price : option number)
  : PropertyDetails.t :=
  {| PropertyDetails.zpid := PropertyDetails.zpid prop;
     PropertyDetails.address := PropertyDetails.address prop;
     PropertyDetails.price := price;
     PropertyDetails.bedrooms := PropertyDetails.bedrooms prop;
     PropertyDetails.bathrooms := PropertyDetails.bathrooms prop;
     PropertyDetails.livingArea := PropertyDetails.livingArea prop;
     PropertyDetails.propertyType := PropertyDetails.propertyType prop;
     PropertyDetails.listingStatus := PropertyDetails.listingStatus prop;
     PropertyDetails.imgSrc := PropertyDetails.imgSrc prop;
     PropertyDetails.latitude := PropertyDetails.latitude prop;
     PropertyDetails.longitude := PropertyDetails.longitude prop;
     PropertyDetails.daysOnZillow := PropertyDetails.daysOnZillow prop;
     PropertyDetails.lotAreaValue := PropertyDetails.lotAreaValue prop;
     PropertyDetails.lotAreaUnit := PropertyDetails.lotAreaUnit prop;
     PropertyDetails.hasImage := PropertyDetails.hasImage prop |}.


(** ** A sample environment *)

Module Sample.

Local Open Scope string_scope.

(** A host that prints numbers to the nearest whole number; the properties
    below are proved for every host, this one only runs the examples. *)
Definition host : Host :=
  {| numberToString := toFixed 0; toLocaleString := toFixed 0 |}.

Definition config : Server.ZillowApiConfig :=
  {| Server.rapidApiKey := "key";
     Server.rapidApiHost := "zillow-com1.p.rapidapi.com" |}.

(** A provider whose every call fails. *)
Definition failingWorld : World :=
  {| fetchSearch := fun _ _ =>
       Throw (ErrorObj "Zillow API error: 503 Service Unavailable");
     fetchSuggestions := fun _ _ =>
       Throw (ErrorObj "Zillow API error: 503 Service Unavailable");
     randomIds := fun _ => "0.5" |}.

Definition listing (zpid address : string) (price : Z) : PropertyDetails.t :=
  {| PropertyDetails.zpid := Some zpid;
     PropertyDetails.address := Some address;
     PropertyDetails.price := Some (ofZ price);
     PropertyDetails.bedrooms := Some (ofZ 3);
     PropertyDetails.bathrooms := Some (ofZ 2);
     PropertyDetails.livingArea := Some (ofZ 1800);
     PropertyDetails.propertyType := Some "SINGLE_FAMILY";
     PropertyDetails.listingStatus := Some "FOR_SALE";
     PropertyDetails.imgSrc := None;
     PropertyDetails.latitude := None;
     PropertyDetails.longitude := None;
     PropertyDetails.daysOnZillow := None;
     PropertyDetails.lotAreaValue := None;
     PropertyDetails.lotAreaUnit := None;
     PropertyDetails.hasImage := None |}.

Definition austin : LocationSuggestion.t :=
  {| LocationSuggestion.display := Some "Austin, TX";
     LocationSuggestion.name := Some "Austin";
     LocationSuggestion.metaData :=
       Some {| MetaData.lat := Some (lit 302672 10000);
               MetaData.lng := Some (lit (-977431) 10000);
               MetaData.regionType := Some "city" |} |}.

(** A provider that knows one area, with 93 results and three listings. *)
Definition world : World :=
  {| fetchSearch := fun _ _ =>
       Normal (Some {| SearchResult.totalResultCount := Some (ofZ 93);
                       SearchResult.resultsPerPage := Some (ofZ 40);
                       SearchResult.totalPages := Some (ofZ 3);
                       SearchResult.currentPage := Some (ofZ 1);
                       SearchResult.props :=
                         Some [ listing "101" "1 Congress Ave" 850000;
                                listing "102" "2 Lamar Blvd" 625000;
                                listing "103" "3 Rainey St" 410000 ] |});
     fetchSuggestions := fun _ _ =>
       Normal (Some {| LocationSuggestions.resultGroups :=
                         Some [ {| ResultGroup.results := Some [austin] |} ] |});
     randomIds := fun _ => "0.5" |}.

Definition seattleSearch : Server.PropertySearchArgs.t :=
  {| Server.PropertySearchArgs.location := "Seattle, WA";
     Server.PropertySearchArgs.listingType := None;
     Server.PropertySearchArgs.minPrice := None;
     Server.PropertySearchArgs.maxPrice := None;
     Server.PropertySearchArgs.bedrooms := Some (ofZ 3);
     Server.PropertySearchArgs.bathrooms := None;
     Server.PropertySearchArgs.propertyType := None;
     Server.PropertySearchArgs.sqftMin := None;
     Server.PropertySearchArgs.sqftMax := None |}.

Definition austinAreas (intent : option Server.PropertyIntent)
  : Server.AreasArgs.t :=
  {| Server.AreasArgs.location := "Austin, TX";
     Server.AreasArgs.propertyType := intent;
     Server.AreasArgs.filters := None |}.

End Sample.

(* ================================================================== *)
(** ** The remaining methods of [ZillowApiClient] *)

Module RateQuote.
Record t : Type := mk {
  term : Z;
  rate : number;
  apr : number;
  loanType : string
}.
End RateQuote.

Module MortgageRates.
Record t : Type := mk {
  rates : list RateQuote.t;
  asOf : string;
  location : string;
  disclaimer : string
}.
End MortgageRates.

Module LocationSuggestionsResult.
Record t : Type := mk {
  results : list LocationSuggestion.t
}.
End LocationSuggestionsResult.

Module ClientLookups.

Local Open Scope string_scope.
Local Open Scope list_scope.
Local Open Scope m_scope.

Section Lookups.
Variable w : World.

(** The decoded bodies of [/property] and of [/zestimate] and
    [/rentEstimate] are handed to the caller as they come; the provider's
    answers to these endpoints are given apart from [World]. *)
Variables DetailedPropertyInfo ZestimateResult : Type.
Variable fetchDetails :
  list Request -> Request -> completion DetailedPropertyInfo.
Variable fetchZestimate :
  list Request -> Request -> completion ZestimateResult.

Definition getPropertyDetails (zpid : string) : M DetailedPropertyInfo :=
  ZillowApiClient.makeRequest w (fun _ => fetchDetails) "/property"
    [("zpid", Some (QStr zpid))].

Definition getZestimate (zpid : string) : M ZestimateResult :=
  ZillowApiClient.makeRequest w (fun _ => fetchZestimate) "/zestimate"
    [("zpid", Some (QStr zpid))].

Definition getRentEstimate (zpid : string) : M ZestimateResult :=
  ZillowApiClient.makeRequest w (fun _ => fetchZestimate) "/rentEstimate"
    [("zpid", Some (QStr zpid))].

(** [searchRegions]: the results of the first group, or the empty list.
    The body is read without [?.], so a [null] body is a TypeError (V8's
    wording). *)
Definition searchRegions (location : string)
  : M LocationSuggestionsResult.t :=
  result <- ZillowApiClient.searchLocationSuggestions w location ;;
  match result with
  | None =>
      throw
        (ErrorObj "Cannot read properties of null (reading 'resultGroups')")
  | Some _ =>
      ret {| LocationSuggestionsResult.results :=
               match Server.firstGroupResults result with
               | Some found => found
               | None => []
               end |}
  end.

Definition searchPropertiesExtended (params : PropertySearchParams.t)
  : M (option SearchResult.t) :=
  ZillowApiClient.searchProperties w params.

End Lookups.

(** The rate table of [getMortgageRates]. *)
Definition estimatedRates : list RateQuote.t :=
  [ {| RateQuote.term := 30; RateQuote.rate := lit 65 10;
       RateQuote.apr := lit 67 10; RateQuote.loanType := "Conventional" |};
    {| RateQuote.term := 15; RateQuote.rate := lit 59 10;
       RateQuote.apr := lit 61 10; RateQuote.loanType := "Conventional" |};
    {| RateQuote.term := 30; RateQuote.rate := lit 63 10;
       RateQuote.apr := lit 65 10; RateQuote.loanType := "FHA" |};
    {| RateQuote.term := 15; RateQuote.rate := lit 57 10;
       RateQuote.apr := lit 59 10; RateQuote.loanType := "FHA" |} ].

(** [getMortgageRates]: no request is made; [now] is
    [new Date().toISOString()]. *)
Definition getMortgageRates (now : string) (location : option string)
  : M MortgageRates.t :=
  ret {| MortgageRates.rates := estimatedRates;
         MortgageRates.asOf := now;
         MortgageRates.location := orStr location "United States";
         MortgageRates.disclaimer :=
           "Rates are estimates and may vary. Contact Zillow Home Loans for actual rates." |}.

(** [createZillowApiClient]. *)
Definition createZillowApiClient (rapidApiKey : string)
  : Server.ZillowApiConfig :=
  {| Server.rapidApiKey := rapidApiKey;
     Server.rapidApiHost := "zillow-com1.p.rapidapi.com" |}.

(** The module-level [zillowApi] of [server.ts], from the environment
    variable [RAPIDAPI_KEY]. *)
Definition initZillowApi (env : option string)
  : option Server.ZillowApiConfig :=
  let RAPIDAPI_KEY := orStr env "" in
  if nonEmpty RAPIDAPI_KEY then Some (createZillowApiClient RAPIDAPI_KEY)
  else None.

End ClientLookups.

(* ================================================================== *)
(** ** The mortgage simulator tool, the resources and the dispatcher *)

Module Dispatcher.

Local Open Scope string_scope.
Local Open Scope list_scope.
Local Open Scope m_scope.

Module MortgageArgs.
(** The loan term is a whole number of years, as in [MortgageParams]. *)
Record t : Type := mk {
  homePrice : option number;
  downPayment : option number;
  creditScore : option number;
  location : option string;
  loanTerm : option Z
}.
End MortgageArgs.

Inductive MortgagePayload : Type :=
| MortgageLive
    (result : MortgagePaymentResult.t)
    (location : string) (creditScore : number)
    (availableRates : list RateQuote.t)
| MortgageMock
    (homePrice downPayment loanAmount creditScore : number)
    (location : string)
    (interestRate apr : number) (loanTerm : Z) (monthlyPayment : number)
    (usingMockData : bool).

(** [args.loanTerm || 30]. *)
Definition termOr30 (t : option Z) : Z :=
  match t with
  | Some n => if (n =? 0)%Z then 30%Z else n
  | None => 30%Z
  end.

(** [rates.rates.find(r => r.term === term)?.rate || 6.5]. *)
Definition currentRate (rates : list RateQuote.t) (term : Z) : number :=
  orNum (option_map RateQuote.rate
           (find (fun r => (RateQuote.term r =? term)%Z) rates))
        (lit 65 10).

Section MortgageTool.
Context {host : Host}.
Variable now : string.

Definition mortgageLive (args : MortgageArgs.t)
  : M (Server.ToolResult MortgagePayload) :=
  rates <- ClientLookups.getMortgageRates now (MortgageArgs.location args) ;;
  let rate :=
    currentRate (MortgageRates.rates rates)
      (termOr30 (MortgageArgs.loanTerm args)) in
  result <-
    liftC (ZillowApiClient.calculateMortgagePayment
             {| MortgageParams.homePrice :=
                  orNum (MortgageArgs.homePrice args) (ofZ 400000);
                MortgageParams.downPayment :=
                  orNum (MortgageArgs.downPayment args) (ofZ 80000);
                MortgageParams.interestRate := rate;
                MortgageParams.loanTerm :=
                  termOr30 (MortgageArgs.loanTerm args) |}) ;;
  ret {| Server.text :=
           "Current "
           ++ numberToString (ofZ (termOr30 (MortgageArgs.loanTerm args)))
           ++ "-year mortgage rate: "
           ++ numberToString (MortgagePaymentResult.interestRate result)
           ++ "% (APR: "
           ++ numberToString (MortgagePaymentResult.apr result)
           ++ "%). For a $"
           ++ toLocaleString (MortgagePaymentResult.homePrice result)
           ++ " home with $"
           ++ toLocaleString (MortgagePaymentResult.downPayment result)
           ++ " down, your estimated monthly payment would be $"
           ++ toLocaleString (MortgagePaymentResult.monthlyPayment result)
           ++ ".";
         Server.structuredContent :=
           Some (MortgageLive result
                   (orStr (MortgageArgs.location args) "United States")
                   (orNum (MortgageArgs.creditScore args) (ofZ 720))
                   (MortgageRates.rates rates));
         Server.meta := None;
         Server.isError := false |}.

Definition mortgageMock (args : MortgageArgs.t)
  : Server.ToolResult MortgagePayload :=
  let homePrice := orNum (MortgageArgs.homePrice args) (ofZ 400000) in
  let downPayment := orNum (MortgageArgs.downPayment args) (ofZ 80000) in
  let loanAmount := sub homePrice downPayment in
  let interestRate := lit 65 10 in
  let monthlyRate := div (div interestRate (ofZ 100)) (ofZ 12) in
  let numPayments := (termOr30 (MortgageArgs.loanTerm args) * 12)%Z in
  let monthlyPayment :=
    round (div (mul loanAmount
                    (mul monthlyRate
                         (pow (add (ofZ 1) monthlyRate) numPayments)))
               (sub (pow (add (ofZ 1) monthlyRate) numPayments) (ofZ 1))) in
  {| Server.text :=
       "Current mortgage rates: " ++ numberToString interestRate
       ++ "% APR. For a $" ++ toLocaleString homePrice
       ++ " home with $" ++ toLocaleString downPayment
       ++ " down, your estimated monthly payment would be $"
       ++ toLocaleString monthlyPayment
       ++ " (using demo rates - set RAPIDAPI_KEY for real data).";
     Server.structuredContent :=
       Some (MortgageMock homePrice downPayment loanAmount
               (orNum (MortgageArgs.creditScore args) (ofZ 720))
               (orStr (MortgageArgs.location args) "United States")
               interestRate (add interestRate (lit 2 10))
               (termOr30 (MortgageArgs.loanTerm args))
               monthlyPayment true);
     Server.meta := None;
     Server.isError := false |}.

Definition mortgageHandler (zillowApi : option Server.ZillowApiConfig)
    (args : MortgageArgs.t) : M (Server.ToolResult MortgagePayload) :=
  outcome <-
    attempt (match zillowApi with
             | Some _ => mortgageLive args
             | None => ret (mortgageMock args)
             end) ;;
  match outcome with
  | Normal result => ret result
  | Throw error => ret (Server.errorResult "Error simulating mortgage: " error)
  end.

End MortgageTool.

(** *** The [CallToolRequestSchema] handler *)

Inductive ToolResponse : Type :=
| AreasResponse (r : Server.ToolResult Server.AreasPayload.t)
| AffordabilityResponse (r : Server.ToolResult Server.AffordabilityPayload)
| MortgageResponse (r : Server.ToolResult MortgagePayload)
| PropertySearchResponse (r : Server.ToolResult Server.SearchPayload.t).

Definition responseIsError (r : ToolResponse) : bool :=
  match r with
  | AreasResponse x => Server.isError x
  | AffordabilityResponse x => Server.isError x
  | MortgageResponse x => Server.isError x
  | PropertySearchResponse x => Server.isError x
  end.

(** [request.params.arguments ?? {}]. *)
Definition argumentsOrEmpty (arguments : option json) : json :=
  match arguments with
  | None | Some JNull => JObj []
  | Some given => given
  end.

Section CallTool.
Context {host : Host}.
Variable w : World.
Variable now : string.
Variable zillowApi : option Server.ZillowApiConfig.

(** The four validators ([zod] parsers); each returns the typed arguments
    or throws. *)
Variable areasInputParser : json -> completion Server.AreasArgs.t.
Variable affordabilityInputParser :
  json -> completion Server.AffordabilityArgs.t.
Variable mortgageRateInputParser : json -> completion MortgageArgs.t.
Variable propertySearchInputParser :
  json -> completion Server.PropertySearchArgs.t.

Definition callTool (toolName : string) (arguments : option json)
  : M ToolResponse :=
  if String.eqb toolName "zillow_city_neighborhood_real_estate_information"
  then
    args <- liftC (areasInputParser (argumentsOrEmpty arguments)) ;;
    r <- Server.areasHandler w zillowApi args ;;
    ret (AreasResponse r)
  else if String.eqb toolName "calculateHomeAffordability" then
    args <- liftC (affordabilityInputParser (argumentsOrEmpty arguments)) ;;
    r <- Server.affordabilityHandler w zillowApi args ;;
    ret (AffordabilityResponse r)
  else if String.eqb toolName "interestRateMortgagePaymentSimulator" then
    args <- liftC (mortgageRateInputParser (argumentsOrEmpty arguments)) ;;
    r <- mortgageHandler now zillowApi args ;;
    ret (MortgageResponse r)
  else if String.eqb toolName "zillow_property_search" then
    args <- liftC (propertySearchInputParser (argumentsOrEmpty arguments)) ;;
    r <- Server.propertySearchHandler w zillowApi args ;;
    ret (PropertySearchResponse r)
  else throw (ErrorObj ("Unknown tool: " ++ toolName)).

End CallTool.

(** *** Widgets as resources *)

(** A [Map] with string keys: [set] replaces the value of a key already
    present and appends a new key; iteration follows insertion order. *)
Section JsMap.
Variable V : Type.

Fixpoint mapSet (k : string) (v : V) (m : list (string * V))
  : list (string * V) :=
  match m with
  | [] => [(k, v)]
  | (k', v') :: rest =>
      if String.eqb k' k then (k, v) :: rest
      else (k', v') :: mapSet k v rest
  end.

Fixpoint mapGet (k : string) (m : list (string * V)) : option V :=
  match m with
  | [] => None
  | (k', v') :: rest => if String.eqb k' k then Some v' else mapGet k rest
  end.

Definition mapValues (m : list (string * V)) : list V := map snd m.

End JsMap.

(** A widget with its [html] field. *)
Record WidgetAsset : Type := mkWidgetAsset {
  widget : Server.ZillowWidget;
  html : string
}.

Module Resource.
Record t : Type := mk {
  uri : string;
  name : string;
  description : string;
  mimeType : string;
  meta : Server.WidgetMeta
}.
End Resource.

Module ResourceContents.
Record t : Type := mk {
  uri : string;
  mimeType : string;
  text : string;
  meta : Server.WidgetMeta
}.
End ResourceContents.

Section Resources.
(** The [widgets] array. *)
Variable widgets : list WidgetAsset.

(** [widgets.forEach(w => { widgetsById.set(w.id, w);
    widgetsByUri.set(w.templateUri, w) })]. *)
Definition widgetsById : list (string * WidgetAsset) :=
  fold_left (fun m a => mapSet (Server.id (widget a)) a m) widgets [].

Definition widgetsByUri : list (string * WidgetAsset) :=
  fold_left (fun m a => mapSet (Server.templateUri (widget a)) a m) widgets [].

Definition resources : list Resource.t :=
  map (fun a =>
         {| Resource.uri := Server.templateUri (widget a);
            Resource.name := Server.title (widget a);
            Resource.description := Server.title (widget a) ++ " widget markup";
            Resource.mimeType := "text/html+skybridge";
            Resource.meta := Server.widgetMeta (widget a) |})
      (mapValues widgetsById).

(** The [ReadResourceRequestSchema] handler. *)
Definition readResource (uri : string) : completion ResourceContents.t :=
  match mapGet uri widgetsByUri with
  | None => Throw (ErrorObj ("Unknown resource: " ++ uri))
  | Some a =>
      Normal {| ResourceContents.uri := Server.templateUri (widget a);
                ResourceContents.mimeType := "text/html+skybridge";
                ResourceContents.text := html a;
                ResourceContents.meta := Server.widgetMeta (widget a) |}
  end.

End Resources.

(** The server's three widgets; [htmlOf name] is what [readWidgetHtml name]
    returned when the module was loaded. *)
Definition serverWidgets (htmlOf : string -> string) : list WidgetAsset :=
  [ {| widget := Server.areasWidget; html := htmlOf "zillow-areas" |};
    {| widget := Server.affordabilityWidget;
       html := htmlOf "zillow-buyability" |};
    {| widget := Server.propertySearchWidget;
       html := htmlOf "zillow-property-search" |} ].

End Dispatcher.

(* ================================================================== *)
(** ** Loading the widget markup: [readWidgetHtml] *)

Module Assets.

Local Open Scope string_scope.
Local Open Scope list_scope.

(** The part of [node:fs] the function uses. *)
Record FileSystem : Type := mkFileSystem {
  existsSync : string -> bool;
  readFileSync : string -> completion string;
  readdirSync : string -> completion (list string)
}.

(** [path.join] of a directory and a plain name. *)
Definition join (dir name : string) : string := dir ++ "/" ++ name.

(** [s.endsWith(suffix)]. *)
Definition endsWith (s suffix : string) : bool :=
  (String.length suffix <=? String.length s)%nat
  && String.eqb
       (substring (String.length s - String.length suffix)
                  (String.length suffix) s)
       suffix.

(** [Array.prototype.sort()] on strings: ascending by code unit. *)
Fixpoint insertSorted (x : string) (l : list string) : list string :=
  match l with
  | [] => [x]
  | y :: rest =>
      if String.leb x y then x :: y :: rest else y :: insertSorted x rest
  end.

Fixpoint sort (l : list string) : list string :=
  match l with
  | [] => []
  | x :: rest => insertSorted x (sort rest)
  end.

(** A text between double quotes. *)
Definition quoted (s : string) : string :=
  String (ascii_of_nat 34) s ++ String (ascii_of_nat 34) EmptyString.

(** The filter of the versioned files; a candidate's name is never empty,
    so the last candidate is truthy whenever there is one. *)
Definition isCandidate (componentName file : string) : bool :=
  prefix (componentName ++ "-") file && endsWith file ".html".

Section ReadWidgetHtml.
Variable fs : FileSystem.
Variable ASSETS_DIR : string.

Definition assetsMissing : exn :=
  ErrorObj
    ("Widget assets not found. Expected directory " ++ ASSETS_DIR
     ++ ". Run " ++ quoted "npm run build"
     ++ " before starting the server.").

Definition htmlMissing (componentName : string) : exn :=
  ErrorObj
    ("Widget HTML for " ++ quoted componentName ++ " not found in "
     ++ ASSETS_DIR ++ ". Run " ++ quoted "npm run build"
     ++ " to generate the assets.").

(** The value of [htmlContents] before the final check; [None] is
    [null]. *)
Definition locate (componentName : string) : completion (option string) :=
  let directPath := join ASSETS_DIR (componentName ++ ".html") in
  if existsSync fs directPath then
    match readFileSync fs directPath with
    | Normal contents => Normal (Some contents)
    | Throw e => Throw e
    end
  else
    match readdirSync fs ASSETS_DIR with
    | Throw e => Throw e
    | Normal files =>
        let candidates := sort (filter (isCandidate componentName) files) in
        match last (map Some candidates) None with
        | Some fallback =>
            match readFileSync fs (join ASSETS_DIR fallback) with
            | Normal contents => Normal (Some contents)
            | Throw e => Throw e
            end
        | None =>
            let nestedPath :=
              join (join (join ASSETS_DIR "src") "components")
                   (componentName ++ ".html") in
            if existsSync fs nestedPath then
              match readFileSync fs nestedPath with
              | Normal contents => Normal (Some contents)
              | Throw e => Throw e
              end
            else Normal None
        end
    end.

Definition readWidgetHtml (componentName : string) : completion string :=
  if negb (existsSync fs ASSETS_DIR) then Throw assetsMissing
  else
    match locate componentName with
    | Throw e => Throw e
    | Normal (Some contents) =>
        if nonEmpty contents then Normal contents
        else Throw (htmlMissing componentName)
    | Normal None => Throw (htmlMissing componentName)
    end.

End ReadWidgetHtml.

End Assets.

(* ================================================================== *)
(** ** Exact values of the mortgage payment formula *)

Definition growthAtQ (rho : Q) (n : Z) : Q := (1 + monthlyRateQ rho) ^ n.

(** The monthly payment per unit of principal over [n] months. *)
Definition paymentFactorQ (rho : Q) (n : Z) : Q :=
  monthlyRateQ rho * growthAtQ rho n / (growthAtQ rho n - 1).

Definition setAnnualIncome (p : AffordabilityParams.t) (i : number)
  : AffordabilityParams.t :=
  {| AffordabilityParams.annualIncome := i;
     AffordabilityParams.downPayment := AffordabilityParams.downPayment p;
     AffordabilityParams.creditScore := AffordabilityParams.creditScore p;
     AffordabilityParams.monthlyDebts := AffordabilityParams.monthlyDebts p;
     AffordabilityParams.interestRate := AffordabilityParams.interestRate p |}.

(** A loan of [price - down] at the rate and term of [p]. *)
Definition setPrices (p : MortgageParams.t) (price down : number)
  : MortgageParams.t :=
  {| MortgageParams.homePrice := price;
     MortgageParams.downPayment := down;
     MortgageParams.interestRate := MortgageParams.interestRate p;
     MortgageParams.loanTerm := MortgageParams.loanTerm p |}.

(** A sample loan: 400000 with 80000 down at 6.5 % over 30 years. *)
Definition loanSample : MortgageParams.t :=
  {| MortgageParams.homePrice := ofZ 400000;
     MortgageParams.downPayment := ofZ 80000;
     MortgageParams.interestRate := lit 65 10;
     MortgageParams.loanTerm := 30 |}.

(* ================================================================== *)
(** ** Observations on the tools' results *)

(** A computation issues at most [n] requests, whatever the state it starts
    from. *)
Definition issuesAtMost {A : Type} (n : nat) (m : M A) : Prop :=
  forall s : State,
    exists new : list Request,
      trace (snd (m s)) = (trace s ++ new)%list /\ (List.length new <= n)%nat.

(** The candidate locations of a reply: the results of its first group,
    none when the reply has no such group. *)
Definition candidates (reply : option LocationSuggestions.t)
  : list LocationSuggestion.t :=
  match Server.firstGroupResults reply with
  | Some found => found
  | None => []
  end.

(** The listings of a search reply; none when [props] is missing. *)
Definition listed (searchResult : SearchResult.t) : list PropertyDetails.t :=
  match SearchResult.props searchResult with
  | Some props => props
  | None => []
  end.

(** The object the affordability tool hands to [calculateAffordability]. *)
Definition affordabilityParamsOf (args : Server.AffordabilityArgs.t)
  : AffordabilityParams.t :=
  {| AffordabilityParams.annualIncome :=
       orNum (Server.AffordabilityArgs.annualIncome args) (ofZ 75000);
     AffordabilityParams.downPayment :=
       orNum (Server.AffordabilityArgs.downPayment args) (ofZ 50000);
     AffordabilityParams.creditScore :=
       orNum (Server.AffordabilityArgs.creditScore args) (ofZ 720);
     AffordabilityParams.monthlyDebts :=
       orNum (Server.AffordabilityArgs.monthlyDebts args) (ofZ 500);
     AffordabilityParams.interestRate := None |}.

(** The sum of the four components of the fallback breakdown. *)
Definition mockComponentsSum (b : Server.MockBreakdown.t) : number :=
  add (add (add (Server.MockBreakdown.principalAndInterest b)
                (Server.MockBreakdown.propertyTax b))
           (Server.MockBreakdown.insurance b))
      (Server.MockBreakdown.pmi b).

(** The object the mortgage tool hands to [calculateMortgagePayment] at a
    given rate. *)
Definition mortgageParamsOf (args : Dispatcher.MortgageArgs.t) (rate : number)
  : MortgageParams.t :=
  {| MortgageParams.homePrice :=
       orNum (Dispatcher.MortgageArgs.homePrice args) (ofZ 400000);
     MortgageParams.downPayment :=
       orNum (Dispatcher.MortgageArgs.downPayment args) (ofZ 80000);
     MortgageParams.interestRate := rate;
     MortgageParams.loanTerm :=
       Dispatcher.termOr30 (Dispatcher.MortgageArgs.loanTerm args) |}.

(** Fields of the mortgage tool's structured content, on either path. *)
Definition payloadMonthlyPayment (p : Dispatcher.MortgagePayload) : number :=
  match p with
  | Dispatcher.MortgageLive result _ _ _ =>
      MortgagePaymentResult.monthlyPayment result
  | Dispatcher.MortgageMock _ _ _ _ _ _ _ _ monthlyPayment _ => monthlyPayment
  end.

Definition payloadLoanAmount (p : Dispatcher.MortgagePayload) : number :=
  match p with
  | Dispatcher.MortgageLive result _ _ _ =>
      MortgagePaymentResult.loanAmount result
  | Dispatcher.MortgageMock _ _ loanAmount _ _ _ _ _ _ _ => loanAmount
  end.

Definition payloadInterestRate (p : Dispatcher.MortgagePayload) : number :=
  match p with
  | Dispatcher.MortgageLive result _ _ _ =>
      MortgagePaymentResult.interestRate result
  | Dispatcher.MortgageMock _ _ _ _ _ interestRate _ _ _ _ => interestRate
  end.

Definition payloadApr (p : Dispatcher.MortgagePayload) : number :=
  match p with
  | Dispatcher.MortgageLive result _ _ _ => MortgagePaymentResult.apr result
  | Dispatcher.MortgageMock _ _ _ _ _ _ apr _ _ _ => apr
  end.

(** The names the [switch] of the dispatcher knows. *)
Definition toolNames : list string :=
  [ "zillow_city_neighborhood_real_estate_information"%string;
    "calculateHomeAffordability"%string;
    "interestRateMortgagePaymentSimulator"%string;
    "zillow_property_search"%string ].

(** The [usingMockData] flag of a response; absent counts as false. *)
Definition responseUsingMockData (r : Dispatcher.ToolResponse) : bool :=
  match r with
  | Dispatcher.AreasResponse x =>
      match Server.structuredContent x with
      | Some payload => Server.AreasPayload.usingMockData payload
      | None => false
      end
  | Dispatcher.AffordabilityResponse x =>
      match Server.structuredContent x with
      | Some (Server.AffordabilityMock _ _ _ _ _ _ _ _ _ _ _ usingMockData) =>
          usingMockData
      | _ => false
      end
  | Dispatcher.MortgageResponse x =>
      match Server.structuredContent x with
      | Some (Dispatcher.MortgageMock _ _ _ _ _ _ _ _ _ usingMockData) =>
          usingMockData
      | _ => false
      end
  | Dispatcher.PropertySearchResponse x =>
      match Server.structuredContent x with
      | Some payload => Server.SearchPayload.usingMockData payload
      | None => false
      end
  end.

(** The resource descriptor and the contents the server derives from a
    widget. *)
Definition resourceOf (a : Dispatcher.WidgetAsset) : Dispatcher.Resource.t :=
  {| Dispatcher.Resource.uri := Server.templateUri (Dispatcher.widget a);
     Dispatcher.Resource.name := Server.title (Dispatcher.widget a);
     Dispatcher.Resource.description :=
       (Server.title (Dispatcher.widget a) ++ " widget markup")%string;
     Dispatcher.Resource.mimeType := "text/html+skybridge"%string;
     Dispatcher.Resource.meta := Server.widgetMeta (Dispatcher.widget a) |}.

Definition contentsOf (a : Dispatcher.WidgetAsset)
  : Dispatcher.ResourceContents.t :=
  {| Dispatcher.ResourceContents.uri :=
       Server.templateUri (Dispatcher.widget a);
     Dispatcher.ResourceContents.mimeType := "text/html+skybridge"%string;
     Dispatcher.ResourceContents.text := Dispatcher.html a;
     Dispatcher.ResourceContents.meta :=
       Server.widgetMeta (Dispatcher.widget a) |}.

(** ** Ordinary inputs

    The properties that depend on the size of the numbers are stated for
    yearly rates between 0.01 % and 100 %, loan terms of 1 to 100 years
    and amounts of at most 10^12 in magnitude.  Outside these the program's
    binary64 arithmetic overflows ([Math.pow] returns [Infinity] from a
    yearly rate of about 7419 % at 360 payments) or no longer keeps whole
    dollars apart, and the values computed here in exact arithmetic are not
    those of the program. *)
Definition ordinaryRate (rho : Q) : Prop := (1 # 100) <= rho /\ rho <= 100.

Definition ordinaryTerm (years : Z) : Prop := (1 <= years <= 100)%Z.

Definition moderate (q : Q) : Prop :=
  - (1000000000000) <= q /\ q <= 1000000000000.

(** An optional argument that, when given, is a moderate amount. *)
Definition moderateArg (o : option number) : Prop :=
  forall x, o = Some x -> exists q, x = Fin q /\ moderate q.

(** An optional loan term that, when given, is 0 or an ordinary term. *)
Definition ordinaryTermArg (o : option Z) : Prop :=
  forall t, o = Some t -> (0 <= t <= 100)%Z.



(** The order [sort()] arranges file names in. *)
Definition leS (a b : string) : Prop := String.leb a b = true.

(** ** Further sample inputs *)

Module Fixture.

Local Open Scope string_scope.

Definition now : string := "2024-01-01T00:00:00.000Z".

Definition zeroRateInput : AffordabilityParams.t :=
  {| AffordabilityParams.annualIncome := ofZ 95000;
     AffordabilityParams.downPayment := ofZ 65000;
     AffordabilityParams.creditScore := ofZ 740;
     AffordabilityParams.monthlyDebts := ofZ 450;
     AffordabilityParams.interestRate := Some (ofZ 0) |}.

Definition affordabilityInSeattle : Server.AffordabilityArgs.t :=
  {| Server.AffordabilityArgs.annualIncome := Some (ofZ 95000);
     Server.AffordabilityArgs.downPayment := None;
     Server.AffordabilityArgs.creditScore := None;
     Server.AffordabilityArgs.monthlyDebts := None;
     Server.AffordabilityArgs.location := Some "Seattle, WA" |}.

Definition affordabilityNoLocation : Server.AffordabilityArgs.t :=
  {| Server.AffordabilityArgs.annualIncome := Some (ofZ 95000);
     Server.AffordabilityArgs.downPayment := None;
     Server.AffordabilityArgs.creditScore := None;
     Server.AffordabilityArgs.monthlyDebts := None;
     Server.AffordabilityArgs.location := None |}.

Definition fifteenYears (homePrice : option number)
  : Dispatcher.MortgageArgs.t :=
  {| Dispatcher.MortgageArgs.homePrice := homePrice;
     Dispatcher.MortgageArgs.downPayment := None;
     Dispatcher.MortgageArgs.creditScore := None;
     Dispatcher.MortgageArgs.location := None;
     Dispatcher.MortgageArgs.loanTerm := Some 15%Z |}.

(** The reply of the sample provider to a property search. *)
Definition austinListings : SearchResult.t :=
  {| SearchResult.totalResultCount := Some (ofZ 93);
     SearchResult.resultsPerPage := Some (ofZ 40);
     SearchResult.totalPages := Some (ofZ 3);
     SearchResult.currentPage := Some (ofZ 1);
     SearchResult.props :=
       Some [ Sample.listing "101" "1 Congress Ave" 850000;
              Sample.listing "102" "2 Lamar Blvd" 625000;
              Sample.listing "103" "3 Rainey St" 410000 ] |}.

(** Validators that reject everything but a property search. *)
Definition rejecting {A : Type} (_ : json) : completion A := Throw OtherThrown.

Definition acceptingSearch (_ : json)
  : completion Server.PropertySearchArgs.t :=
  Normal Sample.seattleSearch.

(** A build directory with two versions of one widget. *)
Definition builtAssets : Assets.FileSystem :=
  {| Assets.existsSync := fun p => String.eqb p "/srv/assets";
     Assets.readFileSync := fun p =>
       if String.eqb p "/srv/assets/zillow-areas-9f3c.html"
       then Normal "<div id=areas></div>"
       else Throw (ErrorObj "ENOENT: no such file or directory");
     Assets.readdirSync := fun _ =>
       Normal [ "zillow-areas-2a1b.html"; "zillow-areas-9f3c.html";
                "zillow-areas-9f3c.js"; "zillow-buyability-11aa.html" ] |}.

Definition widgetsNamed : list Dispatcher.WidgetAsset :=
  Dispatcher.serverWidgets (fun name => name).

(** A provider that answers every search with a [null] body. *)
Definition nullWorld : World :=
  {| fetchSearch := fun _ _ => Normal None;
     fetchSuggestions := fun _ _ => Normal None;
     randomIds := fun _ => "0.5" |}.

(** The four validators of a run in which only the affordability tool is
    given acceptable arguments. *)
Definition acceptingAffordability (_ : json)
  : completion Server.AffordabilityArgs.t :=
  Normal affordabilityNoLocation.

End Fixture.

(* ================================================================== *)
(** * Properties *)

Lemma Normal_inj {A : Type} (a b : A) : Normal a = Normal b -> a = b.
Proof. intros H. inversion H. reflexivity. Qed.

(** ** Facts about the number model *)

Section NumberFacts.

Lemma div_Fin (a b : Q) : ~ b == 0 -> div (Fin a) (Fin b) = Fin (a / b).
Proof.
  intros Hb. unfold div.
  destruct (Qeq_bool b 0) eqn:E; [| reflexivity].
  apply Qeq_bool_iff in E. contradiction.
Qed.

Lemma div_Fin_zero (a b : Q) : a == 0 -> b == 0 -> div (Fin a) (Fin b) = NaN.
Proof.
  intros Ha Hb. unfold div.
  assert (E : Qeq_bool b 0 = true) by (apply Qeq_bool_iff; exact Hb).
  rewrite E.
  assert (C : (a ?= 0) = Eq) by (apply Qeq_alt; exact Ha).
  rewrite C. reflexivity.
Qed.

Lemma pow_Fin_pos (x : Q) (n : Z) : (0 < n)%Z -> pow (Fin x) n = Fin (x ^ n).
Proof.
  intros Hn. unfold pow.
  destruct (Z.eqb_spec n 0) as [E | _]; [lia |].
  destruct (Z.ltb_spec n 0) as [L | _]; [lia |].
  reflexivity.
Qed.

Lemma roundQ_comp (a b : Q) : a == b -> roundQ a = roundQ b.
Proof.
  intros E. unfold roundQ. apply Qfloor_comp. rewrite E. reflexivity.
Qed.

Lemma roundQ_le (a b : Q) : a <= b -> (roundQ a <= roundQ b)%Z.
Proof.
  intros L. unfold roundQ. apply Qfloor_resp_le. lra.
Qed.

Lemma roundQ_Z (z : Z) : roundQ (inject_Z z) = z.
Proof.
  unfold roundQ.
  assert (L : (z <= Qfloor (inject_Z z + (1 # 2)))%Z).
  { apply Z.le_trans with (Qfloor (inject_Z z)).
    - rewrite Qfloor_Z. lia.
    - apply Qfloor_resp_le. lra. }
  assert (U : (Qfloor (inject_Z z + (1 # 2)) < z + 1)%Z).
  { rewrite Zlt_Qlt.
    apply Qle_lt_trans with (inject_Z z + (1 # 2)); [apply Qfloor_le |].
    rewrite inject_Z_plus. change (inject_Z 1) with 1. lra. }
  lia.
Qed.

(** [Math.round] yields a positive integer exactly from one half up. *)
Lemma roundQ_pos_iff (a : Q) : (0 < roundQ a)%Z <-> (1 # 2) <= a.
Proof.
  unfold roundQ. split; intros H.
  - assert (B : inject_Z (Qfloor (a + (1 # 2))) <= a + (1 # 2))
      by apply Qfloor_le.
    assert (O : inject_Z 1 <= inject_Z (Qfloor (a + (1 # 2))))
      by (rewrite <- Zle_Qle; lia).
    change (inject_Z 1) with 1 in O. lra.
  - assert (O : (Qfloor (inject_Z 1) <= Qfloor (a + (1 # 2)))%Z).
    { apply Qfloor_resp_le. change (inject_Z 1) with 1. lra. }
    rewrite Qfloor_Z in O. lia.
Qed.

Lemma roundQ_nonpos (a : Q) : a <= 0 -> (roundQ a <= 0)%Z.
Proof.
  intros H.
  destruct (Z_lt_le_dec 0 (roundQ a)) as [P | N]; [| exact N].
  apply roundQ_pos_iff in P. lra.
Qed.


Lemma le_ofZ (a b : Z) : le (ofZ a) (ofZ b) = true <-> (a <= b)%Z.
Proof.
  unfold le, ofZ. rewrite Qle_bool_iff, <- Zle_Qle. reflexivity.
Qed.


End NumberFacts.

(** ** The affordability formula on finite inputs at a positive rate *)

Section PositiveRate.

Variable params : AffordabilityParams.t.
Variables income down debts rho : Q.

Hypothesis Hincome : AffordabilityParams.annualIncome params = Fin income.
Hypothesis Hdown : AffordabilityParams.downPayment params = Fin down.
Hypothesis Hdebts : AffordabilityParams.monthlyDebts params = Fin debts.
Hypothesis Hrate : ZillowApiClient.interestRate params = Fin rho.
Hypothesis Hpos : 0 < rho.

Lemma monthlyRateQ_pos : 0 < monthlyRateQ rho.
Proof.
  unfold monthlyRateQ.
  apply Qlt_shift_div_l; [reflexivity |].
  apply Qlt_shift_div_l; [reflexivity |]. lra.
Qed.

Lemma growthQ_gt_1 : 1 < growthQ rho.
Proof.
  unfold growthQ. apply Qpower_1_lt; [| reflexivity].
  pose proof monthlyRateQ_pos. lra.
Qed.

Lemma annuity_denominator_pos : 0 < monthlyRateQ rho * growthQ rho.
Proof.
  pose proof monthlyRateQ_pos. pose proof growthQ_gt_1.
  apply Qmult_lt_0_compat; lra.
Qed.

Lemma annuityFactorQ_pos : 0 < annuityFactorQ rho.
Proof.
  unfold annuityFactorQ.
  pose proof annuity_denominator_pos. pose proof growthQ_gt_1.
  apply Qlt_shift_div_l; [assumption |]. lra.
Qed.

Lemma monthlyRate_fin :
  ZillowApiClient.monthlyRate params = Fin (monthlyRateQ rho).
Proof.
  unfold ZillowApiClient.monthlyRate. rewrite Hrate.
  unfold ofZ. rewrite !div_Fin by discriminate. reflexivity.
Qed.

Lemma growth_fin :
  pow (add (ofZ 1) (ZillowApiClient.monthlyRate params))
      ZillowApiClient.numPayments
  = Fin (growthQ rho).
Proof.
  rewrite monthlyRate_fin. unfold ofZ. cbn [add].
  rewrite pow_Fin_pos by reflexivity. reflexivity.
Qed.

Lemma maxMonthlyPayment_fin :
  ZillowApiClient.maxMonthlyPayment params
  = Fin (maxMonthlyPaymentQ income debts).
Proof.
  unfold ZillowApiClient.maxMonthlyPayment, ZillowApiClient.monthlyIncome.
  rewrite Hincome, Hdebts. unfold ofZ, lit.
  rewrite div_Fin by discriminate. reflexivity.
Qed.

Lemma maxLoanAmount_fin :
  ZillowApiClient.maxLoanAmount params
  = Fin (maxMonthlyPaymentQ income debts * annuityFactorQ rho).
Proof.
  unfold ZillowApiClient.maxLoanAmount.
  rewrite growth_fin, maxMonthlyPayment_fin, monthlyRate_fin.
  unfold ofZ. cbn [add sub neg mul].
  rewrite div_Fin.
  - reflexivity.
  - pose proof annuity_denominator_pos. lra.
Qed.

Lemma maxHomePrice_fin :
  ZillowApiClient.maxHomePrice params
  = ofZ (roundQ (maxMonthlyPaymentQ income debts * annuityFactorQ rho + down)).
Proof.
  unfold ZillowApiClient.maxHomePrice.
  rewrite maxLoanAmount_fin, Hdown. reflexivity.
Qed.

Lemma estimatedMonthlyPayment_fin :
  ZillowApiClient.estimatedMonthlyPayment params
  = ofZ (roundQ (maxMonthlyPaymentQ income debts)).
Proof.
  unfold ZillowApiClient.estimatedMonthlyPayment.
  rewrite maxMonthlyPayment_fin. reflexivity.
Qed.

(** Amortizing the maximum loan gives back the payment it was derived
    from: the principal-and-interest component is the whole of the
    reported monthly payment. *)
Lemma principalAndInterest_is_payment :
  ZillowApiClient.principalAndInterest params
  = ZillowApiClient.estimatedMonthlyPayment params.
Proof.
  rewrite estimatedMonthlyPayment_fin.
  unfold ZillowApiClient.principalAndInterest.
  rewrite growth_fin, maxLoanAmount_fin, monthlyRate_fin.
  unfold ofZ. cbn [add sub neg mul].
  pose proof annuity_denominator_pos as Hd.
  pose proof growthQ_gt_1 as Hg.
  change (inject_Z 1) with 1.
  rewrite div_Fin by lra.
  cbn [round]. unfold ofZ. f_equal. f_equal.
  apply roundQ_comp. unfold annuityFactorQ. field.
  pose proof monthlyRateQ_pos as Hr.
  repeat split; lra.
Qed.

End PositiveRate.

(** ** The annuity factor at the default rate of 6.5 % *)

Lemma truncDown_le (k : positive) (q : Q) : truncDown k q <= q.
Proof.
  unfold truncDown. rewrite Qmake_Qdiv.
  apply Qle_shift_div_r; [reflexivity |]. apply Qfloor_le.
Qed.

Lemma truncUp_ge (k : positive) (q : Q) : q <= truncUp k q.
Proof.
  unfold truncUp. rewrite Qmake_Qdiv.
  apply Qle_shift_div_l; [reflexivity |].
  apply Qlt_le_weak, Qlt_floor.
Qed.

Lemma truncDown_nonneg (k : positive) (q : Q) : 0 <= q -> 0 <= truncDown k q.
Proof.
  intros H. unfold truncDown.
  assert (F : (0 <= Qfloor (q * inject_Z (Z.pos k)))%Z).
  { change 0%Z with (Qfloor 0). apply Qfloor_resp_le.
    apply Qmult_le_0_compat; [exact H | discriminate]. }
  unfold Qle. cbn [Qnum Qden]. lia.
Qed.

Lemma powBounds_sound (k : positive) (lo hi x : Q) (n : positive) :
  0 <= lo -> lo <= x -> x <= hi ->
  0 <= fst (powBounds k lo hi n) /\
  fst (powBounds k lo hi n) <= Qpower_positive x n /\
  Qpower_positive x n <= snd (powBounds k lo hi n).
Proof.
  intros Hlo Hx Hhi.
  induction n as [m IH | m IH |]; cbn [powBounds].
  - destruct (powBounds k lo hi m) as [a b]. cbn [fst snd] in *.
    destruct IH as [Ha [Hay Hyb]].
    change (Qpower_positive x m~1)
      with (x * (Qpower_positive x m * Qpower_positive x m)).
    set (y := Qpower_positive x m) in *.
    assert (Haa : a * a <= y * y) by nra.
    assert (Hbb : y * y <= b * b) by nra.
    assert (0 <= a * a) by nra.
    split; [apply truncDown_nonneg; nra |]. split.
    + apply Qle_trans with (lo * (a * a)); [apply truncDown_le | nra].
    + apply Qle_trans with (hi * (b * b)); [nra | apply truncUp_ge].
  - destruct (powBounds k lo hi m) as [a b]. cbn [fst snd] in *.
    destruct IH as [Ha [Hay Hyb]].
    change (Qpower_positive x m~0)
      with (Qpower_positive x m * Qpower_positive x m).
    set (y := Qpower_positive x m) in *.
    split; [apply truncDown_nonneg; nra |]. split.
    + apply Qle_trans with (a * a); [apply truncDown_le | nra].
    + apply Qle_trans with (b * b); [nra | apply truncUp_ge].
  - cbn [fst snd]. change (Qpower_positive x 1) with x. auto.
Qed.

(** [(1 + 0.065/12)^360] lies between 6.99179797386 and 6.99179797387. *)
Lemma growth_65_bounds :
  (699179797386 # 100000000000) <= growthQ (65 # 10)
  /\ growthQ (65 # 10) <= (699179797387 # 100000000000).
Proof.
  unfold growthQ.
  change ((1 + monthlyRateQ (65 # 10)) ^ 360)
    with (Qpower_positive (1 + monthlyRateQ (65 # 10)) 360).
  set (x := 1 + monthlyRateQ (65 # 10)).
  assert (Hx : x == 2413 # 2400) by reflexivity.
  destruct (@powBounds_sound 1000000000000000 (2413 # 2400) (2413 # 2400)
              x 360) as [_ [L U]].
  - discriminate.
  - rewrite Hx. apply Qle_refl.
  - rewrite Hx. apply Qle_refl.
  - split.
    + eapply Qle_trans; [| exact L]. vm_compute. discriminate.
    + eapply Qle_trans; [exact U |]. vm_compute. discriminate.
Qed.

(** The annuity factor of a 30-year loan at 6.5 % lies between
    158.210819 and 158.210820. *)
Lemma annuityFactor_65_bounds :
  (158210819 # 1000000) <= annuityFactorQ (65 # 10)
  /\ annuityFactorQ (65 # 10) <= (158210820 # 1000000).
Proof.
  destruct growth_65_bounds as [L U].
  unfold annuityFactorQ.
  set (p := growthQ (65 # 10)) in *.
  assert (Hr : monthlyRateQ (65 # 10) == 13 # 2400) by reflexivity.
  rewrite Hr.
  split.
  - apply Qle_shift_div_l; [nra | nra].
  - apply Qle_shift_div_r; [nra | nra].
Qed.

(** A value within one half of a whole number rounds to it. *)
Lemma roundQ_between (a : Q) (z : Z) :
  inject_Z z - (1 # 2) <= a -> a < inject_Z z + (1 # 2) -> roundQ a = z.
Proof.
  intros L U. unfold roundQ.
  pose proof (Qfloor_le (a + (1 # 2))) as F1.
  pose proof (Qlt_floor (a + (1 # 2))) as F2.
  rewrite inject_Z_plus in F2. change (inject_Z 1) with 1 in F2.
  set (f := Qfloor (a + (1 # 2))) in *.
  assert (A : inject_Z f < inject_Z z + 1) by lra.
  assert (B : inject_Z z < inject_Z f + 1) by lra.
  change 1 with (inject_Z 1) in A, B.
  rewrite <- inject_Z_plus in A, B. rewrite <- Zlt_Qlt in A, B. lia.
Qed.

(** ** The calculation engine *)

(** Closes a goal [lo <= c * K + d] or [c * K + d < hi] on the annuity
    factor [K] at 6.5 %, once the housing budget [c] is a numeral. *)
Ltac by_annuity_bounds :=
  let L := fresh "L" in
  let U := fresh "U" in
  destruct annuityFactor_65_bounds as [L U];
  set (K := annuityFactorQ (65 # 10)) in *;
  repeat match goal with
         | |- context [inject_Z ?z] =>
             let q := eval cbv in (inject_Z z) in change (inject_Z z) with q
         end;
  lra.

Lemma budget_95000 : maxMonthlyPaymentQ 95000 450 == 17725 # 6.
Proof. reflexivity. Qed.

Lemma maxLoanAmount_95000 :
  ZillowApiClient.maxLoanAmount input95000
  = Fin (maxMonthlyPaymentQ 95000 450 * annuityFactorQ (65 # 10)).
Proof. apply maxLoanAmount_fin; reflexivity. Qed.

Lemma maxHomePrice_95000 :
  ZillowApiClient.maxHomePrice input95000 = ofZ 532381.
Proof.
  rewrite (@maxHomePrice_fin input95000 95000 65000 450 (65 # 10))
    by reflexivity.
  apply (f_equal ofZ).
  apply roundQ_between; rewrite budget_95000; by_annuity_bounds.
Qed.

Lemma propertyTax_95000 : ZillowApiClient.propertyTax input95000 = ofZ 532.
Proof.
  unfold ZillowApiClient.propertyTax. rewrite maxHomePrice_95000.
  vm_compute. reflexivity.
Qed.

Lemma insurance_95000 : ZillowApiClient.insurance input95000 = ofZ 177.
Proof.
  unfold ZillowApiClient.insurance. rewrite maxHomePrice_95000.
  vm_compute. reflexivity.
Qed.

Lemma below_threshold_95000 :
  lt (AffordabilityParams.downPayment input95000)
     (mul (ZillowApiClient.maxHomePrice input95000) (lit 2 10)) = true.
Proof. rewrite maxHomePrice_95000. vm_compute. reflexivity. Qed.

Lemma pmi_95000 : ZillowApiClient.pmi input95000 = ofZ 195.
Proof.
  unfold ZillowApiClient.pmi.
  rewrite below_threshold_95000, maxLoanAmount_95000.
  unfold lit, ofZ at 1. cbn [mul]. rewrite div_Fin by discriminate.
  cbn [round]. apply (f_equal ofZ).
  assert (E : maxMonthlyPaymentQ 95000 450 * annuityFactorQ (65 # 10)
              * (5 # 1000) / inject_Z 12
              == (17725 # 14400) * annuityFactorQ (65 # 10))
    by (rewrite budget_95000; field).
  apply roundQ_between; rewrite E; by_annuity_bounds.
Qed.

Lemma estimatedMonthlyPayment_95000 :
  ZillowApiClient.estimatedMonthlyPayment input95000 = ofZ 2954.
Proof. vm_compute. reflexivity. Qed.

Lemma principalAndInterest_95000 :
  ZillowApiClient.principalAndInterest input95000 = ofZ 2954.
Proof.
  rewrite (@principalAndInterest_is_payment input95000 95000 450 (65 # 10))
    by reflexivity.
  apply estimatedMonthlyPayment_95000.
Qed.

(** C1.  At [annualIncome=95000, downPayment=65000, creditScore=740,
    monthlyDebts=450, interestRate=6.5] the call reports a monthly payment
    of 2954 while the four breakdown components (2954, 532, 177 and 195) sum
    to 3858: the sum is not within one unit of the reported payment, it
    exceeds it by 904. *)
Theorem breakdown_sum_exceeds_payment_at_95000 :
  exists r,
    ZillowApiClient.calculateAffordability input95000 = Normal r /\
    AffordabilityResult.monthlyPayment r = ofZ 2954 /\
    componentsSum (AffordabilityResult.breakdown r) = ofZ 3858 /\
    sub (componentsSum (AffordabilityResult.breakdown r))
        (AffordabilityResult.monthlyPayment r) = ofZ 904 /\
    le (sub (componentsSum (AffordabilityResult.breakdown r))
            (AffordabilityResult.monthlyPayment r)) (ofZ 1) = false.
Proof.
  eexists. split; [reflexivity |].
  cbn [AffordabilityResult.monthlyPayment AffordabilityResult.breakdown].
  pose proof estimatedMonthlyPayment_95000 as P.
  unfold componentsSum.
  cbn [Breakdown.principalAndInterest Breakdown.propertyTax
       Breakdown.insurance Breakdown.pmi].
  rewrite P, principalAndInterest_95000, propertyTax_95000, insurance_95000,
    pmi_95000.
  repeat split; vm_compute; reflexivity.
Qed.

(** The reported total is the sum of the four components, whatever the
    inputs. *)
Lemma breakdown_total_is_sum (params : AffordabilityParams.t) :
  exists r,
    ZillowApiClient.calculateAffordability params = Normal r /\
    Breakdown.total (AffordabilityResult.breakdown r)
    = componentsSum (AffordabilityResult.breakdown r).
Proof. eexists. split; reflexivity. Qed.

(** *** Zero interest rate *)

Section ZeroRate.

Variable params : MortgageParams.t.
Variable q : Q.
Hypothesis Hrate : MortgageParams.interestRate params = Fin q.
Hypothesis Hzero : q == 0.

Let rate : Q := q / inject_Z 100 / inject_Z 12.
Let n : Z := (MortgageParams.loanTerm params * 12)%Z.

Lemma zero_monthly_rate : rate == 0.
Proof. unfold rate. rewrite Hzero. reflexivity. Qed.

(** [Math.pow(1 + 0, n)] is a finite number equal to one. *)
Lemma zero_rate_growth :
  exists g, pow (Fin (inject_Z 1 + rate)) n = Fin g /\ g == 1.
Proof.
  pose proof zero_monthly_rate as Hr.
  unfold pow. destruct (n =? 0)%Z.
  - exists 1. split; reflexivity.
  - assert (E : Qeq_bool (inject_Z 1 + rate) 0 = false).
    { apply not_true_iff_false. rewrite Qeq_bool_iff, Hr. discriminate. }
    rewrite E, andb_false_r.
    exists ((inject_Z 1 + rate) ^ n). split; [reflexivity |].
    rewrite Hr. change (inject_Z 1 + 0) with (1 + 0).
    rewrite Qplus_0_r. apply Qpower_1.
Qed.

(** The numerator [loanAmount * (r * g)] is zero or [NaN]; the
    denominator [g - 1] is zero. *)
Lemma zero_rate_quotient (loanAmount : number) (g : Q) :
  g == 1 ->
  div (mul loanAmount (mul (Fin rate) (Fin g))) (sub (Fin g) (Fin (inject_Z 1)))
  = NaN.
Proof.
  intros Hg. pose proof zero_monthly_rate as Hr.
  assert (Hp : rate * g == 0) by (rewrite Hr; ring).
  assert (Hd : g + - inject_Z 1 == 0) by (rewrite Hg; reflexivity).
  cbn [mul sub neg add].
  destruct loanAmount as [a | | |]; cbn [mul].
  - apply div_Fin_zero; [rewrite Hp; ring | exact Hd].
  - unfold scaleInf. rewrite (proj1 (Qeq_alt _ _) Hp). reflexivity.
  - unfold scaleInf. rewrite (proj1 (Qeq_alt _ _) Hp). reflexivity.
  - reflexivity.
Qed.

Lemma zero_rate_monthlyPayment :
  exists r,
    ZillowApiClient.calculateMortgagePayment params = Normal r /\
    MortgagePaymentResult.monthlyPayment r = NaN /\
    MortgagePaymentResult.totalPayment r = NaN /\
    MortgagePaymentResult.totalInterest r = NaN.
Proof.
  eexists. split; [reflexivity |].
  cbn [MortgagePaymentResult.monthlyPayment
       MortgagePaymentResult.totalPayment
       MortgagePaymentResult.totalInterest].
  rewrite Hrate. fold n.
  assert (Hm : div (div (Fin q) (ofZ 100)) (ofZ 12) = Fin rate).
  { unfold ofZ. rewrite !div_Fin by discriminate. reflexivity. }
  rewrite !Hm.
  change (add (ofZ 1) (Fin rate)) with (Fin (inject_Z 1 + rate)).
  destruct zero_rate_growth as [g [Eg Hg]].
  rewrite !Eg. change (ofZ 1) with (Fin (inject_Z 1)).
  rewrite !(zero_rate_quotient _ Hg).
  repeat split.
Qed.

End ZeroRate.

(** At a zero rate the sample loan is answered, not refused: the call
    returns normally and the payment it reports is [NaN]. *)
Lemma zero_rate_not_rejected :
  ~ throws (ZillowApiClient.calculateMortgagePayment loanAtZeroRate) /\
  exists r,
    ZillowApiClient.calculateMortgagePayment loanAtZeroRate = Normal r /\
    MortgagePaymentResult.monthlyPayment r = NaN.
Proof.
  split.
  - intros [e H]. discriminate H.
  - destruct (@zero_rate_monthlyPayment loanAtZeroRate 0)
      as [r [E [P _]]]; [reflexivity | reflexivity |].
    exists r. split; assumption.
Qed.

(** C2 (as amended).  With an interest rate of zero
    [calculateMortgagePayment] does not raise: it returns normally, and the
    monthly payment, the total payment and the total interest it reports
    are all [NaN]. *)
Theorem zero_rate_payment_is_NaN :
  forall (params : MortgageParams.t) (q : Q),
    MortgageParams.interestRate params = Fin q ->
    q == 0 ->
    ~ throws (ZillowApiClient.calculateMortgagePayment params) /\
    exists r,
      ZillowApiClient.calculateMortgagePayment params = Normal r /\
      MortgagePaymentResult.monthlyPayment r = NaN /\
      MortgagePaymentResult.totalPayment r = NaN /\
      MortgagePaymentResult.totalInterest r = NaN.
Proof.
  intros params q Hrate Hzero. split.
  - intros [e H]. discriminate H.
  - exact (zero_rate_monthlyPayment params Hrate Hzero).
Qed.

Lemma zero_rate_payment_is_NaN_witness :
  MortgageParams.interestRate loanAtZeroRate = Fin 0 /\
  0 == 0 /\
  exists r,
    ZillowApiClient.calculateMortgagePayment loanAtZeroRate = Normal r /\
    MortgagePaymentResult.monthlyPayment r = NaN.
Proof.
  split; [reflexivity |]. split; [reflexivity |].
  destruct (zero_rate_payment_is_NaN loanAtZeroRate (q := 0))
    as [_ [r [E [P _]]]]; [reflexivity | reflexivity |].
  exists r. split; assumption.
Defined.

(** *** A housing budget that is not positive *)

Lemma budget_overIndebted : maxMonthlyPaymentQ 12000 500 == - (70).
Proof. reflexivity. Qed.

Lemma maxHomePrice_overIndebted :
  ZillowApiClient.maxHomePrice inputOverIndebted = ofZ 38925.
Proof.
  rewrite (@maxHomePrice_fin inputOverIndebted 12000 50000 500 (65 # 10))
    by reflexivity.
  apply (f_equal ofZ).
  apply roundQ_between; rewrite budget_overIndebted; by_annuity_bounds.
Qed.

(** With a yearly income of 12000 and monthly debts of 500 the housing
    budget is [-70]; the call reports that negative payment and a home price
    below the down payment of 50000. *)
Lemma negative_budget_not_clamped :
  le (ZillowApiClient.maxMonthlyPayment inputOverIndebted) (ofZ 0) = true /\
  exists r,
    ZillowApiClient.calculateAffordability inputOverIndebted = Normal r /\
    AffordabilityResult.monthlyPayment r = ofZ (-70) /\
    AffordabilityResult.monthlyPayment r <> ofZ 0 /\
    AffordabilityResult.maxHomePrice r = ofZ 38925 /\
    AffordabilityResult.maxHomePrice r
    <> round (AffordabilityParams.downPayment inputOverIndebted).
Proof.
  split; [vm_compute; reflexivity |].
  eexists. split; [reflexivity |].
  cbn [AffordabilityResult.monthlyPayment AffordabilityResult.maxHomePrice].
  assert (P : ZillowApiClient.estimatedMonthlyPayment inputOverIndebted
              = ofZ (-70)) by (vm_compute; reflexivity).
  rewrite P, maxHomePrice_overIndebted.
  repeat split; try reflexivity; vm_compute; discriminate.
Qed.

(** C3 (as amended).  On ordinary inputs (finite amounts of at most 10^12
    in magnitude, a yearly rate between 0.01 % and 100 %), when the maximum
    monthly housing payment is at most 0 the call still succeeds; it
    reports that payment rounded, which is at most 0, and the home price
    [round(maxLoanAmount + downPayment)], which is at most the down payment
    rounded.  The two are 0 and the down payment rounded when the maximum
    monthly housing payment is exactly 0. *)
Theorem nonpositive_budget_reported_unclamped :
  forall (params : AffordabilityParams.t) (income down debts rho : Q),
    AffordabilityParams.annualIncome params = Fin income ->
    AffordabilityParams.downPayment params = Fin down ->
    AffordabilityParams.monthlyDebts params = Fin debts ->
    ZillowApiClient.interestRate params = Fin rho ->
    ordinaryRate rho ->
    moderate income ->
    moderate down ->
    moderate debts ->
    le (ZillowApiClient.maxMonthlyPayment params) (ofZ 0) = true ->
    exists r,
      ZillowApiClient.calculateAffordability params = Normal r /\
      AffordabilityResult.monthlyPayment r
      = round (ZillowApiClient.maxMonthlyPayment params) /\
      le (AffordabilityResult.monthlyPayment r) (ofZ 0) = true /\
      AffordabilityResult.maxHomePrice r
      = round (add (ZillowApiClient.maxLoanAmount params)
                   (AffordabilityParams.downPayment params)) /\
      le (AffordabilityResult.maxHomePrice r)
         (round (AffordabilityParams.downPayment params)) = true /\
      (same (ZillowApiClient.maxMonthlyPayment params) (ofZ 0) ->
       AffordabilityResult.monthlyPayment r = ofZ 0 /\
       AffordabilityResult.maxHomePrice r
       = round (AffordabilityParams.downPayment params)).
Proof.
  intros params income down debts rho Hi Hd Hm Hr [Hlow _] _ _ _ Hle.
  assert (Hpos : 0 < rho) by lra.
  pose proof (maxMonthlyPayment_fin params Hi Hm) as Ebudget.
  pose proof (maxHomePrice_fin params Hi Hd Hm Hr Hpos) as Eprice.
  pose proof (estimatedMonthlyPayment_fin params Hi Hm) as Epay.
  pose proof (annuityFactorQ_pos Hpos) as HK.
  rewrite Ebudget in Hle. unfold le, ofZ in Hle.
  apply Qle_bool_iff in Hle. change (inject_Z 0) with 0 in Hle.
  eexists. split; [reflexivity |].
  cbn [AffordabilityResult.monthlyPayment AffordabilityResult.maxHomePrice].
  split; [reflexivity |].
  split; [rewrite Epay; apply le_ofZ; apply roundQ_nonpos; exact Hle |].
  split; [reflexivity |].
  rewrite Eprice, Epay, Hd, Ebudget. cbn [round same].
  split.
  - apply le_ofZ. apply roundQ_le.
    assert (maxMonthlyPaymentQ income debts * annuityFactorQ rho <= 0) by nra.
    lra.
  - intros Hz. change (maxMonthlyPaymentQ income debts == 0) in Hz. split.
    + rewrite (roundQ_comp Hz).
      change (roundQ 0) with (roundQ (inject_Z 0)).
      rewrite roundQ_Z. reflexivity.
    + f_equal. apply roundQ_comp. rewrite Hz. ring.
Qed.

Lemma nonpositive_budget_reported_unclamped_witness :
  exists r,
    ZillowApiClient.calculateAffordability inputOverIndebted = Normal r /\
    le (AffordabilityResult.monthlyPayment r) (ofZ 0) = true /\
    le (AffordabilityResult.maxHomePrice r)
       (round (AffordabilityParams.downPayment inputOverIndebted)) = true.
Proof.
  destruct (nonpositive_budget_reported_unclamped inputOverIndebted
              (income := 12000) (down := 50000) (debts := 500)
              (rho := 65 # 10))
    as [r [E [_ [P [_ [H _]]]]]];
    [reflexivity | reflexivity | reflexivity | reflexivity
     | split; discriminate | split; discriminate | split; discriminate
     | split; discriminate | vm_compute; reflexivity |].
  exists r. repeat split; assumption.
Defined.

(** *** Mortgage insurance *)








(** *** Monotonicity of the maximum home price *)

(** The exact home price grows with the down payment and shrinks with the
    monthly debts. *)
Lemma exact_price_monotone (income rho debts1 debts2 down1 down2 : Q) :
  0 < rho -> debts2 <= debts1 -> down1 <= down2 ->
  (roundQ (maxMonthlyPaymentQ income debts1 * annuityFactorQ rho + down1)
   <= roundQ (maxMonthlyPaymentQ income debts2 * annuityFactorQ rho + down2))%Z.
Proof.
  intros Hpos Hdebts Hdown. apply roundQ_le.
  pose proof (annuityFactorQ_pos Hpos) as HK.
  unfold maxMonthlyPaymentQ.
  set (base := income / 12 * (43 # 100)).
  assert ((base - debts1) * annuityFactorQ rho
          <= (base - debts2) * annuityFactorQ rho) by nra.
  lra.
Qed.

(** At an interest rate of 0 the price is [NaN] whatever the down payment,
    and [NaN] is not ordered: of two inputs that differ only in the down
    payment, 65000 and 70000, the second does not get a price that is at
    least the first's. *)
Lemma zero_rate_price_not_ordered :
  exists r1 r2,
    ZillowApiClient.calculateAffordability
      (setDownPayment Fixture.zeroRateInput (Fin 65000)) = Normal r1 /\
    ZillowApiClient.calculateAffordability
      (setDownPayment Fixture.zeroRateInput (Fin 70000)) = Normal r2 /\
    AffordabilityResult.maxHomePrice r1 = NaN /\
    AffordabilityResult.maxHomePrice r2 = NaN /\
    le (AffordabilityResult.maxHomePrice r1)
       (AffordabilityResult.maxHomePrice r2) = false.
Proof.
  eexists. eexists. split; [reflexivity |]. split; [reflexivity |].
  cbn [AffordabilityResult.maxHomePrice].
  assert (E1 : ZillowApiClient.maxHomePrice
                 (setDownPayment Fixture.zeroRateInput (Fin 65000)) = NaN)
    by (vm_compute; reflexivity).
  assert (E2 : ZillowApiClient.maxHomePrice
                 (setDownPayment Fixture.zeroRateInput (Fin 70000)) = NaN)
    by (vm_compute; reflexivity).
  rewrite E1, E2. repeat split.
Qed.

(** C6 (as amended).  Among finite inputs at a yearly rate between 0.01 %
    and 100 % (the default 6.5 included): of two inputs that differ only in
    the down payment, the one with the larger down payment has a maximum
    home price at least as large; of two inputs that differ only in the
    monthly debts, the one with the larger debts has a maximum home price
    at most as large. *)
Theorem maxHomePrice_monotone :
  forall (params : AffordabilityParams.t) (income rho lo hi : Q),
    AffordabilityParams.annualIncome params = Fin income ->
    ZillowApiClient.interestRate params = Fin rho ->
    ordinaryRate rho ->
    lo <= hi ->
    (forall debts : Q,
       AffordabilityParams.monthlyDebts params = Fin debts ->
       exists r1 r2,
         ZillowApiClient.calculateAffordability
           (setDownPayment params (Fin lo)) = Normal r1 /\
         ZillowApiClient.calculateAffordability
           (setDownPayment params (Fin hi)) = Normal r2 /\
         le (AffordabilityResult.maxHomePrice r1)
            (AffordabilityResult.maxHomePrice r2) = true) /\
    (forall down : Q,
       AffordabilityParams.downPayment params = Fin down ->
       exists r1 r2,
         ZillowApiClient.calculateAffordability
           (setMonthlyDebts params (Fin lo)) = Normal r1 /\
         ZillowApiClient.calculateAffordability
           (setMonthlyDebts params (Fin hi)) = Normal r2 /\
         le (AffordabilityResult.maxHomePrice r2)
            (AffordabilityResult.maxHomePrice r1) = true).
Proof.
  intros params income rho lo hi Hi Hr [Hlow _] Hle.
  assert (Hpos : 0 < rho) by lra.
  split.
  - intros debts Hm. eexists. eexists.
    split; [reflexivity |]. split; [reflexivity |].
    cbn [AffordabilityResult.maxHomePrice].
    rewrite (maxHomePrice_fin (setDownPayment params (Fin lo))
               (income := income) (down := lo) (debts := debts) (rho := rho))
      by (assumption || reflexivity).
    rewrite (maxHomePrice_fin (setDownPayment params (Fin hi))
               (income := income) (down := hi) (debts := debts) (rho := rho))
      by (assumption || reflexivity).
    apply le_ofZ. apply exact_price_monotone; try assumption. lra.
  - intros down Hd. eexists. eexists.
    split; [reflexivity |]. split; [reflexivity |].
    cbn [AffordabilityResult.maxHomePrice].
    rewrite (maxHomePrice_fin (setMonthlyDebts params (Fin lo))
               (income := income) (down := down) (debts := lo) (rho := rho))
      by (assumption || reflexivity).
    rewrite (maxHomePrice_fin (setMonthlyDebts params (Fin hi))
               (income := income) (down := down) (debts := hi) (rho := rho))
      by (assumption || reflexivity).
    apply le_ofZ. apply exact_price_monotone; try assumption. lra.
Qed.

Lemma maxHomePrice_monotone_witness :
  (exists r1 r2,
     ZillowApiClient.calculateAffordability
       (setDownPayment input95000 (Fin 65000)) = Normal r1 /\
     ZillowApiClient.calculateAffordability
       (setDownPayment input95000 (Fin 70000)) = Normal r2 /\
     le (AffordabilityResult.maxHomePrice r1)
        (AffordabilityResult.maxHomePrice r2) = true) /\
  (exists r1 r2,
     ZillowApiClient.calculateAffordability
       (setMonthlyDebts input95000 (Fin 65000)) = Normal r1 /\
     ZillowApiClient.calculateAffordability
       (setMonthlyDebts input95000 (Fin 70000)) = Normal r2 /\
     le (AffordabilityResult.maxHomePrice r2)
        (AffordabilityResult.maxHomePrice r1) = true).
Proof.
  destruct (maxHomePrice_monotone input95000
              (income := 95000) (rho := 65 # 10) (lo := 65000) (hi := 70000))
    as [Hdown Hdebts];
    [reflexivity | reflexivity | split; discriminate | discriminate |].
  split.
  - apply (Hdown 450). reflexivity.
  - apply (Hdebts 65000). reflexivity.
Defined.

(** *** The credit score *)

(** C8.  Two inputs that differ only in the credit score yield results that
    agree on every field but the echoed credit score: home price, monthly
    payment, loan amount, down payment, interest rate, DTI ratio, breakdown
    and assumptions are the same, and each result echoes its own score. *)
Theorem creditScore_noninterference :
  forall p1 p2 : AffordabilityParams.t,
    AffordabilityParams.annualIncome p1 = AffordabilityParams.annualIncome p2 ->
    AffordabilityParams.downPayment p1 = AffordabilityParams.downPayment p2 ->
    AffordabilityParams.monthlyDebts p1 = AffordabilityParams.monthlyDebts p2 ->
    AffordabilityParams.interestRate p1 = AffordabilityParams.interestRate p2 ->
    exists r1 r2,
      ZillowApiClient.calculateAffordability p1 = Normal r1 /\
      ZillowApiClient.calculateAffordability p2 = Normal r2 /\
      AffordabilityResult.maxHomePrice r1 = AffordabilityResult.maxHomePrice r2 /\
      AffordabilityResult.monthlyPayment r1
      = AffordabilityResult.monthlyPayment r2 /\
      AffordabilityResult.loanAmount r1 = AffordabilityResult.loanAmount r2 /\
      AffordabilityResult.downPayment r1 = AffordabilityResult.downPayment r2 /\
      AffordabilityResult.interestRate r1
      = AffordabilityResult.interestRate r2 /\
      AffordabilityResult.dtiRatio r1 = AffordabilityResult.dtiRatio r2 /\
      AffordabilityResult.breakdown r1 = AffordabilityResult.breakdown r2 /\
      AffordabilityResult.assumptions r1 = AffordabilityResult.assumptions r2 /\
      AffordabilityResult.creditScore r1 = AffordabilityParams.creditScore p1 /\
      AffordabilityResult.creditScore r2 = AffordabilityParams.creditScore p2.
Proof.
  intros [i1 d1 c1 m1 r1] [i2 d2 c2 m2 r2] Hi Hd Hm Hr.
  cbn [AffordabilityParams.annualIncome AffordabilityParams.downPayment
       AffordabilityParams.monthlyDebts AffordabilityParams.interestRate]
    in Hi, Hd, Hm, Hr.
  subst i2 d2 m2 r2.
  eexists. eexists.
  split; [reflexivity |]. split; [reflexivity |].
  repeat split.
Qed.

Lemma creditScore_noninterference_witness :
  exists r1 r2,
    ZillowApiClient.calculateAffordability input95000 = Normal r1 /\
    ZillowApiClient.calculateAffordability
      {| AffordabilityParams.annualIncome := ofZ 95000;
         AffordabilityParams.downPayment := ofZ 65000;
         AffordabilityParams.creditScore := ofZ 580;
         AffordabilityParams.monthlyDebts := ofZ 450;
         AffordabilityParams.interestRate := Some (lit 65 10) |} = Normal r2 /\
    AffordabilityResult.maxHomePrice r1 = AffordabilityResult.maxHomePrice r2 /\
    AffordabilityResult.breakdown r1 = AffordabilityResult.breakdown r2 /\
    AffordabilityResult.creditScore r1 = ofZ 740 /\
    AffordabilityResult.creditScore r2 = ofZ 580.
Proof.
  destruct (creditScore_noninterference input95000
              {| AffordabilityParams.annualIncome := ofZ 95000;
                 AffordabilityParams.downPayment := ofZ 65000;
                 AffordabilityParams.creditScore := ofZ 580;
                 AffordabilityParams.monthlyDebts := ofZ 450;
                 AffordabilityParams.interestRate := Some (lit 65 10) |})
    as [r1 [r2 [E1 [E2 [H1 [_ [_ [_ [_ [_ [H2 [_ [C1 C2]]]]]]]]]]]]];
    [reflexivity | reflexivity | reflexivity | reflexivity |].
  exists r1, r2. repeat split; assumption.
Defined.

(** ** The dispatcher *)

Lemma string_append_assoc (a b c : string) :
  ((a ++ b) ++ c = a ++ (b ++ c))%string.
Proof.
  induction a as [| ch a IH]; simpl; [reflexivity |].
  rewrite IH. reflexivity.
Qed.

(** *** Property search: fallback and failure *)

Section PropertySearch.
Context {host : Host}.
Variable w : World.

Lemma propertySearch_unconfigured (args : Server.PropertySearchArgs.t)
    (s : State) :
  Server.propertySearchHandler w None args s
  = (Normal (Server.propertySearchMock args), s).
Proof. reflexivity. Qed.

Lemma propertySearch_failure (cfg : Server.ZillowApiConfig)
    (args : Server.PropertySearchArgs.t) (s s' : State) (e : exn) :
  ZillowApiClient.searchProperties w (Server.searchParamsOf args) s
  = (Throw e, s') ->
  Server.propertySearchHandler w (Some cfg) args s
  = (Normal
       (Server.errorResult
          ("Error searching properties in "
           ++ Server.PropertySearchArgs.location args ++ ": ") e),
     s').
Proof.
  intros H.
  unfold Server.propertySearchHandler, Server.propertySearchLive,
    bind, attempt.
  rewrite H. reflexivity.
Qed.

Lemma propertySearch_never_throws (api : option Server.ZillowApiConfig)
    (args : Server.PropertySearchArgs.t) (s : State) :
  returns (fst (Server.propertySearchHandler w api args s)).
Proof.
  unfold returns, Server.propertySearchHandler, bind, attempt.
  destruct api as [cfg |].
  - destruct (Server.propertySearchLive w args s) as [[r | e] s'];
      eexists; reflexivity.
  - eexists. reflexivity.
Qed.

End PropertySearch.

(** With a configured provider whose call fails, the search for
    [location="Seattle, WA", bedrooms=3] does not return the fallback list:
    the result is flagged as an error and carries no structured payload. *)
Lemma propertySearch_failure_is_error_result :
  exists r s',
    Server.propertySearchHandler (host := Sample.host) Sample.failingWorld
      (Some Sample.config) Sample.seattleSearch initState = (Normal r, s') /\
    Server.isError r = true /\
    Server.structuredContent r = None /\
    Server.structuredContent r
    <> Server.structuredContent
         (Server.propertySearchMock (host := Sample.host) Sample.seattleSearch).
Proof.
  eexists. eexists. split; [reflexivity |].
  split; [reflexivity |]. split; [reflexivity |]. discriminate.
Qed.

(** C4 (as amended).  A property search never throws past the handler.
    When the provider is unconfigured it returns exactly the two-item
    fallback list with [usingMockData] set.  When the provider is configured
    and its call fails it returns an error-flagged result with the failure's
    message and no structured payload. *)
Theorem propertySearch_fallback_or_error :
  forall (host : Host) (w : World) (args : Server.PropertySearchArgs.t)
         (s : State),
    (forall api, returns (fst (Server.propertySearchHandler w api args s))) /\
    (exists r payload,
       Server.propertySearchHandler w None args s = (Normal r, s) /\
       Server.isError r = false /\
       Server.structuredContent r = Some payload /\
       Server.SearchPayload.properties payload = Server.mockProperties args /\
       List.length (Server.SearchPayload.properties payload) = 2%nat /\
       Server.SearchPayload.usingMockData payload = true) /\
    (forall cfg e s',
       ZillowApiClient.searchProperties w (Server.searchParamsOf args) s
       = (Throw e, s') ->
       exists r,
         Server.propertySearchHandler w (Some cfg) args s = (Normal r, s') /\
         Server.isError r = true /\
         Server.structuredContent r = None /\
         Server.text r
         = ("Error searching properties in "
            ++ Server.PropertySearchArgs.location args ++ ": "
            ++ Server.errorMessage e)%string).
Proof.
  intros host w args s. split; [| split].
  - intros api. apply propertySearch_never_throws.
  - eexists. eexists.
    split; [apply propertySearch_unconfigured |].
    repeat split.
  - intros cfg e s' H. eexists.
    split; [apply propertySearch_failure; exact H |].
    split; [reflexivity |]. split; [reflexivity |].
    cbn [Server.text Server.errorResult].
    rewrite !string_append_assoc. reflexivity.
Qed.

Lemma propertySearch_fallback_or_error_witness :
  exists r,
    fst (Server.propertySearchHandler (host := Sample.host) Sample.failingWorld
           (Some Sample.config) Sample.seattleSearch initState) = Normal r /\
    Server.isError r = true /\
    Server.structuredContent r = None.
Proof.
  destruct (propertySearch_fallback_or_error Sample.host Sample.failingWorld
              Sample.seattleSearch initState) as [_ [_ Hfail]].
  destruct (Hfail Sample.config
              (ErrorObj "Zillow API error: 503 Service Unavailable")
              (snd (ZillowApiClient.searchProperties Sample.failingWorld
                      (Server.searchParamsOf Sample.seattleSearch) initState)))
    as [r [E [B [P _]]]]; [reflexivity |].
  exists r. rewrite E. repeat split; assumption.
Defined.

(** *** The requests a computation issues *)

Section Emits.
Variable P : Request -> Prop.

Lemma emits_ret {A : Type} (a : A) : emits P (ret a).
Proof.
  intros s. exists []. split; [| constructor].
  simpl. rewrite app_nil_r. reflexivity.
Qed.

Lemma emits_throw {A : Type} (e : exn) : emits P (throw (A := A) e).
Proof.
  intros s. exists []. split; [| constructor].
  simpl. rewrite app_nil_r. reflexivity.
Qed.

Lemma emits_liftC {A : Type} (c : completion A) : emits P (liftC c).
Proof.
  intros s. exists []. split; [| constructor].
  simpl. rewrite app_nil_r. reflexivity.
Qed.

Lemma emits_randomId (w : World) : emits P (randomId w).
Proof.
  intros s. exists []. split; [| constructor].
  simpl. rewrite app_nil_r. reflexivity.
Qed.

Lemma emits_bind {A B : Type} (m : M A) (k : A -> M B) :
  emits P m -> (forall a, emits P (k a)) -> emits P (bind m k).
Proof.
  intros Hm Hk s. unfold bind.
  destruct (Hm s) as [new1 [E1 F1]].
  destruct (m s) as [[a | e] s1]; simpl in E1.
  - destruct (Hk a s1) as [new2 [E2 F2]].
    exists (new1 ++ new2). split.
    + rewrite E2, E1, app_assoc. reflexivity.
    + apply Forall_app. split; assumption.
  - exists new1. split; assumption.
Qed.

Lemma emits_attempt {A : Type} (m : M A) : emits P m -> emits P (attempt m).
Proof.
  intros Hm s. unfold attempt.
  destruct (Hm s) as [new [E F]].
  destruct (m s) as [c s1]. exists new. split; assumption.
Qed.

Lemma emits_makeRequest {T : Type} (w : World)
    (fetch : World -> list Request -> Request -> completion T)
    (endpoint : string) (params : list (string * option qvalue)) :
  P (mkRequest endpoint (ZillowApiClient.present params)) ->
  emits P (ZillowApiClient.makeRequest w fetch endpoint params).
Proof.
  intros HP s. eexists. split; [reflexivity |].
  constructor; [exact HP | constructor].
Qed.

Lemma emits_searchPropertiesByCoordinates (w : World)
    (params : CoordinateParams.t) :
  P (mkRequest "/propertyByCoordinates"
       (ZillowApiClient.present (ZillowApiClient.coordinateApiParams params))) ->
  emits P (ZillowApiClient.searchPropertiesByCoordinates w params).
Proof.
  intros HP. unfold ZillowApiClient.searchPropertiesByCoordinates.
  apply emits_bind; [apply emits_makeRequest; exact HP |].
  intros [found |]; [apply emits_ret | apply emits_throw].
Qed.

End Emits.

(** *** Area lookup: which coordinate searches are issued *)

Section AreaRequests.
Context {host : Host}.
Variable w : World.
Variable args : Server.AreasArgs.t.

(** The searches the intent leaves out: for-sale searches under a
    for-rent intent, for-rent searches under a for-sale or absent
    intent. *)
Variable status : StatusType.
Hypothesis excluded :
  match status with
  | ForSale => Server.wantsSale (Server.AreasArgs.propertyType args) = false
  | ForRent => Server.wantsRent (Server.AreasArgs.propertyType args) = false
  end.

Let quiet (r : Request) : Prop := isCoordinateSearch status r = false.

Lemma suggestions_quiet (location : string) :
  emits quiet (ZillowApiClient.searchLocationSuggestions w location).
Proof. apply emits_makeRequest. reflexivity. Qed.

Lemma pushFeatured_quiet (location : LocationSuggestion.t) (count : number)
    (props : list PropertyDetails.t) :
  forall featured,
    emits quiet (Server.pushFeatured w location count props featured).
Proof.
  induction props as [| prop rest IH]; intros featured; simpl.
  - apply emits_ret.
  - apply emits_bind; [| intros a; apply IH].
    destruct (List.length featured <? 8)%nat; [| apply emits_ret].
    apply emits_bind; [| intros a; apply emits_ret].
    destruct (truthyStr (PropertyDetails.zpid prop));
      [apply emits_ret | apply emits_randomId].
Qed.

Lemma salePhase_quiet (location : LocationSuggestion.t) (lat lng : number)
    (featured : list Server.Featured.t) :
  emits quiet (Server.salePhase w args location lat lng featured).
Proof.
  unfold Server.salePhase.
  destruct (Server.wantsSale (Server.AreasArgs.propertyType args)) eqn:W;
    [| apply emits_ret].
  apply emits_bind.
  - apply emits_searchPropertiesByCoordinates.
    pose proof excluded as Hx. unfold quiet.
    destruct status; [discriminate Hx | reflexivity].
  - intros [[total perPage pages page [props |]] |]; try apply emits_ret.
    destruct (List.length featured <? 8)%nat; [| apply emits_ret].
    apply emits_bind; [apply pushFeatured_quiet | intros a; apply emits_ret].
Qed.

Lemma rentPhase_quiet (lat lng : number) :
  emits quiet (Server.rentPhase w args lat lng).
Proof.
  unfold Server.rentPhase.
  destruct (Server.wantsRent (Server.AreasArgs.propertyType args)) eqn:W;
    [| apply emits_ret].
  apply emits_bind; [| intros a; apply emits_ret].
  apply emits_searchPropertiesByCoordinates.
  pose proof excluded as Hx. unfold quiet.
  destruct status; [reflexivity | discriminate Hx].
Qed.

Lemma areaCounts_quiet (location : LocationSuggestion.t)
    (lat lng : option number) (featured : list Server.Featured.t) :
  emits quiet (Server.areaCounts w args location lat lng featured).
Proof.
  unfold Server.areaCounts.
  destruct lat as [la |]; [| apply emits_ret].
  destruct lng as [ln |]; [| apply emits_ret].
  destruct (truthy la && truthy ln); [| apply emits_ret].
  apply emits_bind; [apply emits_attempt, salePhase_quiet |].
  intros [[count featured'] | e]; [| apply emits_ret].
  apply emits_bind; [apply emits_attempt, rentPhase_quiet |].
  intros [rental | e]; apply emits_ret.
Qed.

Lemma areaLoop_quiet (locations : list LocationSuggestion.t) :
  forall areas featured,
    emits quiet (Server.areaLoop w args locations areas featured).
Proof.
  induction locations as [| location rest IH]; intros areas featured; simpl.
  - apply emits_ret.
  - apply emits_bind; [apply areaCounts_quiet |].
    intros [[count rental] featured']. apply IH.
Qed.

Lemma areasHandler_quiet (api : option Server.ZillowApiConfig) :
  emits quiet (Server.areasHandler w api args).
Proof.
  unfold Server.areasHandler.
  apply emits_bind; [| intros [r | e]; apply emits_ret].
  apply emits_attempt.
  destruct api as [cfg |]; [| apply emits_ret].
  unfold Server.areasLive.
  apply emits_bind; [apply suggestions_quiet |].
  intros reply. apply emits_bind.
  - destruct (Server.firstGroupResults reply);
      [apply areaLoop_quiet | apply emits_ret].
  - intros [areas featured]. apply emits_ret.
Qed.

End AreaRequests.

(** With the sample provider, a for-rent lookup of "Austin, TX" issues the
    location lookup and one for-rent coordinate search; a lookup with intent
    "both" issues the for-sale search as well. *)
Example areaLookup_for_rent_trace :
  map (fun r => (endpoint r, isCoordinateSearch ForSale r,
                 isCoordinateSearch ForRent r))
      (trace (snd (Server.areasHandler (host := Sample.host) Sample.world
                     (Some Sample.config)
                     (Sample.austinAreas (Some Server.IntentForRent))
                     initState)))
  = [ ("/locationSuggestions"%string, false, false);
      ("/propertyByCoordinates"%string, false, true) ].
Proof. vm_compute. reflexivity. Qed.

Example areaLookup_both_trace :
  map (fun r => (endpoint r, isCoordinateSearch ForSale r,
                 isCoordinateSearch ForRent r))
      (trace (snd (Server.areasHandler (host := Sample.host) Sample.world
                     (Some Sample.config)
                     (Sample.austinAreas (Some Server.IntentBoth))
                     initState)))
  = [ ("/locationSuggestions"%string, false, false);
      ("/propertyByCoordinates"%string, true, false);
      ("/propertyByCoordinates"%string, false, true) ].
Proof. vm_compute. reflexivity. Qed.

(** C7.  An area lookup with intent "for-rent" never issues a for-sale
    coordinate search, whatever the provider answers and whether or not it
    is configured; symmetrically a lookup with intent "for-sale" (or with
    no intent given) never issues a for-rent coordinate search. *)
Theorem areaLookup_intent_exclusive :
  forall (host : Host) (w : World) (api : option Server.ZillowApiConfig)
         (location : string) (filters : option json),
    emits (fun r => isCoordinateSearch ForSale r = false)
      (Server.areasHandler w api
         {| Server.AreasArgs.location := location;
            Server.AreasArgs.propertyType := Some Server.IntentForRent;
            Server.AreasArgs.filters := filters |}) /\
    emits (fun r => isCoordinateSearch ForRent r = false)
      (Server.areasHandler w api
         {| Server.AreasArgs.location := location;
            Server.AreasArgs.propertyType := Some Server.IntentForSale;
            Server.AreasArgs.filters := filters |}) /\
    emits (fun r => isCoordinateSearch ForRent r = false)
      (Server.areasHandler w api
         {| Server.AreasArgs.location := location;
            Server.AreasArgs.propertyType := None;
            Server.AreasArgs.filters := filters |}).
Proof.
  intros host w api location filters. repeat split.
  - apply areasHandler_quiet with (status := ForSale). reflexivity.
  - apply areasHandler_quiet with (status := ForRent). reflexivity.
  - apply areasHandler_quiet with (status := ForRent). reflexivity.
Qed.

(** *** Area lookup: the price of a featured property *)


(** The listing's own price does not enter the featured property. *)
Lemma featuredOf_ignores_listing_price {host : Host}
    (location : LocationSuggestion.t) (count : number) (id : string)
    (prop : PropertyDetails.t) (price : option number) :
  Server.featuredOf location count id (setPrice prop price)
  = Server.featuredOf location count id prop.
Proof. reflexivity. Qed.

Section FeaturedPrices.
Context {host : Host}.
Variable w : World.
Variable args : Server.AreasArgs.t.






End FeaturedPrices.



(** *** Zero is treated as absent *)








(** The defaults at work: a call with every number given as 0 is answered
    like a call with no argument at all, from an income of 75000 and a down
    payment of 50000. *)
Example affordability_all_zero :
  Server.affordabilityHandler (host := Sample.host) Sample.world None
    (Server.AffordabilityArgs.mk
       (Some (ofZ 0)) (Some (ofZ 0)) (Some (ofZ 0)) (Some (ofZ 0)) None)
  = Server.affordabilityHandler (host := Sample.host) Sample.world None
      (Server.AffordabilityArgs.mk None None None None None).
Proof. reflexivity. Qed.

(* ================================================================== *)
(** * Further properties of the calculation engine *)

(** ** The mortgage payment at a positive rate *)

Lemma pow_Fin_nonzero (x : Q) (n : Z) :
  ~ x == 0 -> n <> 0%Z -> pow (Fin x) n = Fin (x ^ n).
Proof.
  intros Hx Hn. unfold pow.
  destruct (Z.eqb_spec n 0) as [E | _]; [contradiction |].
  assert (F : Qeq_bool x 0 = false).
  { apply not_true_iff_false. rewrite Qeq_bool_iff. exact Hx. }
  rewrite F, andb_false_r. reflexivity.
Qed.

Lemma roundQ_nonneg (a : Q) : 0 <= a -> (0 <= roundQ a)%Z.
Proof.
  intros H. unfold roundQ.
  change 0%Z with (Qfloor 0). apply Qfloor_resp_le. lra.
Qed.

(** [round(x)] is within one half of [x]. *)
Lemma roundQ_near (a : Q) :
  a - (1 # 2) < inject_Z (roundQ a) /\ inject_Z (roundQ a) <= a + (1 # 2).
Proof.
  unfold roundQ. split.
  - pose proof (Qlt_floor (a + (1 # 2))) as H.
    rewrite inject_Z_plus in H. change (inject_Z 1) with 1 in H. lra.
  - apply Qfloor_le.
Qed.

Section MortgageAtPositiveRate.

Variable rho : Q.
Hypothesis Hpos : 0 < rho.

Lemma growthAtQ_pos (n : Z) : 0 < growthAtQ rho n.
Proof.
  unfold growthAtQ. apply Qpower_0_lt.
  pose proof (monthlyRateQ_pos Hpos). lra.
Qed.

Lemma growthAtQ_gt_1 (n : Z) : (0 < n)%Z -> 1 < growthAtQ rho n.
Proof.
  intros Hn. unfold growthAtQ. apply Qpower_1_lt; [| exact Hn].
  pose proof (monthlyRateQ_pos Hpos). lra.
Qed.

Lemma growthAtQ_lt_1 (n : Z) : (n < 0)%Z -> growthAtQ rho n < 1.
Proof.
  intros Hn.
  assert (G : 1 < growthAtQ rho (- n)) by (apply growthAtQ_gt_1; lia).
  assert (E : growthAtQ rho n == / growthAtQ rho (- n)).
  { unfold growthAtQ. rewrite <- Qpower_opp.
    rewrite Z.opp_involutive. reflexivity. }
  rewrite E.
  apply Qlt_shift_inv_r; lra.
Qed.

Lemma growthAtQ_not_1 (n : Z) : n <> 0%Z -> ~ growthAtQ rho n - 1 == 0.
Proof.
  intros Hn.
  destruct (Z.lt_trichotomy n 0) as [L | [E | G]].
  - pose proof (growthAtQ_lt_1 L). lra.
  - contradiction.
  - pose proof (growthAtQ_gt_1 G). lra.
Qed.

Lemma paymentFactorQ_pos (n : Z) : (0 < n)%Z -> 0 < paymentFactorQ rho n.
Proof.
  intros Hn. unfold paymentFactorQ.
  pose proof (growthAtQ_gt_1 Hn) as G.
  pose proof (monthlyRateQ_pos Hpos) as R.
  apply Qlt_shift_div_l; [lra |].
  assert (0 < monthlyRateQ rho * growthAtQ rho n)
    by (apply Qmult_lt_0_compat; lra).
  lra.
Qed.

(** Compound growth over [n] months stays within [n] months of simple
    interest on the final amount: [(1+r)^n - 1 <= n * r * (1+r)^n]. *)
Lemma growth_minus_1_bound (n : positive) :
  growthAtQ rho (Z.pos n) - 1
  <= inject_Z (Z.pos n) * (monthlyRateQ rho * growthAtQ rho (Z.pos n)).
Proof.
  pose proof (monthlyRateQ_pos Hpos) as R.
  induction n as [| m IH] using Pos.peano_ind.
  - unfold growthAtQ. rewrite Qpower_1_r. change (inject_Z 1) with 1. nra.
  - assert (E : growthAtQ rho (Z.pos (Pos.succ m))
                == growthAtQ rho (Z.pos m) * (1 + monthlyRateQ rho)).
    { unfold growthAtQ. rewrite Pos2Z.inj_succ, <- Z.add_1_r.
      rewrite Qpower_plus' by lia. rewrite Qpower_1_r. reflexivity. }
    assert (I : inject_Z (Z.pos (Pos.succ m)) == inject_Z (Z.pos m) + 1).
    { rewrite Pos2Z.inj_succ, <- Z.add_1_r, inject_Z_plus. reflexivity. }
    rewrite E, I.
    pose proof (growthAtQ_pos (Z.pos m)) as G.
    set (g := growthAtQ rho (Z.pos m)) in *.
    set (r := monthlyRateQ rho) in *.
    assert (K : 0 <= inject_Z (Z.pos m)).
    { change 0 with (inject_Z 0). rewrite <- Zle_Qle. lia. }
    set (k := inject_Z (Z.pos m)) in *.
    assert (0 <= k * (r * (g * r))).
    { apply Qmult_le_0_compat; [exact K |].
      apply Qmult_le_0_compat; [lra |].
      apply Qmult_le_0_compat; lra. }
    assert (0 <= r * (g * r)).
    { apply Qmult_le_0_compat; [lra |]. apply Qmult_le_0_compat; lra. }
    nra.
Qed.

(** Before rounding, [n] payments repay at least the principal. *)
Lemma paymentFactorQ_repays (n : positive) :
  1 <= inject_Z (Z.pos n) * paymentFactorQ rho (Z.pos n).
Proof.
  pose proof (growth_minus_1_bound n) as B.
  assert (G : 1 < growthAtQ rho (Z.pos n)) by (apply growthAtQ_gt_1; lia).
  unfold paymentFactorQ.
  set (g := growthAtQ rho (Z.pos n)) in *.
  set (r := monthlyRateQ rho) in *.
  set (k := inject_Z (Z.pos n)) in *.
  assert (E : k * (r * g / (g - 1)) == k * (r * g) / (g - 1))
    by (field; lra).
  rewrite E. apply Qle_shift_div_l; lra.
Qed.

Variable params : MortgageParams.t.
Variables price down : Q.
Hypothesis Hprice : MortgageParams.homePrice params = Fin price.
Hypothesis Hdown : MortgageParams.downPayment params = Fin down.
Hypothesis Hrate : MortgageParams.interestRate params = Fin rho.
Hypothesis Hterm : MortgageParams.loanTerm params <> 0%Z.

Let n : Z := (MortgageParams.loanTerm params * 12)%Z.

(** The result of [calculateMortgagePayment] in closed form. *)
Lemma mortgage_closed_form :
  ZillowApiClient.calculateMortgagePayment params
  = Normal
      {| MortgagePaymentResult.homePrice := Fin price;
         MortgagePaymentResult.downPayment := Fin down;
         MortgagePaymentResult.loanAmount := Fin (price - down);
         MortgagePaymentResult.interestRate := Fin rho;
         MortgagePaymentResult.loanTerm := MortgageParams.loanTerm params;
         MortgagePaymentResult.monthlyPayment :=
           ofZ (roundQ ((price - down)
                        * (monthlyRateQ rho * growthAtQ rho n)
                        / (growthAtQ rho n - 1)));
         MortgagePaymentResult.totalPayment :=
           mul (ofZ (roundQ ((price - down)
                             * (monthlyRateQ rho * growthAtQ rho n)
                             / (growthAtQ rho n - 1))))
               (ofZ n);
         MortgagePaymentResult.totalInterest :=
           sub (mul (ofZ (roundQ ((price - down)
                                  * (monthlyRateQ rho * growthAtQ rho n)
                                  / (growthAtQ rho n - 1))))
                    (ofZ n))
               (Fin (price - down));
         MortgagePaymentResult.apr := Fin (rho + (2 # 10)) |}.
Proof.
  unfold ZillowApiClient.calculateMortgagePayment. fold n.
  rewrite Hprice, Hdown, Hrate.
  assert (Hm : div (div (Fin rho) (ofZ 100)) (ofZ 12) = Fin (monthlyRateQ rho)).
  { unfold ofZ. rewrite !div_Fin by discriminate. reflexivity. }
  rewrite !Hm.
  change (add (ofZ 1) (Fin (monthlyRateQ rho)))
    with (Fin (1 + monthlyRateQ rho)).
  assert (Hn : n <> 0%Z) by (unfold n; lia).
  pose proof (monthlyRateQ_pos Hpos) as R.
  rewrite !pow_Fin_nonzero by (lra || exact Hn).
  fold (growthAtQ rho n).
  change (sub (Fin (growthAtQ rho n)) (ofZ 1))
    with (Fin (growthAtQ rho n - 1)).
  cbn [mul sub add neg].
  rewrite !div_Fin by (apply growthAtQ_not_1; exact Hn).
  reflexivity.
Qed.

End MortgageAtPositiveRate.

(** An ordinary rate is positive and an ordinary term is neither zero nor
    negative. *)
Lemma ordinaryRate_pos (rho : Q) : ordinaryRate rho -> 0 < rho.
Proof. intros [Hlow _]. lra. Qed.

Lemma ordinaryTerm_pos (years : Z) : ordinaryTerm years -> (0 < years)%Z.
Proof. unfold ordinaryTerm. lia. Qed.

(** X1.  At an ordinary rate (0.01 % to 100 % a year) and an ordinary term
    (1 to 100 years), [calculateMortgagePayment] on prices of at most
    10^12 in magnitude returns finite numbers in every field: the [NaN] of
    the zero rate does not occur. *)
Theorem mortgage_result_finite :
  forall (params : MortgageParams.t) (price down rho : Q),
    MortgageParams.homePrice params = Fin price ->
    MortgageParams.downPayment params = Fin down ->
    MortgageParams.interestRate params = Fin rho ->
    ordinaryRate rho ->
    ordinaryTerm (MortgageParams.loanTerm params) ->
    moderate price ->
    moderate down ->
    exists r,
      ZillowApiClient.calculateMortgagePayment params = Normal r /\
      isFinite (MortgagePaymentResult.loanAmount r) = true /\
      isFinite (MortgagePaymentResult.monthlyPayment r) = true /\
      isFinite (MortgagePaymentResult.totalPayment r) = true /\
      isFinite (MortgagePaymentResult.totalInterest r) = true /\
      isFinite (MortgagePaymentResult.apr r) = true.
Proof.
  intros params price down rho Hp Hd Hr Hrate Hterm _ _.
  pose proof (ordinaryRate_pos Hrate) as Hpos.
  pose proof (ordinaryTerm_pos Hterm) as Ht.
  assert (Ht' : MortgageParams.loanTerm params <> 0%Z) by lia.
  eexists. split.
  - apply (mortgage_closed_form Hpos params Hp Hd Hr Ht').
  - repeat split.
Qed.

Lemma mortgage_result_finite_witness :
  exists r,
    ZillowApiClient.calculateMortgagePayment loanSample = Normal r /\
    isFinite (MortgagePaymentResult.monthlyPayment r) = true.
Proof.
  destruct (@mortgage_result_finite loanSample 400000 80000 (65 # 10))
    as [r [E [_ [F _]]]];
    [reflexivity | reflexivity | reflexivity | split; discriminate
     | split; discriminate | split; discriminate | split; discriminate |].
  exists r. split; assumption.
Defined.

(** The payment per unit of principal, as the program computes it. *)
Lemma payment_per_unit (rho : Q) (n : Z) (L : Q) :
  0 < rho -> n <> 0%Z ->
  L * (monthlyRateQ rho * growthAtQ rho n) / (growthAtQ rho n - 1)
  == L * paymentFactorQ rho n.
Proof.
  intros Hpos Hn. unfold paymentFactorQ. field.
  apply growthAtQ_not_1; assumption.
Qed.

(** X2.  At an ordinary rate and an ordinary term the monthly payment grows
    with the amount borrowed: a smaller [homePrice - downPayment] never
    yields a larger monthly payment, so raising the down payment never
    raises the payment. *)
Theorem mortgage_payment_monotone :
  forall (params : MortgageParams.t) (rho price1 down1 price2 down2 : Q),
    MortgageParams.interestRate params = Fin rho ->
    ordinaryRate rho ->
    ordinaryTerm (MortgageParams.loanTerm params) ->
    price1 - down1 <= price2 - down2 ->
    exists r1 r2,
      ZillowApiClient.calculateMortgagePayment
        (setPrices params (Fin price1) (Fin down1)) = Normal r1 /\
      ZillowApiClient.calculateMortgagePayment
        (setPrices params (Fin price2) (Fin down2)) = Normal r2 /\
      le (MortgagePaymentResult.monthlyPayment r1)
         (MortgagePaymentResult.monthlyPayment r2) = true.
Proof.
  intros params rho price1 down1 price2 down2 Hr Hrate Hterm Hle.
  pose proof (ordinaryRate_pos Hrate) as Hpos.
  pose proof (ordinaryTerm_pos Hterm) as Ht.
  assert (Hn : (MortgageParams.loanTerm params * 12 <> 0)%Z) by lia.
  assert (Hn' : (0 < MortgageParams.loanTerm params * 12)%Z) by lia.
  eexists. eexists. split; [| split].
  - apply (mortgage_closed_form Hpos (setPrices params (Fin price1) (Fin down1))
             eq_refl eq_refl Hr). cbn. lia.
  - apply (mortgage_closed_form Hpos (setPrices params (Fin price2) (Fin down2))
             eq_refl eq_refl Hr). cbn. lia.
  - cbn [MortgagePaymentResult.monthlyPayment setPrices
         MortgageParams.loanTerm].
    apply le_ofZ. apply roundQ_le.
    rewrite !payment_per_unit by assumption.
    pose proof (paymentFactorQ_pos Hpos Hn'). nra.
Qed.

Lemma mortgage_payment_monotone_witness :
  exists r1 r2,
    ZillowApiClient.calculateMortgagePayment
      (setPrices loanSample (Fin 400000) (Fin 100000)) = Normal r1 /\
    ZillowApiClient.calculateMortgagePayment
      (setPrices loanSample (Fin 400000) (Fin 80000)) = Normal r2 /\
    le (MortgagePaymentResult.monthlyPayment r1)
       (MortgagePaymentResult.monthlyPayment r2) = true.
Proof.
  apply (@mortgage_payment_monotone loanSample (65 # 10)
           400000 100000 400000 80000);
    [reflexivity | split; discriminate | split; discriminate | discriminate].
Defined.

(** X3.  At an ordinary rate and an ordinary term, for a down payment that
    is not negative and a home price between it and 10^12, the monthly
    payment is at least the interest-free instalment
    [loanAmount / numPayments] rounded, and the reported total interest is
    at least [-numPayments / 2]: it can be negative only through the
    rounding of the monthly payment. *)
Theorem mortgage_payment_covers_principal :
  forall (params : MortgageParams.t) (price down rho : Q),
    MortgageParams.homePrice params = Fin price ->
    MortgageParams.downPayment params = Fin down ->
    MortgageParams.interestRate params = Fin rho ->
    ordinaryRate rho ->
    ordinaryTerm (MortgageParams.loanTerm params) ->
    0 <= down ->
    down <= price ->
    price <= 1000000000000 ->
    exists r,
      ZillowApiClient.calculateMortgagePayment params = Normal r /\
      le (round (div (MortgagePaymentResult.loanAmount r)
                     (ofZ (MortgageParams.loanTerm params * 12))))
         (MortgagePaymentResult.monthlyPayment r) = true /\
      le (Fin (- inject_Z (MortgageParams.loanTerm params * 12) / 2))
         (MortgagePaymentResult.totalInterest r) = true.
Proof.
  intros params price down rho Hp Hd Hr Hrate Hterm _ Hle _.
  pose proof (ordinaryRate_pos Hrate) as Hpos.
  pose proof (ordinaryTerm_pos Hterm) as Ht.
  assert (Hn : (0 < MortgageParams.loanTerm params * 12)%Z) by lia.
  assert (Ht' : MortgageParams.loanTerm params <> 0%Z) by lia.
  eexists. split; [apply (mortgage_closed_form Hpos params Hp Hd Hr Ht') |].
  cbn [MortgagePaymentResult.loanAmount MortgagePaymentResult.monthlyPayment
       MortgagePaymentResult.totalInterest].
  set (n := (MortgageParams.loanTerm params * 12)%Z) in *.
  destruct n as [| k | k] eqn:En; try lia.
  pose proof (paymentFactorQ_repays Hpos k) as Hrep.
  pose proof (paymentFactorQ_pos Hpos (n := Z.pos k) eq_refl) as Hfac.
  assert (Hk : 0 < inject_Z (Z.pos k)).
  { change 0 with (inject_Z 0). rewrite <- Zlt_Qlt. lia. }
  assert (Hinst : (price - down) / inject_Z (Z.pos k)
                  <= (price - down) * paymentFactorQ rho (Z.pos k)).
  { apply Qle_shift_div_r; [exact Hk |].
    set (c := paymentFactorQ rho (Z.pos k)) in *.
    set (q := inject_Z (Z.pos k)) in *.
    assert (0 <= (price - down) * (q * c - 1))
      by (apply Qmult_le_0_compat; lra).
    lra. }
  set (P := (price - down) * (monthlyRateQ rho * growthAtQ rho (Z.pos k))
            / (growthAtQ rho (Z.pos k) - 1)).
  assert (EP : P == (price - down) * paymentFactorQ rho (Z.pos k))
    by (apply payment_per_unit; [exact Hpos | discriminate]).
  split.
  - unfold ofZ at 1. rewrite div_Fin by lra. cbn [round].
    apply le_ofZ. apply roundQ_le. rewrite EP. exact Hinst.
  - unfold ofZ. cbn [mul sub add neg le]. apply Qle_bool_iff.
    pose proof (roundQ_near P) as [Hlo _].
    set (m := inject_Z (roundQ P)) in *.
    set (q := inject_Z (Z.pos k)) in *.
    assert (Hm : (P - (1 # 2)) * q <= m * q)
      by (apply Qmult_le_compat_r; lra).
    assert (HL : price - down <= P * q).
    { rewrite EP.
      set (c := paymentFactorQ rho (Z.pos k)) in *.
      assert (0 <= (price - down) * (q * c - 1))
        by (apply Qmult_le_0_compat; lra).
      lra. }
    assert (D : - q / 2 == - (q * (1 # 2))) by field.
    rewrite D. lra.
Qed.

Lemma mortgage_payment_covers_principal_witness :
  exists r,
    ZillowApiClient.calculateMortgagePayment loanSample = Normal r /\
    le (Fin (- inject_Z (30 * 12) / 2))
       (MortgagePaymentResult.totalInterest r) = true.
Proof.
  destruct (@mortgage_payment_covers_principal loanSample
              400000 80000 (65 # 10))
    as [r [E [_ H]]];
    [reflexivity | reflexivity | reflexivity | split; discriminate
     | split; discriminate | discriminate | discriminate | discriminate |].
  exists r. split; assumption.
Defined.

(** ** The affordability result *)

Lemma Qfloor_unique (q : Q) (z : Z) :
  inject_Z z <= q -> q < inject_Z (z + 1) -> Qfloor q = z.
Proof.
  intros Hlo Hhi.
  pose proof (Qfloor_le q) as A. pose proof (Qlt_floor q) as B.
  assert (L : (z < Qfloor q + 1)%Z).
  { rewrite Zlt_Qlt. apply Qle_lt_trans with q; assumption. }
  assert (U : (Qfloor q < z + 1)%Z).
  { rewrite Zlt_Qlt. apply Qle_lt_trans with q; assumption. }
  lia.
Qed.

Lemma roundQ_plus_Z (a : Q) (d : Z) :
  roundQ (a + inject_Z d) = (roundQ a + d)%Z.
Proof.
  unfold roundQ. apply Qfloor_unique.
  - rewrite inject_Z_plus. pose proof (Qfloor_le (a + (1 # 2))). lra.
  - pose proof (Qlt_floor (a + (1 # 2))) as B.
    rewrite !inject_Z_plus in *. lra.
Qed.

Lemma add_ofZ (a b : Z) : add (ofZ a) (ofZ b) = ofZ (a + b).
Proof.
  unfold ofZ, add, inject_Z, Qplus. cbn [Qnum Qden].
  rewrite !Z.mul_1_r. reflexivity.
Qed.

Lemma le_pred_ofZ (a b : Z) :
  (a - 1 <= b)%Z -> le (sub (ofZ a) (ofZ 1)) (ofZ b) = true.
Proof.
  intros H. unfold ofZ. cbn [sub add neg le]. apply Qle_bool_iff.
  assert (Q1 : inject_Z a <= inject_Z (b + 1)) by (rewrite <- Zle_Qle; lia).
  rewrite inject_Z_plus in Q1. lra.
Qed.

Lemma le_succ_ofZ (a b : Z) :
  (a <= b + 1)%Z -> le (ofZ a) (add (ofZ b) (ofZ 1)) = true.
Proof.
  intros H. unfold ofZ. cbn [add le]. apply Qle_bool_iff.
  assert (Q1 : inject_Z a <= inject_Z (b + 1)) by (rewrite <- Zle_Qle; lia).
  rewrite inject_Z_plus in Q1. exact Q1.
Qed.

(** X4.  On ordinary inputs (income and debts of at most 10^12 in magnitude,
    a yearly rate between 0.01 % and 100 %), when the down payment is a
    whole number of at most 10^12 in magnitude the reported maximum home
    price is the reported loan amount plus the down payment to within one
    unit: the two fields are rounded separately and never drift further
    apart.  (In exact arithmetic the two agree.) *)
Theorem affordability_price_near_loan_plus_down :
  forall (params : AffordabilityParams.t) (income debts rho : Q) (d : Z),
    AffordabilityParams.annualIncome params = Fin income ->
    AffordabilityParams.downPayment params = ofZ d ->
    AffordabilityParams.monthlyDebts params = Fin debts ->
    ZillowApiClient.interestRate params = Fin rho ->
    ordinaryRate rho ->
    moderate income ->
    moderate debts ->
    moderate (inject_Z d) ->
    exists r,
      ZillowApiClient.calculateAffordability params = Normal r /\
      le (sub (add (AffordabilityResult.loanAmount r)
                   (AffordabilityResult.downPayment r))
              (ofZ 1))
         (AffordabilityResult.maxHomePrice r) = true /\
      le (AffordabilityResult.maxHomePrice r)
         (add (add (AffordabilityResult.loanAmount r)
                   (AffordabilityResult.downPayment r))
              (ofZ 1)) = true.
Proof.
  intros params income debts rho d Hi Hd Hm Hr Hrate _ _ _.
  pose proof (ordinaryRate_pos Hrate) as Hpos.
  eexists. split; [reflexivity |].
  cbn [AffordabilityResult.maxHomePrice AffordabilityResult.loanAmount
       AffordabilityResult.downPayment].
  rewrite (maxHomePrice_fin params Hi Hd Hm Hr Hpos).
  rewrite (maxLoanAmount_fin params Hi Hm Hr Hpos), Hd.
  cbn [round]. rewrite add_ofZ, roundQ_plus_Z.
  split; [apply le_pred_ofZ; lia | apply le_succ_ofZ; lia].
Qed.

Lemma affordability_price_near_loan_plus_down_witness :
  exists r,
    ZillowApiClient.calculateAffordability input95000 = Normal r /\
    le (AffordabilityResult.maxHomePrice r)
       (add (add (AffordabilityResult.loanAmount r)
                 (AffordabilityResult.downPayment r))
            (ofZ 1)) = true.
Proof.
  destruct (@affordability_price_near_loan_plus_down input95000
              95000 450 (65 # 10) 65000)
    as [r [E [_ H]]];
    [reflexivity | reflexivity | reflexivity | reflexivity
     | split; discriminate | split; discriminate | split; discriminate
     | split; discriminate |].
  exists r. split; assumption.
Defined.

Lemma round_Fin_scaled (z : Z) (a b : Q) :
  ~ b == 0 ->
  round (div (mul (ofZ z) (Fin a)) (Fin b))
  = ofZ (roundQ (inject_Z z * a / b)).
Proof.
  intros Hb. unfold ofZ at 1. cbn [mul]. rewrite div_Fin by exact Hb.
  reflexivity.
Qed.

(** X5.  On ordinary inputs (amounts of at most 10^12 in magnitude, a yearly
    rate between 0.01 % and 100 %), with a down payment and a housing
    budget ([monthlyIncome * 0.43 - monthlyDebts]) that are not negative:
    the principal-and-interest component alone is within one unit of the
    whole reported monthly payment, property tax, insurance and PMI are
    not negative, and so the breakdown total is never more than one unit
    below the reported monthly payment.  (In exact arithmetic the
    component equals the payment.) *)
Theorem affordability_total_covers_payment :
  forall (params : AffordabilityParams.t) (income down debts rho : Q),
    AffordabilityParams.annualIncome params = Fin income ->
    AffordabilityParams.downPayment params = Fin down ->
    AffordabilityParams.monthlyDebts params = Fin debts ->
    ZillowApiClient.interestRate params = Fin rho ->
    ordinaryRate rho ->
    moderate income ->
    moderate debts ->
    moderate down ->
    0 <= down ->
    0 <= maxMonthlyPaymentQ income debts ->
    exists r,
      ZillowApiClient.calculateAffordability params = Normal r /\
      le (sub (AffordabilityResult.monthlyPayment r) (ofZ 1))
         (Breakdown.principalAndInterest (AffordabilityResult.breakdown r))
      = true /\
      le (Breakdown.principalAndInterest (AffordabilityResult.breakdown r))
         (add (AffordabilityResult.monthlyPayment r) (ofZ 1))
      = true /\
      le (ofZ 0) (Breakdown.propertyTax (AffordabilityResult.breakdown r))
      = true /\
      le (ofZ 0) (Breakdown.insurance (AffordabilityResult.breakdown r))
      = true /\
      le (ofZ 0) (Breakdown.pmi (AffordabilityResult.breakdown r)) = true /\
      le (sub (AffordabilityResult.monthlyPayment r) (ofZ 1))
         (Breakdown.total (AffordabilityResult.breakdown r)) = true.
Proof.
  intros params income down debts rho Hi Hd Hm Hr Hrate _ _ _ Hdown Hbudget.
  pose proof (ordinaryRate_pos Hrate) as Hpos.
  eexists. split; [reflexivity |].
  cbn [AffordabilityResult.breakdown AffordabilityResult.monthlyPayment
       Breakdown.principalAndInterest Breakdown.propertyTax
       Breakdown.insurance Breakdown.pmi Breakdown.total].
  rewrite (principalAndInterest_is_payment params Hi Hm Hr Hpos).
  pose proof (annuityFactorQ_pos Hpos) as HK.
  set (X := maxMonthlyPaymentQ income debts * annuityFactorQ rho).
  assert (HX : 0 <= X) by (apply Qmult_le_0_compat; lra).
  assert (HH : (0 <= roundQ (X + down))%Z) by (apply roundQ_nonneg; lra).
  assert (HHq : 0 <= inject_Z (roundQ (X + down))).
  { change 0 with (inject_Z 0). rewrite <- Zle_Qle. exact HH. }
  assert (Etax : ZillowApiClient.propertyTax params
                 = ofZ (roundQ (inject_Z (roundQ (X + down))
                                * (12 # 1000) / inject_Z 12))).
  { unfold ZillowApiClient.propertyTax.
    rewrite (maxHomePrice_fin params Hi Hd Hm Hr Hpos).
    apply round_Fin_scaled. discriminate. }
  assert (Eins : ZillowApiClient.insurance params
                 = ofZ (roundQ (inject_Z (roundQ (X + down))
                                * (4 # 1000) / inject_Z 12))).
  { unfold ZillowApiClient.insurance.
    rewrite (maxHomePrice_fin params Hi Hd Hm Hr Hpos).
    apply round_Fin_scaled. discriminate. }
  assert (Epmi : exists p, ZillowApiClient.pmi params = ofZ p /\ (0 <= p)%Z).
  { unfold ZillowApiClient.pmi.
    destruct (lt _ _).
    - rewrite (maxLoanAmount_fin params Hi Hm Hr Hpos).
      fold X. unfold lit, ofZ. cbn [mul]. rewrite div_Fin by discriminate.
      eexists. split; [reflexivity |].
      apply roundQ_nonneg.
      apply Qle_shift_div_l; [reflexivity |].
      assert (0 <= X * (5 # 1000)) by (apply Qmult_le_0_compat; lra). lra.
    - exists 0%Z. split; [reflexivity | lia]. }
  destruct Epmi as [p [Epmi Hp]].
  assert (Htax : (0 <= roundQ (inject_Z (roundQ (X + down))
                               * (12 # 1000) / inject_Z 12))%Z).
  { apply roundQ_nonneg. apply Qle_shift_div_l; [reflexivity |].
    assert (0 <= inject_Z (roundQ (X + down)) * (12 # 1000))
      by (apply Qmult_le_0_compat; lra). lra. }
  assert (Hins : (0 <= roundQ (inject_Z (roundQ (X + down))
                               * (4 # 1000) / inject_Z 12))%Z).
  { apply roundQ_nonneg. apply Qle_shift_div_l; [reflexivity |].
    assert (0 <= inject_Z (roundQ (X + down)) * (4 # 1000))
      by (apply Qmult_le_0_compat; lra). lra. }
  rewrite Etax, Eins, Epmi.
  rewrite (estimatedMonthlyPayment_fin params Hi Hm).
  rewrite !add_ofZ.
  split; [apply le_pred_ofZ; lia |].
  split; [apply le_ofZ; lia |].
  split; [apply le_ofZ; exact Htax |].
  split; [apply le_ofZ; exact Hins |].
  split; [apply le_ofZ; exact Hp |].
  apply le_pred_ofZ. lia.
Qed.

Lemma affordability_total_covers_payment_witness :
  exists r,
    ZillowApiClient.calculateAffordability input95000 = Normal r /\
    le (sub (AffordabilityResult.monthlyPayment r) (ofZ 1))
       (Breakdown.total (AffordabilityResult.breakdown r)) = true.
Proof.
  destruct (@affordability_total_covers_payment input95000
              95000 65000 450 (65 # 10))
    as [r [E [_ [_ [_ [_ [_ H]]]]]]];
    [reflexivity | reflexivity | reflexivity | reflexivity
     | split; discriminate | split; discriminate | split; discriminate
     | split; discriminate | discriminate | discriminate |].
  exists r. split; assumption.
Defined.

(** X6.  Among finite inputs at a yearly rate between 0.01 % and 100 %, of
    two inputs that differ only in the annual income the one with the
    larger income has a maximum home price, a monthly payment and a loan
    amount at least as large. *)
Theorem maxHomePrice_monotone_in_income :
  forall (params : AffordabilityParams.t) (down debts rho lo hi : Q),
    AffordabilityParams.downPayment params = Fin down ->
    AffordabilityParams.monthlyDebts params = Fin debts ->
    ZillowApiClient.interestRate params = Fin rho ->
    ordinaryRate rho ->
    lo <= hi ->
    exists r1 r2,
      ZillowApiClient.calculateAffordability
        (setAnnualIncome params (Fin lo)) = Normal r1 /\
      ZillowApiClient.calculateAffordability
        (setAnnualIncome params (Fin hi)) = Normal r2 /\
      le (AffordabilityResult.maxHomePrice r1)
         (AffordabilityResult.maxHomePrice r2) = true /\
      le (AffordabilityResult.monthlyPayment r1)
         (AffordabilityResult.monthlyPayment r2) = true /\
      le (AffordabilityResult.loanAmount r1)
         (AffordabilityResult.loanAmount r2) = true.
Proof.
  intros params down debts rho lo hi Hd Hm Hr Hrate Hle.
  pose proof (ordinaryRate_pos Hrate) as Hpos.
  eexists. eexists. split; [reflexivity |]. split; [reflexivity |].
  cbn [AffordabilityResult.maxHomePrice AffordabilityResult.monthlyPayment
       AffordabilityResult.loanAmount].
  rewrite (maxHomePrice_fin (setAnnualIncome params (Fin lo))
             eq_refl Hd Hm Hr Hpos).
  rewrite (maxHomePrice_fin (setAnnualIncome params (Fin hi))
             eq_refl Hd Hm Hr Hpos).
  rewrite (estimatedMonthlyPayment_fin (setAnnualIncome params (Fin lo))
             eq_refl Hm).
  rewrite (estimatedMonthlyPayment_fin (setAnnualIncome params (Fin hi))
             eq_refl Hm).
  rewrite (maxLoanAmount_fin (setAnnualIncome params (Fin lo))
             eq_refl Hm Hr Hpos).
  rewrite (maxLoanAmount_fin (setAnnualIncome params (Fin hi))
             eq_refl Hm Hr Hpos).
  cbn [round].
  pose proof (annuityFactorQ_pos Hpos) as HK.
  assert (B : maxMonthlyPaymentQ lo debts <= maxMonthlyPaymentQ hi debts).
  { unfold maxMonthlyPaymentQ.
    assert (lo / 12 <= hi / 12).
    { unfold Qdiv. apply Qmult_le_compat_r; [exact Hle | discriminate]. }
    lra. }
  assert (L : maxMonthlyPaymentQ lo debts * annuityFactorQ rho
              <= maxMonthlyPaymentQ hi debts * annuityFactorQ rho)
    by (apply Qmult_le_compat_r; lra).
  split; [apply le_ofZ, roundQ_le; lra |].
  split; [apply le_ofZ, roundQ_le; exact B |].
  apply le_ofZ, roundQ_le; exact L.
Qed.

Lemma maxHomePrice_monotone_in_income_witness :
  exists r1 r2,
    ZillowApiClient.calculateAffordability
      (setAnnualIncome input95000 (Fin 95000)) = Normal r1 /\
    ZillowApiClient.calculateAffordability
      (setAnnualIncome input95000 (Fin 120000)) = Normal r2 /\
    le (AffordabilityResult.maxHomePrice r1)
       (AffordabilityResult.maxHomePrice r2) = true.
Proof.
  destruct (@maxHomePrice_monotone_in_income input95000
              65000 450 (65 # 10) 95000 120000)
    as [r1 [r2 [E1 [E2 [H _]]]]];
    [reflexivity | reflexivity | reflexivity | split; discriminate
     | discriminate |].
  exists r1, r2. repeat split; assumption.
Defined.

Lemma mul_NaN_r (x : number) : mul x NaN = NaN.
Proof. destruct x; reflexivity. Qed.

Lemma add_NaN_l (x : number) : add NaN x = NaN.
Proof. destruct x; reflexivity. Qed.

Lemma add_NaN_r (x : number) : add x NaN = NaN.
Proof. destruct x; reflexivity. Qed.

(** X7.  With an interest rate of zero passed explicitly,
    [calculateAffordability] does not fail: whatever the other inputs, the
    maximum home price, the loan amount, principal and interest, property
    tax, insurance and the breakdown total are all [NaN], and PMI is 0
    (the comparison with [NaN] is false). *)
Theorem affordability_zero_rate_is_NaN :
  forall (params : AffordabilityParams.t) (q : Q),
    AffordabilityParams.interestRate params = Some (Fin q) ->
    q == 0 ->
    exists r,
      ZillowApiClient.calculateAffordability params = Normal r /\
      AffordabilityResult.maxHomePrice r = NaN /\
      AffordabilityResult.loanAmount r = NaN /\
      Breakdown.principalAndInterest (AffordabilityResult.breakdown r) = NaN /\
      Breakdown.propertyTax (AffordabilityResult.breakdown r) = NaN /\
      Breakdown.insurance (AffordabilityResult.breakdown r) = NaN /\
      Breakdown.pmi (AffordabilityResult.breakdown r) = ofZ 0 /\
      Breakdown.total (AffordabilityResult.breakdown r) = NaN.
Proof.
  intros params q Hr Hq.
  eexists. split; [reflexivity |].
  cbn [AffordabilityResult.maxHomePrice AffordabilityResult.loanAmount
       AffordabilityResult.breakdown Breakdown.principalAndInterest
       Breakdown.propertyTax Breakdown.insurance Breakdown.pmi
       Breakdown.total].
  assert (Erate : ZillowApiClient.monthlyRate params
                  = Fin (q / inject_Z 100 / inject_Z 12)).
  { unfold ZillowApiClient.monthlyRate, ZillowApiClient.interestRate.
    rewrite Hr. unfold ofZ. rewrite !div_Fin by discriminate. reflexivity. }
  assert (Hz : q / inject_Z 100 / inject_Z 12 == 0).
  { rewrite Hq. reflexivity. }
  assert (Eg : pow (add (ofZ 1) (ZillowApiClient.monthlyRate params))
                   ZillowApiClient.numPayments
               = Fin ((inject_Z 1 + q / inject_Z 100 / inject_Z 12) ^ 360)).
  { rewrite Erate. reflexivity. }
  assert (Hg : (inject_Z 1 + q / inject_Z 100 / inject_Z 12) ^ 360 == 1).
  { rewrite Hz. reflexivity. }
  assert (EL : ZillowApiClient.maxLoanAmount params = NaN).
  { unfold ZillowApiClient.maxLoanAmount. rewrite Eg, Erate.
    unfold ofZ. cbn [sub neg add mul].
    rewrite div_Fin_zero; [apply mul_NaN_r | |].
    - rewrite Hg. reflexivity.
    - rewrite Hz. ring. }
  assert (EH : ZillowApiClient.maxHomePrice params = NaN).
  { unfold ZillowApiClient.maxHomePrice. rewrite EL, add_NaN_l. reflexivity. }
  assert (EP : ZillowApiClient.principalAndInterest params = NaN).
  { unfold ZillowApiClient.principalAndInterest. rewrite EL. reflexivity. }
  assert (ET : ZillowApiClient.propertyTax params = NaN).
  { unfold ZillowApiClient.propertyTax. rewrite EH. reflexivity. }
  assert (EI : ZillowApiClient.insurance params = NaN).
  { unfold ZillowApiClient.insurance. rewrite EH. reflexivity. }
  assert (EM : ZillowApiClient.pmi params = ofZ 0).
  { unfold ZillowApiClient.pmi. rewrite EH. cbn [mul lit].
    destruct (AffordabilityParams.downPayment params); reflexivity. }
  rewrite EL, EH, EP, ET, EI, EM. repeat split.
Qed.

Lemma affordability_zero_rate_is_NaN_witness :
  exists r,
    ZillowApiClient.calculateAffordability Fixture.zeroRateInput = Normal r /\
    AffordabilityResult.maxHomePrice r = NaN.
Proof.
  destruct (@affordability_zero_rate_is_NaN Fixture.zeroRateInput 0)
    as [r [E [H _]]]; [reflexivity | reflexivity |].
  exists r. split; assumption.
Defined.


(* ================================================================== *)
(** * Further properties of the dispatcher *)

Local Open Scope string_scope.
Local Open Scope list_scope.


(** *** The affordability tool *)

(** X8.  With a configured provider the affordability tool never returns an
    error: the payload is the result of [calculateAffordability] on the
    arguments with their defaults, whatever the provider does.  It issues
    one [/locationSuggestions] request when a non-empty location is given
    and none otherwise; when that request fails the coordinates are left
    undefined and the calculation is returned all the same. *)
Theorem affordability_tool_survives_lookup_failure :
  forall (host : Host) (w : World) (cfg : Server.ZillowApiConfig)
         (args : Server.AffordabilityArgs.t) (s : State),
    exists r result location latitude longitude s',
      Server.affordabilityHandler w (Some cfg) args s = (Normal r, s') /\
      Server.isError r = false /\
      Server.structuredContent r
      = Some (Server.AffordabilityLive result location latitude longitude) /\
      ZillowApiClient.calculateAffordability (affordabilityParamsOf args)
      = Normal result /\
      trace s'
      = trace s
        ++ (if truthyStr (Server.AffordabilityArgs.location args)
            then [ {| endpoint := "/locationSuggestions";
                      query :=
                        [("location",
                          QStr (showStrOpt
                                  (Server.AffordabilityArgs.location args)))]
                   |} ]
            else []) /\
      ((forall reply,
          fetchSuggestions w (trace s)
            {| endpoint := "/locationSuggestions";
               query :=
                 [("location",
                   QStr (showStrOpt
                           (Server.AffordabilityArgs.location args)))] |}
          <> Normal reply) ->
       latitude = None /\ longitude = None).
Proof.
  intros host w cfg args s.
  unfold Server.affordabilityHandler, Server.affordabilityLive.
  unfold bind at 1, attempt at 1, bind at 1.
  unfold liftC at 1, ZillowApiClient.calculateAffordability at 1.
  fold (affordabilityParamsOf args).
  unfold bind at 1, Server.locateForDisplay.
  destruct (Server.AffordabilityArgs.location args) as [l |] eqn:El.
  - cbn [truthyStr showStrOpt].
    destruct (nonEmpty l) eqn:Ne.
    + unfold bind at 1, attempt at 1,
        ZillowApiClient.searchLocationSuggestions,
        ZillowApiClient.makeRequest.
      cbn [ZillowApiClient.present].
      destruct (fetchSuggestions w (trace s) _) as [reply | e] eqn:Ef.
      * destruct (Server.firstResult reply) as [first |];
          cbn [ret trace randoms];
          do 6 eexists;
          (split; [reflexivity |]); (split; [reflexivity |]);
          (split; [reflexivity |]); (split; [reflexivity |]);
          (split; [reflexivity |]);
          intros Hfail; exfalso; apply (Hfail reply); reflexivity.
      * cbn [ret trace randoms].
        do 6 eexists.
        split; [reflexivity |]. split; [reflexivity |].
        split; [reflexivity |]. split; [reflexivity |].
        split; [reflexivity |]. intros _. split; reflexivity.
    + cbn [ret]. do 6 eexists.
      split; [reflexivity |]. split; [reflexivity |].
      split; [reflexivity |]. split; [reflexivity |].
      split; [rewrite app_nil_r; reflexivity |].
      intros _. split; reflexivity.
  - cbn [ret truthyStr]. do 6 eexists.
    split; [reflexivity |]. split; [reflexivity |].
    split; [reflexivity |]. split; [reflexivity |].
    split; [rewrite app_nil_r; reflexivity |].
    intros _. split; reflexivity.
Qed.

Lemma affordability_tool_survives_lookup_failure_witness :
  exists r result location s',
    Server.affordabilityHandler (host := Sample.host) Sample.failingWorld
      (Some Sample.config)
      Fixture.affordabilityInSeattle
      initState = (Normal r, s') /\
    Server.isError r = false /\
    Server.structuredContent r
    = Some (Server.AffordabilityLive result location None None).
Proof.
  destruct (affordability_tool_survives_lookup_failure Sample.host
              Sample.failingWorld Sample.config
              Fixture.affordabilityInSeattle
              initState)
    as [r [result [location [latitude [longitude [s' [E [B [P [_ [_ F]]]]]]]]]]].
  destruct F as [Flat Flng]; [intros reply; discriminate |].
  exists r, result, location, s'.
  split; [exact E |]. split; [exact B |].
  rewrite P, Flat, Flng. reflexivity.
Defined.

(** *** The fallback affordability estimate *)

Lemma orNum_finite (o : option number) (d : number) :
  (forall x, o = Some x -> isFinite x = true) ->
  isFinite d = true ->
  exists q, orNum o d = Fin q.
Proof.
  intros Ho Hd. unfold orNum.
  destruct o as [x |].
  - destruct (truthy x).
    + specialize (Ho x eq_refl). destruct x; try discriminate.
      eexists. reflexivity.
    + destruct d; try discriminate. eexists. reflexivity.
  - destruct d; try discriminate. eexists. reflexivity.
Qed.

Lemma moderateArg_finite (o : option number) :
  moderateArg o -> forall x, o = Some x -> isFinite x = true.
Proof.
  intros H x E. destruct (H x E) as [q [Eq _]]. rewrite Eq. reflexivity.
Qed.

Lemma round_share (m : Z) (a : Q) :
  round (mul (ofZ m) (Fin a)) = ofZ (roundQ (inject_Z m * a)).
Proof. reflexivity. Qed.

Lemma shares_sum_bound (m : Z) :
  (m - 1
   <= roundQ (inject_Z m * (7 # 10)) + roundQ (inject_Z m * (15 # 100))
      + roundQ (inject_Z m * (1 # 10)) + roundQ (inject_Z m * (5 # 100))
   <= m + 2)%Z.
Proof.
  pose proof (roundQ_near (inject_Z m * (7 # 10))) as [A1 A2].
  pose proof (roundQ_near (inject_Z m * (15 # 100))) as [B1 B2].
  pose proof (roundQ_near (inject_Z m * (1 # 10))) as [C1 C2].
  pose proof (roundQ_near (inject_Z m * (5 # 100))) as [D1 D2].
  set (a := roundQ (inject_Z m * (7 # 10))) in *.
  set (b := roundQ (inject_Z m * (15 # 100))) in *.
  set (c := roundQ (inject_Z m * (1 # 10))) in *.
  set (d := roundQ (inject_Z m * (5 # 100))) in *.
  clearbody a b c d.
  assert (L : (m - 2 < a + b + c + d)%Z).
  { rewrite Zlt_Qlt. unfold Z.sub.
    rewrite !inject_Z_plus, inject_Z_opp. change (inject_Z 2) with 2. lra. }
  assert (U : (a + b + c + d <= m + 2)%Z).
  { rewrite Zle_Qle. rewrite !inject_Z_plus. change (inject_Z 2) with 2. lra. }
  lia.
Qed.

(** X9.  Without a provider the affordability tool answers from the fallback
    estimate without any request, and for an income and a down payment of
    at most 10^12 in magnitude (or left out) the four components of its
    breakdown add up to the monthly payment up to rounding: the sum lies
    between the payment minus 1 and the payment plus 2. *)
Theorem fallback_breakdown_sums_to_payment :
  forall (host : Host) (w : World) (args : Server.AffordabilityArgs.t)
         (s : State),
    moderateArg (Server.AffordabilityArgs.annualIncome args) ->
    moderateArg (Server.AffordabilityArgs.downPayment args) ->
    exists r income down score debts location lat lng price payment rate
           breakdown (m total : Z),
      Server.affordabilityHandler w None args s = (Normal r, s) /\
      Server.isError r = false /\
      Server.structuredContent r
      = Some (Server.AffordabilityMock income down score debts location
                lat lng price payment rate breakdown true) /\
      payment = ofZ m /\
      mockComponentsSum breakdown = ofZ total /\
      (m - 1 <= total <= m + 2)%Z.
Proof.
  intros host w args s Hi Hd.
  destruct (orNum_finite (ofZ 75000) (moderateArg_finite Hi) eq_refl)
    as [income Ei].
  destruct (orNum_finite (ofZ 50000) (moderateArg_finite Hd) eq_refl)
    as [down Ed].
  unfold Server.affordabilityHandler, bind, attempt, ret,
    Server.affordabilityMock.
  cbv zeta. rewrite Ei, Ed.
  set (H := roundQ (income * inject_Z 3 + down)).
  set (m := roundQ (inject_Z H * (5 # 1000))).
  change (round (add (mul (Fin income) (ofZ 3)) (Fin down))) with (ofZ H).
  change (round (mul (ofZ H) (lit 5 1000))) with (ofZ m).
  do 12 eexists. exists m. eexists.
  split; [reflexivity |]. split; [reflexivity |]. split; [reflexivity |].
  split; [reflexivity |].
  unfold mockComponentsSum.
  cbn [Server.MockBreakdown.principalAndInterest
       Server.MockBreakdown.propertyTax Server.MockBreakdown.insurance
       Server.MockBreakdown.pmi].
  unfold lit. rewrite !round_share, !add_ofZ.
  split; [reflexivity |]. apply shares_sum_bound.
Qed.

Lemma fallback_breakdown_sums_to_payment_witness :
  exists r,
    Server.affordabilityHandler (host := Sample.host) Sample.world None
      Fixture.affordabilityNoLocation
      initState = (Normal r, initState) /\
    Server.isError r = false.
Proof.
  destruct (@fallback_breakdown_sums_to_payment Sample.host Sample.world
              Fixture.affordabilityNoLocation
              initState)
    as [r [income [down [score [debts [location [lat [lng [price [payment
        [rate [breakdown [m [total [E [B _]]]]]]]]]]]]]]]].
  - intros x H. inversion H. eexists. split; [reflexivity |].
    split; discriminate.
  - intros x H. discriminate H.
  - exists r. split; assumption.
Defined.


(** *** Area lookup: how many requests, how many results *)

Section Budget.

Lemma issuesAtMost_weaken {A : Type} (n k : nat) (m : M A) :
  (n <= k)%nat -> issuesAtMost n m -> issuesAtMost k m.
Proof.
  intros L H s. destruct (H s) as [new [E B]].
  exists new. split; [exact E | lia].
Qed.

Lemma issuesAtMost_ret {A : Type} (a : A) : issuesAtMost 0 (ret a).
Proof.
  intros s. exists []. split; [| simpl; lia].
  simpl. rewrite app_nil_r. reflexivity.
Qed.

Lemma issuesAtMost_throw {A : Type} (e : exn) :
  issuesAtMost 0 (throw (A := A) e).
Proof.
  intros s. exists []. split; [| simpl; lia].
  simpl. rewrite app_nil_r. reflexivity.
Qed.

Lemma issuesAtMost_liftC {A : Type} (c : completion A) :
  issuesAtMost 0 (liftC c).
Proof.
  intros s. exists []. split; [| simpl; lia].
  simpl. rewrite app_nil_r. reflexivity.
Qed.

Lemma issuesAtMost_randomId (w : World) : issuesAtMost 0 (randomId w).
Proof.
  intros s. exists []. split; [| simpl; lia].
  simpl. rewrite app_nil_r. reflexivity.
Qed.

Lemma issuesAtMost_bind {A B : Type} (n k : nat) (m : M A) (f : A -> M B) :
  issuesAtMost n m -> (forall a, issuesAtMost k (f a)) ->
  issuesAtMost (n + k) (bind m f).
Proof.
  intros Hm Hf s. unfold bind.
  destruct (Hm s) as [new1 [E1 B1]].
  destruct (m s) as [[a | e] s1]; simpl in E1.
  - destruct (Hf a s1) as [new2 [E2 B2]].
    exists (new1 ++ new2). split.
    + rewrite E2, E1, app_assoc. reflexivity.
    + rewrite length_app. lia.
  - exists new1. split; [exact E1 | lia].
Qed.

Lemma issuesAtMost_attempt {A : Type} (n : nat) (m : M A) :
  issuesAtMost n m -> issuesAtMost n (attempt m).
Proof.
  intros Hm s. unfold attempt.
  destruct (Hm s) as [new [E B]].
  destruct (m s) as [c s1]. exists new. split; assumption.
Qed.

Lemma issuesAtMost_makeRequest {T : Type} (w : World)
    (fetch : World -> list Request -> Request -> completion T)
    (endpoint : string) (params : list (string * option qvalue)) :
  issuesAtMost 1 (ZillowApiClient.makeRequest w fetch endpoint params).
Proof.
  intros s. eexists. split; [reflexivity |]. simpl. lia.
Qed.

Lemma issuesAtMost_searchPropertiesByCoordinates (w : World)
    (params : CoordinateParams.t) :
  issuesAtMost 1 (ZillowApiClient.searchPropertiesByCoordinates w params).
Proof.
  unfold ZillowApiClient.searchPropertiesByCoordinates.
  apply (issuesAtMost_bind (n := 1) (k := 0));
    [apply issuesAtMost_makeRequest |].
  intros [found |]; [apply issuesAtMost_ret | apply issuesAtMost_throw].
Qed.

End Budget.

Section AreaBudget.
Context {host : Host}.
Variable w : World.
Variable args : Server.AreasArgs.t.

Lemma pushFeatured_budget (location : LocationSuggestion.t) (count : number)
    (props : list PropertyDetails.t) :
  forall featured,
    issuesAtMost 0 (Server.pushFeatured w location count props featured).
Proof.
  induction props as [| prop rest IH]; intros featured; simpl.
  - apply issuesAtMost_ret.
  - apply (issuesAtMost_bind (n := 0) (k := 0)); [| intros a; apply IH].
    destruct (List.length featured <? 8)%nat; [| apply issuesAtMost_ret].
    apply (issuesAtMost_bind (n := 0) (k := 0));
      [| intros a; apply issuesAtMost_ret].
    destruct (truthyStr (PropertyDetails.zpid prop));
      [apply issuesAtMost_ret | apply issuesAtMost_randomId].
Qed.

Lemma salePhase_budget (location : LocationSuggestion.t) (lat lng : number)
    (featured : list Server.Featured.t) :
  issuesAtMost (if Server.wantsSale (Server.AreasArgs.propertyType args)
                then 1 else 0)
    (Server.salePhase w args location lat lng featured).
Proof.
  unfold Server.salePhase.
  destruct (Server.wantsSale (Server.AreasArgs.propertyType args));
    [| apply issuesAtMost_ret].
  apply (issuesAtMost_bind (n := 1) (k := 0));
    [apply issuesAtMost_searchPropertiesByCoordinates |].
  intros [[total perPage pages page [props |]] |];
    try apply issuesAtMost_ret.
  destruct (List.length featured <? 8)%nat; [| apply issuesAtMost_ret].
  apply (issuesAtMost_bind (n := 0) (k := 0));
    [apply pushFeatured_budget | intros a; apply issuesAtMost_ret].
Qed.

Lemma rentPhase_budget (lat lng : number) :
  issuesAtMost (if Server.wantsRent (Server.AreasArgs.propertyType args)
                then 1 else 0)
    (Server.rentPhase w args lat lng).
Proof.
  unfold Server.rentPhase.
  destruct (Server.wantsRent (Server.AreasArgs.propertyType args));
    [| apply issuesAtMost_ret].
  apply (issuesAtMost_bind (n := 1) (k := 0));
    [apply issuesAtMost_searchPropertiesByCoordinates
    | intros a; apply issuesAtMost_ret].
Qed.

(** The coordinate searches one area may cost under the intent. *)
Let perArea : nat :=
  ((if Server.wantsSale (Server.AreasArgs.propertyType args) then 1 else 0)
   + (if Server.wantsRent (Server.AreasArgs.propertyType args) then 1 else 0))%nat.

Lemma areaCounts_budget (location : LocationSuggestion.t)
    (lat lng : option number) (featured : list Server.Featured.t) :
  issuesAtMost perArea (Server.areaCounts w args location lat lng featured).
Proof.
  unfold Server.areaCounts.
  destruct lat as [la |];
    [| apply issuesAtMost_weaken with 0%nat;
       [lia | apply issuesAtMost_ret]].
  destruct lng as [ln |];
    [| apply issuesAtMost_weaken with 0%nat;
       [lia | apply issuesAtMost_ret]].
  destruct (truthy la && truthy ln);
    [| apply issuesAtMost_weaken with 0%nat;
       [lia | apply issuesAtMost_ret]].
  unfold perArea.
  apply issuesAtMost_bind;
    [apply issuesAtMost_attempt, salePhase_budget |].
  intros [[count featured'] | e].
  - replace (if Server.wantsRent (Server.AreasArgs.propertyType args)
             then 1 else 0)%nat
      with ((if Server.wantsRent (Server.AreasArgs.propertyType args)
             then 1 else 0) + 0)%nat by lia.
    apply issuesAtMost_bind;
      [apply issuesAtMost_attempt, rentPhase_budget |].
    intros [rental | e]; apply issuesAtMost_ret.
  - apply issuesAtMost_weaken with 0%nat; [lia | apply issuesAtMost_ret].
Qed.

Lemma areaLoop_budget (locations : list LocationSuggestion.t) :
  forall areas featured,
    issuesAtMost (List.length locations * perArea)
      (Server.areaLoop w args locations areas featured).
Proof.
  induction locations as [| location rest IH]; intros areas featured.
  - apply issuesAtMost_ret.
  - cbn [Server.areaLoop List.length Nat.mul].
    apply issuesAtMost_bind; [apply areaCounts_budget |].
    intros [[count rental] featured']. apply IH.
Qed.

Lemma areasHandler_budget (api : option Server.ZillowApiConfig) :
  issuesAtMost (1 + 5 * perArea) (Server.areasHandler w api args).
Proof.
  unfold Server.areasHandler.
  replace (1 + 5 * perArea)%nat with (1 + 5 * perArea + 0)%nat by lia.
  apply issuesAtMost_bind; [| intros [r | e]; apply issuesAtMost_ret].
  apply issuesAtMost_attempt.
  destruct api as [cfg |];
    [| apply issuesAtMost_weaken with 0%nat;
       [lia | apply issuesAtMost_ret]].
  unfold Server.areasLive.
  apply issuesAtMost_bind; [apply issuesAtMost_makeRequest |].
  intros reply.
  replace (5 * perArea)%nat with (5 * perArea + 0)%nat by lia.
  apply issuesAtMost_bind.
  - destruct (Server.firstGroupResults reply) as [found |].
    + apply issuesAtMost_weaken
        with (List.length (firstn 5 found) * perArea)%nat.
      * pose proof (firstn_le_length 5 found).
        apply Nat.mul_le_mono_r. lia.
      * apply areaLoop_budget.
    + apply issuesAtMost_weaken with 0%nat; [lia | apply issuesAtMost_ret].
  - intros [areas featured]. apply issuesAtMost_ret.
Qed.

End AreaBudget.

(** X10.  An area lookup issues at most 11 requests (the location lookup and
    two coordinate searches for each of at most five areas), whatever the
    provider answers; at most 6 when the intent is not "both". *)
Theorem areaLookup_request_budget :
  forall (host : Host) (w : World) (api : option Server.ZillowApiConfig)
         (args : Server.AreasArgs.t),
    issuesAtMost 11 (Server.areasHandler w api args) /\
    (Server.AreasArgs.propertyType args <> Some Server.IntentBoth ->
     issuesAtMost 6 (Server.areasHandler w api args)).
Proof.
  intros host w api args. split.
  - apply issuesAtMost_weaken
      with (1 + 5 * ((if Server.wantsSale (Server.AreasArgs.propertyType args)
                      then 1 else 0)
                     + (if Server.wantsRent
                             (Server.AreasArgs.propertyType args)
                        then 1 else 0)))%nat;
      [| apply areasHandler_budget].
    destruct (Server.wantsSale _), (Server.wantsRent _); simpl; lia.
  - intros Hnot.
    apply issuesAtMost_weaken
      with (1 + 5 * ((if Server.wantsSale (Server.AreasArgs.propertyType args)
                      then 1 else 0)
                     + (if Server.wantsRent
                             (Server.AreasArgs.propertyType args)
                        then 1 else 0)))%nat;
      [| apply areasHandler_budget].
    destruct (Server.AreasArgs.propertyType args) as [[| |] |];
      simpl; try lia. contradiction Hnot; reflexivity.
Qed.

Lemma areaLookup_request_budget_witness :
  exists new : list Request,
    trace (snd (Server.areasHandler (host := Sample.host) Sample.world
                  (Some Sample.config)
                  (Sample.austinAreas (Some Server.IntentForRent))
                  initState))
    = trace initState ++ new /\
    (List.length new <= 6)%nat.
Proof.
  apply (proj2 (areaLookup_request_budget Sample.host Sample.world
                  (Some Sample.config)
                  (Sample.austinAreas (Some Server.IntentForRent)))).
  discriminate.
Defined.

Section AreaShape.
Context {host : Host}.
Variable w : World.
Variable args : Server.AreasArgs.t.

Lemma pushFeatured_returns (location : LocationSuggestion.t) (count : number)
    (props : list PropertyDetails.t) :
  forall featured s,
    (List.length featured <= 8)%nat ->
    exists featured' s',
      Server.pushFeatured w location count props featured s
      = (Normal featured', s') /\
      (List.length featured' <= 8)%nat.
Proof.
  induction props as [| prop rest IH]; intros featured s Hlen; simpl.
  - exists featured, s. split; [reflexivity | exact Hlen].
  - unfold bind at 1.
    destruct (List.length featured <? 8)%nat eqn:Room.
    + apply Nat.ltb_lt in Room.
      unfold bind at 1.
      destruct (truthyStr (PropertyDetails.zpid prop)); cbn [ret randomId];
        apply IH; rewrite length_app; simpl; lia.
    + cbn [ret]. apply IH. exact Hlen.
Qed.

Lemma salePhase_keeps_cap (location : LocationSuggestion.t) (lat lng : number)
    (featured featured' : list Server.Featured.t) (count : number)
    (s s' : State) :
  (List.length featured <= 8)%nat ->
  Server.salePhase w args location lat lng featured s
  = (Normal (count, featured'), s') ->
  (List.length featured' <= 8)%nat.
Proof.
  intros Hlen. unfold Server.salePhase.
  destruct (Server.wantsSale (Server.AreasArgs.propertyType args)).
  - unfold bind at 1.
    match goal with
    | |- context [ZillowApiClient.searchPropertiesByCoordinates w ?p s] =>
        destruct (ZillowApiClient.searchPropertiesByCoordinates w p s)
          as [[reply | e] s1]
    end; [| discriminate].
    destruct reply as [[total perPage pages page [props |]] |].
    + destruct (List.length featured <? 8)%nat.
      * unfold bind.
        cbn [SearchResult.totalResultCount].
        destruct (pushFeatured_returns location
                    (orNum total (ofZ 0)) (firstn 2 props) featured s1 Hlen)
          as [f' [s2 [E L]]].
        rewrite E. cbn [ret]. intros H. inversion H. subst. exact L.
      * cbn [ret]. intros H. inversion H. subst. exact Hlen.
    + cbn [ret]. intros H. inversion H. subst. exact Hlen.
    + cbn [ret]. intros H. inversion H. subst. exact Hlen.
  - cbn [ret]. intros H. inversion H. subst. exact Hlen.
Qed.

Lemma areaCounts_returns (location : LocationSuggestion.t)
    (lat lng : option number) (featured : list Server.Featured.t)
    (s : State) :
  (List.length featured <= 8)%nat ->
  exists count rental featured' s',
    Server.areaCounts w args location lat lng featured s
    = (Normal (count, rental, featured'), s') /\
    (List.length featured' <= 8)%nat.
Proof.
  intros Hlen. unfold Server.areaCounts.
  destruct lat as [la |];
    [| do 4 eexists; split; [reflexivity | exact Hlen]].
  destruct lng as [ln |];
    [| do 4 eexists; split; [reflexivity | exact Hlen]].
  destruct (truthy la && truthy ln);
    [| do 4 eexists; split; [reflexivity | exact Hlen]].
  unfold bind at 1, attempt at 1.
  destruct (Server.salePhase w args location la ln featured s)
    as [[[count f'] | e] s1] eqn:E.
  - pose proof (salePhase_keeps_cap location la ln featured s Hlen E) as L.
    unfold bind, attempt.
    destruct (Server.rentPhase w args la ln s1) as [[rental | e] s2];
      do 4 eexists; (split; [reflexivity | exact L]).
  - do 4 eexists. split; [reflexivity | exact Hlen].
Qed.

Lemma areaLoop_returns (locations : list LocationSuggestion.t) :
  forall areas featured s,
    (List.length featured <= 8)%nat ->
    exists areas' featured' s',
      Server.areaLoop w args locations areas featured s
      = (Normal (areas', featured'), s') /\
      List.length areas' = (List.length areas + List.length locations)%nat /\
      (List.length featured' <= 8)%nat.
Proof.
  induction locations as [| location rest IH]; intros areas featured s Hlen.
  - exists areas, featured, s. simpl.
    split; [reflexivity |]. split; [lia | exact Hlen].
  - cbn [Server.areaLoop]. unfold bind at 1.
    destruct (areaCounts_returns location (Server.metaLat location)
                (Server.metaLng location) featured s Hlen)
      as [count [rental [f' [s1 [E L]]]]].
    rewrite E.
    destruct (IH (areas ++ [Server.areaOf args location count rental])
                 f' s1 L)
      as [areas' [f'' [s2 [E2 [La Lf]]]]].
    exists areas', f'', s2. split; [exact E2 |].
    split; [| exact Lf].
    rewrite La, length_app. simpl. lia.
Qed.

End AreaShape.

(** X11.  When the location lookup of an area lookup is answered, the tool
    returns a result that is not an error, whatever happens to the
    coordinate searches: it lists one area for each of the first five
    candidate locations and at most 8 featured properties. *)
Theorem areaLookup_survives_search_failures :
  forall (host : Host) (w : World) (cfg : Server.ZillowApiConfig)
         (args : Server.AreasArgs.t) (s : State)
         (reply : option LocationSuggestions.t) (s1 : State),
    ZillowApiClient.searchLocationSuggestions w
      (Server.AreasArgs.location args) s = (Normal reply, s1) ->
    exists r payload s',
      Server.areasHandler w (Some cfg) args s = (Normal r, s') /\
      Server.isError r = false /\
      Server.structuredContent r = Some payload /\
      List.length (Server.AreasPayload.areas payload)
      = Nat.min 5 (List.length (candidates reply)) /\
      (List.length (Server.AreasPayload.featuredProperties payload) <= 8)%nat /\
      Server.AreasPayload.usingMockData payload = false.
Proof.
  intros host w cfg args s reply s1 Hlookup.
  unfold Server.areasHandler, Server.areasLive.
  unfold bind at 1, attempt at 1, bind at 1.
  rewrite Hlookup. unfold candidates.
  destruct (Server.firstGroupResults reply) as [found |].
  - unfold bind at 1.
    destruct (@areaLoop_returns host w args (firstn 5 found) [] [] s1)
      as [areas [featured [s2 [E [La Lf]]]]]; [simpl; lia |].
    rewrite E. cbn [ret].
    eexists. eexists. eexists. split; [reflexivity |].
    cbn [Server.isError Server.structuredContent Server.AreasPayload.areas
         Server.AreasPayload.featuredProperties
         Server.AreasPayload.usingMockData].
    split; [reflexivity |]. split; [reflexivity |].
    cbn [Server.AreasPayload.areas Server.AreasPayload.featuredProperties
         Server.AreasPayload.usingMockData].
    split; [rewrite La, length_firstn; reflexivity |].
    split; [exact Lf | reflexivity].
  - cbn [bind ret].
    eexists. eexists. eexists. split; [reflexivity |].
    split; [reflexivity |]. split; [reflexivity |].
    split; [reflexivity |]. split; [simpl; lia | reflexivity].
Qed.

Lemma areaLookup_survives_search_failures_witness :
  exists r payload s',
    Server.areasHandler (host := Sample.host) Sample.world
      (Some Sample.config) (Sample.austinAreas None) initState
    = (Normal r, s') /\
    Server.isError r = false /\
    Server.structuredContent r = Some payload /\
    List.length (Server.AreasPayload.areas payload) = 1%nat.
Proof.
  destruct (@areaLookup_survives_search_failures Sample.host Sample.world
              Sample.config (Sample.austinAreas None) initState
              (Some {| LocationSuggestions.resultGroups :=
                         Some [ {| ResultGroup.results :=
                                     Some [Sample.austin] |} ] |})
              (snd (ZillowApiClient.searchLocationSuggestions Sample.world
                      "Austin, TX" initState)))
    as [r [payload [s' [E [B [P [L _]]]]]]]; [reflexivity |].
  exists r, payload, s'. repeat split; assumption.
Defined.


(** *** Area lookup: a failed location lookup *)

(** X12.  When the location lookup of an area lookup fails, the tool returns
    an error-flagged result with the failure's message and no payload, and
    the failed request is the only one issued: no coordinate search
    follows and the fallback areas are not substituted. *)
Theorem areaLookup_location_failure :
  forall (host : Host) (w : World) (cfg : Server.ZillowApiConfig)
         (args : Server.AreasArgs.t) (s s1 : State) (e : exn),
    ZillowApiClient.searchLocationSuggestions w
      (Server.AreasArgs.location args) s = (Throw e, s1) ->
    exists r,
      Server.areasHandler w (Some cfg) args s = (Normal r, s1) /\
      Server.isError r = true /\
      Server.structuredContent r = None /\
      Server.text r
      = ("Error fetching data for " ++ Server.AreasArgs.location args ++ ": "
         ++ Server.errorMessage e)%string /\
      trace s1
      = trace s
        ++ [ {| endpoint := "/locationSuggestions";
                query := [("location",
                           QStr (Server.AreasArgs.location args))] |} ].
Proof.
  intros host w cfg args s s1 e Hfail.
  unfold Server.areasHandler, Server.areasLive.
  unfold bind at 1, attempt at 1, bind at 1.
  rewrite Hfail. cbn [ret].
  eexists. split; [reflexivity |].
  split; [reflexivity |]. split; [reflexivity |].
  split.
  - cbn [Server.text Server.errorResult].
    rewrite !string_append_assoc. reflexivity.
  - unfold ZillowApiClient.searchLocationSuggestions,
      ZillowApiClient.makeRequest in Hfail.
    inversion Hfail. reflexivity.
Qed.

Lemma areaLookup_location_failure_witness :
  exists r s1,
    Server.areasHandler (host := Sample.host) Sample.failingWorld
      (Some Sample.config) (Sample.austinAreas None) initState
    = (Normal r, s1) /\
    Server.isError r = true /\
    List.length (trace s1) = 1%nat.
Proof.
  destruct (@areaLookup_location_failure Sample.host Sample.failingWorld
              Sample.config (Sample.austinAreas None) initState
              (snd (ZillowApiClient.searchLocationSuggestions
                      Sample.failingWorld "Austin, TX" initState))
              (ErrorObj "Zillow API error: 503 Service Unavailable"))
    as [r [E [B [_ [_ T]]]]]; [reflexivity |].
  exists r. eexists. split; [exact E |]. split; [exact B |].
  rewrite T. reflexivity.
Defined.



(** *** The property search tool *)

(** X13.  When the provider answers a property search, the tool shows the
    first ten listings of the reply in the provider's order (identifier
    and price unchanged), each labelled with the listing type that was
    asked for, and reports the provider's total when it is truthy and the
    number of listings shown otherwise.  When the provider answers with a
    [null] body the client throws on reading the total, and the tool
    returns an error-flagged result with that message and no payload. *)
Theorem propertySearch_shows_first_ten :
  forall (host : Host) (w : World) (cfg : Server.ZillowApiConfig)
         (args : Server.PropertySearchArgs.t) (s s1 : State),
    (forall searchResult,
       ZillowApiClient.searchProperties w (Server.searchParamsOf args) s
       = (Normal (Some searchResult), s1) ->
       exists r payload,
         Server.propertySearchHandler w (Some cfg) args s = (Normal r, s1) /\
         Server.isError r = false /\
         Server.structuredContent r = Some payload /\
         List.length (Server.SearchPayload.properties payload)
         = Nat.min 10 (List.length (listed searchResult)) /\
         map Server.PropertyCard.id (Server.SearchPayload.properties payload)
         = firstn 10 (map PropertyDetails.zpid (listed searchResult)) /\
         map Server.PropertyCard.price
             (Server.SearchPayload.properties payload)
         = firstn 10 (map PropertyDetails.price (listed searchResult)) /\
         Forall (fun card =>
                   Server.PropertyCard.listingType card
                   = Server.listingOrForSale
                       (Server.PropertySearchArgs.listingType args))
                (Server.SearchPayload.properties payload) /\
         Server.SearchPayload.totalResults payload
         = orNum (SearchResult.totalResultCount searchResult)
                 (ofZ (Z.of_nat
                         (Nat.min 10 (List.length (listed searchResult))))) /\
         Server.SearchPayload.usingMockData payload = false) /\
    (fetchSearch w (trace s)
       {| endpoint := "/propertyExtendedSearch";
          query := ZillowApiClient.present
                     (ZillowApiClient.searchApiParams
                        (Server.searchParamsOf args)) |}
     = Normal None ->
     exists r s2,
       Server.propertySearchHandler w (Some cfg) args s = (Normal r, s2) /\
       Server.isError r = true /\
       Server.structuredContent r = None /\
       Server.text r
       = ("Error searching properties in "
          ++ Server.PropertySearchArgs.location args
          ++ ": Cannot read properties of null (reading 'totalResultCount')")%string).
Proof.
  intros host w cfg args s s1. split.
  - intros searchResult Hreply.
    unfold Server.propertySearchHandler, Server.propertySearchLive.
    unfold bind at 1, attempt at 1, bind at 1.
    rewrite Hreply. cbn [ret bind].
    eexists. eexists. split; [reflexivity |].
    split; [reflexivity |]. split; [reflexivity |].
    cbn [Server.SearchPayload.properties Server.SearchPayload.totalResults
         Server.SearchPayload.usingMockData].
    unfold listed.
    destruct (SearchResult.props searchResult) as [props |].
    + split; [rewrite length_map, length_firstn; reflexivity |].
      split; [rewrite map_map, <- firstn_map; reflexivity |].
      split; [rewrite map_map, <- firstn_map; reflexivity |].
      split.
      { apply Forall_forall. intros card Hin.
        apply in_map_iff in Hin. destruct Hin as [prop [E _]].
        subst card. reflexivity. }
      split; [rewrite length_map, length_firstn; reflexivity | reflexivity].
    + split; [reflexivity |]. split; [reflexivity |].
      split; [reflexivity |]. split; [constructor |].
      split; reflexivity.
  - intros Hreply.
    unfold Server.propertySearchHandler, Server.propertySearchLive.
    unfold bind at 1, attempt at 1, bind at 1.
    unfold ZillowApiClient.searchProperties, bind,
      ZillowApiClient.makeRequest, ZillowApiClient.readTotalResultCount.
    rewrite Hreply. cbn [throw ret].
    eexists. eexists. split; [reflexivity |].
    split; [reflexivity |]. split; [reflexivity |].
    cbn [Server.text Server.errorResult Server.errorMessage].
    rewrite !string_append_assoc. reflexivity.
Qed.

Lemma propertySearch_shows_first_ten_witness :
  (exists r payload s1,
     Server.propertySearchHandler (host := Sample.host) Sample.world
       (Some Sample.config) Sample.seattleSearch initState = (Normal r, s1) /\
     Server.structuredContent r = Some payload /\
     List.length (Server.SearchPayload.properties payload) = 3%nat) /\
  (exists r s2,
     Server.propertySearchHandler (host := Sample.host) Fixture.nullWorld
       (Some Sample.config) Sample.seattleSearch initState = (Normal r, s2) /\
     Server.isError r = true).
Proof.
  split.
  - destruct (propertySearch_shows_first_ten Sample.host Sample.world
                Sample.config Sample.seattleSearch initState
                (snd (ZillowApiClient.searchProperties Sample.world
                        (Server.searchParamsOf Sample.seattleSearch)
                        initState)))
      as [Hsome _].
    destruct (Hsome Fixture.austinListings)
      as [r [payload [E [_ [P [L _]]]]]]; [reflexivity |].
    exists r, payload. eexists.
    split; [exact E |]. split; [exact P | exact L].
  - destruct (propertySearch_shows_first_ten Sample.host Fixture.nullWorld
                Sample.config Sample.seattleSearch initState initState)
      as [_ Hnull].
    destruct Hnull as [r [s2 [E [B _]]]]; [reflexivity |].
    exists r, s2. split; [exact E | exact B].
Defined.

Lemma present_keys (keys : list string)
    (params : list (string * option qvalue)) :
  Forall (fun kv => In (fst kv) keys) params ->
  Forall (fun kv => In (fst kv) keys) (ZillowApiClient.present params).
Proof.
  induction 1 as [| [k [v |]] rest Hk Hrest IH]; simpl.
  - constructor.
  - constructor; assumption.
  - assumption.
Qed.

Lemma optNum_keys (keys : list string) (k : string) (v : option number) :
  In k keys -> Forall (fun kv => In (fst kv) keys) (ZillowApiClient.optNum k v).
Proof.
  intros Hk. unfold ZillowApiClient.optNum.
  destruct v as [x |]; [destruct (truthy x) |];
    repeat constructor; exact Hk.
Qed.

Lemma optStr_keys (keys : list string) (k : string) (v : option string) :
  In k keys -> Forall (fun kv => In (fst kv) keys) (ZillowApiClient.optStr k v).
Proof.
  intros Hk. unfold ZillowApiClient.optStr.
  destruct v as [x |]; [destruct (nonEmpty x) |];
    repeat constructor; exact Hk.
Qed.

(** X14.  A property search issues no request without a provider and exactly
    one with it, whether the call succeeds or fails: to
    [/propertyExtendedSearch], with the location, the status [ForRent]
    exactly for a for-rent search and [ForSale] otherwise, page 1, and
    after these only filters among the seven the tool knows. *)
Theorem propertySearch_issues_one_request :
  forall (host : Host) (w : World) (api : option Server.ZillowApiConfig)
         (args : Server.PropertySearchArgs.t) (s : State),
    exists sent,
      trace (snd (Server.propertySearchHandler w api args s))
      = trace s ++ sent /\
      match api with
      | None => sent = []
      | Some _ =>
          exists filters,
            sent
            = [ {| endpoint := "/propertyExtendedSearch";
                   query :=
                     [ ("location",
                        QStr (Server.PropertySearchArgs.location args));
                       ("status_type",
                        QStr (match Server.PropertySearchArgs.listingType args
                              with
                              | Some Server.ListingForRent => "ForRent"
                              | _ => "ForSale"
                              end));
                       ("page", QNum (ofZ 1)) ] ++ filters |} ] /\
            Forall (fun kv =>
                      In (fst kv)
                         ["home_type"; "minPrice"; "maxPrice"; "bathsMin";
                          "bedsMin"; "sqftMin"; "sqftMax"])
                   filters
      end.
Proof.
  intros host w api args s.
  destruct api as [cfg |].
  - eexists. split.
    + unfold Server.propertySearchHandler, Server.propertySearchLive.
      unfold bind at 1, attempt at 1, bind at 1.
      unfold ZillowApiClient.searchProperties, bind,
        ZillowApiClient.makeRequest, ZillowApiClient.readTotalResultCount.
      match goal with
      | |- context [fetchSearch w (trace s) ?req] =>
          destruct (fetchSearch w (trace s) req) as [[found |] | e]
      end;
        cbn [ret throw snd trace]; reflexivity.
    + exists (ZillowApiClient.present
                (ZillowApiClient.optStr "home_type"
                   (Server.keepStr (Server.PropertySearchArgs.propertyType args))
                 ++ ZillowApiClient.optNum "minPrice"
                      (Server.keepNum (Server.PropertySearchArgs.minPrice args))
                 ++ ZillowApiClient.optNum "maxPrice"
                      (Server.keepNum (Server.PropertySearchArgs.maxPrice args))
                 ++ ZillowApiClient.optNum "bathsMin"
                      (Server.keepNum (Server.PropertySearchArgs.bathrooms args))
                 ++ ZillowApiClient.optNum "bedsMin"
                      (Server.keepNum (Server.PropertySearchArgs.bedrooms args))
                 ++ ZillowApiClient.optNum "sqftMin"
                      (Server.keepNum (Server.PropertySearchArgs.sqftMin args))
                 ++ ZillowApiClient.optNum "sqftMax"
                      (Server.keepNum (Server.PropertySearchArgs.sqftMax args))
                 ++ ZillowApiClient.optStr "sort" None)).
      split.
      * unfold ZillowApiClient.searchApiParams.
        cbn [app ZillowApiClient.present Server.searchParamsOf
             PropertySearchParams.location PropertySearchParams.status_type
             PropertySearchParams.page ZillowApiClient.statusOrForSale
             PropertySearchParams.home_type
             PropertySearchParams.minPrice PropertySearchParams.maxPrice
             PropertySearchParams.bathsMin PropertySearchParams.bedsMin
             PropertySearchParams.sqftMin PropertySearchParams.sqftMax
             PropertySearchParams.sort].
        replace (orNum (Some (ofZ 1)) (ofZ 1)) with (ofZ 1) by reflexivity.

        destruct (Server.PropertySearchArgs.listingType args) as [[|] |];
          reflexivity.
      * apply present_keys.
        repeat (apply Forall_app; split);
          try (apply optNum_keys; simpl; tauto);
          try (apply optStr_keys; simpl; tauto).
        constructor.
  - exists []. split; [| reflexivity].
    simpl. rewrite app_nil_r. reflexivity.
Qed.


(** *** The mortgage simulator tool *)

Lemma termOr30_nonzero (t : option Z) : Dispatcher.termOr30 t <> 0%Z.
Proof.
  unfold Dispatcher.termOr30. destruct t as [n |]; [| discriminate].
  destruct (Z.eqb_spec n 0); [discriminate | assumption].
Qed.

Lemma currentRate_estimated (term : Z) :
  Dispatcher.currentRate ClientLookups.estimatedRates term
  = if (term =? 15)%Z then lit 59 10 else lit 65 10.
Proof.
  unfold Dispatcher.currentRate, ClientLookups.estimatedRates.
  cbn [find RateQuote.term].
  destruct (Z.eqb_spec 30 term) as [E30 | N30].
  - subst term. reflexivity.
  - destruct (Z.eqb_spec 15 term) as [E15 | N15].
    + subst term. reflexivity.
    + destruct (Z.eqb_spec term 15) as [E | _]; [congruence |]. reflexivity.
Qed.

Lemma mortgageLive_run {host : Host} (now : string)
    (args : Dispatcher.MortgageArgs.t) (s : State) :
  exists r result location score rates,
    Dispatcher.mortgageLive now args s = (Normal r, s) /\
    Server.isError r = false /\
    Server.structuredContent r
    = Some (Dispatcher.MortgageLive result location score rates) /\
    ZillowApiClient.calculateMortgagePayment
      (mortgageParamsOf args
         (Dispatcher.currentRate ClientLookups.estimatedRates
            (Dispatcher.termOr30 (Dispatcher.MortgageArgs.loanTerm args))))
    = Normal result.
Proof.
  do 5 eexists. split; [reflexivity |].
  split; [reflexivity |]. split; reflexivity.
Qed.

Lemma mortgageMock_run {host : Host} (args : Dispatcher.MortgageArgs.t) :
  exists homePrice downPayment score location result,
    Server.structuredContent (Dispatcher.mortgageMock args)
    = Some (Dispatcher.MortgageMock homePrice downPayment
              (MortgagePaymentResult.loanAmount result) score location
              (MortgagePaymentResult.interestRate result)
              (MortgagePaymentResult.apr result)
              (Dispatcher.termOr30 (Dispatcher.MortgageArgs.loanTerm args))
              (MortgagePaymentResult.monthlyPayment result) true) /\
    ZillowApiClient.calculateMortgagePayment
      (mortgageParamsOf args (lit 65 10)) = Normal result.
Proof.
  do 5 eexists. split; [| reflexivity]. reflexivity.
Qed.

(** X15.  For a home price and a down payment of at most 10^12 in magnitude
    (or none given) and a whole-number loan term of at most 100 years (or
    none given), the mortgage simulator returns, with or without a provider
    and without issuing any request, a result that is not an error and
    whose loan amount and monthly payment are finite: the rate it uses is
    positive and the term is never zero, so the [NaN] of the bare formula
    cannot reach the user. *)
Theorem mortgage_tool_quotes_finite_payment :
  forall (host : Host) (now : string) (api : option Server.ZillowApiConfig)
         (args : Dispatcher.MortgageArgs.t) (s : State),
    moderateArg (Dispatcher.MortgageArgs.homePrice args) ->
    moderateArg (Dispatcher.MortgageArgs.downPayment args) ->
    ordinaryTermArg (Dispatcher.MortgageArgs.loanTerm args) ->
    exists r payload,
      Dispatcher.mortgageHandler now api args s = (Normal r, s) /\
      Server.isError r = false /\
      Server.structuredContent r = Some payload /\
      isFinite (payloadMonthlyPayment payload) = true /\
      isFinite (payloadLoanAmount payload) = true.
Proof.
  intros host now api args s Hp Hd _.
  destruct (orNum_finite (ofZ 400000) (moderateArg_finite Hp) eq_refl)
    as [price Ep].
  destruct (orNum_finite (ofZ 80000) (moderateArg_finite Hd) eq_refl)
    as [down Ed].
  pose proof (termOr30_nonzero (Dispatcher.MortgageArgs.loanTerm args)) as Ht.
  destruct api as [cfg |].
  - destruct (mortgageLive_run now args s)
      as [r [result [location [score [rates [E [B [P C]]]]]]]].
    exists r. eexists.
    split; [unfold Dispatcher.mortgageHandler, bind, attempt;
            rewrite E; reflexivity |].
    split; [exact B |]. split; [exact P |].
    cbn [payloadMonthlyPayment payloadLoanAmount].
    rewrite currentRate_estimated in C.
    assert (Hrate : exists rho,
               (if (Dispatcher.termOr30 (Dispatcher.MortgageArgs.loanTerm args)
                    =? 15)%Z then lit 59 10 else lit 65 10) = Fin rho
               /\ 0 < rho).
    { destruct (_ =? 15)%Z; eexists; (split; [reflexivity |]); reflexivity. }
    destruct Hrate as [rho [Er Hpos]].
    pose proof (mortgage_closed_form Hpos (mortgageParamsOf args _)
                  Ep Ed Er Ht) as F.
    rewrite C in F. apply Normal_inj in F. subst result. split; reflexivity.
  - destruct (mortgageMock_run args)
      as [hp [dp [score [location [result [P C]]]]]].
    eexists. eexists. split; [reflexivity |].
    split; [reflexivity |]. split; [exact P |].
    cbn [payloadMonthlyPayment payloadLoanAmount].
    assert (Hpos : 0 < 65 # 10) by reflexivity.
    pose proof (mortgage_closed_form Hpos (mortgageParamsOf args (lit 65 10))
                  Ep Ed eq_refl Ht) as F.
    rewrite C in F. apply Normal_inj in F. subst result. split; reflexivity.
Qed.

Lemma mortgage_tool_quotes_finite_payment_witness :
  exists r payload,
    Dispatcher.mortgageHandler (host := Sample.host) Fixture.now
      (Some Sample.config)
      (Fixture.fifteenYears (Some (ofZ 500000)))
      initState = (Normal r, initState) /\
    Server.structuredContent r = Some payload /\
    isFinite (payloadMonthlyPayment payload) = true.
Proof.
  destruct (@mortgage_tool_quotes_finite_payment Sample.host
              Fixture.now (Some Sample.config)
              (Fixture.fifteenYears (Some (ofZ 500000)))
              initState)
    as [r [payload [E [_ [P [F _]]]]]].
  - intros x H. inversion H. eexists. split; [reflexivity |].
    split; discriminate.
  - intros x H. discriminate H.
  - intros t H. inversion H. lia.
  - exists r, payload. split; [exact E |]. split; [exact P | exact F].
Defined.

(** X16.  The mortgage simulator quotes the same loan amount with and without
    a provider; for every loan term other than 15 years it also quotes the
    same rate, APR and monthly payment.  For 15 years the configured
    server uses 5.9 % where the fallback uses 6.5 %. *)
Theorem mortgage_tool_key_matters_only_for_15_years :
  forall (host : Host) (now : string) (cfg : Server.ZillowApiConfig)
         (args : Dispatcher.MortgageArgs.t) (s : State),
    exists live fallback pl pf,
      Dispatcher.mortgageHandler now (Some cfg) args s = (Normal live, s) /\
      Dispatcher.mortgageHandler now None args s = (Normal fallback, s) /\
      Server.structuredContent live = Some pl /\
      Server.structuredContent fallback = Some pf /\
      payloadLoanAmount pl = payloadLoanAmount pf /\
      (Dispatcher.termOr30 (Dispatcher.MortgageArgs.loanTerm args) <> 15%Z ->
       payloadInterestRate pl = payloadInterestRate pf /\
       payloadApr pl = payloadApr pf /\
       payloadMonthlyPayment pl = payloadMonthlyPayment pf) /\
      (Dispatcher.termOr30 (Dispatcher.MortgageArgs.loanTerm args) = 15%Z ->
       payloadInterestRate pl = lit 59 10 /\
       payloadInterestRate pf = lit 65 10).
Proof.
  intros host now cfg args s.
  destruct (mortgageLive_run now args s)
    as [r [result [location [score [rates [E [B [P C]]]]]]]].
  destruct (mortgageMock_run args)
    as [hp [dp [score' [location' [result' [P' C']]]]]].
  exists r. eexists. eexists. eexists.
  split; [unfold Dispatcher.mortgageHandler, bind, attempt;
          rewrite E; reflexivity |].
  split; [reflexivity |].
  split; [exact P |]. split; [exact P' |].
  cbn [payloadLoanAmount payloadInterestRate payloadApr
       payloadMonthlyPayment].
  rewrite currentRate_estimated in C.
  unfold ZillowApiClient.calculateMortgagePayment in C, C'.
  apply Normal_inj in C. apply Normal_inj in C'.
  subst result result'.
  cbn [MortgagePaymentResult.loanAmount MortgagePaymentResult.interestRate
       MortgagePaymentResult.apr MortgagePaymentResult.monthlyPayment
       mortgageParamsOf MortgageParams.homePrice MortgageParams.downPayment
       MortgageParams.interestRate MortgageParams.loanTerm].
  split; [reflexivity |]. split.
  - intros Hterm.
    destruct (Z.eqb_spec
                (Dispatcher.termOr30 (Dispatcher.MortgageArgs.loanTerm args))
                15) as [E15 | _]; [contradiction |].
    split; [reflexivity |]. split; reflexivity.
  - intros Hterm. rewrite Hterm. split; reflexivity.
Qed.

Lemma mortgage_tool_key_matters_only_for_15_years_witness :
  exists live fallback pl pf,
    Dispatcher.mortgageHandler (host := Sample.host) Fixture.now
      (Some Sample.config)
      (Fixture.fifteenYears None)
      initState = (Normal live, initState) /\
    Dispatcher.mortgageHandler (host := Sample.host) Fixture.now
      None
      (Fixture.fifteenYears None)
      initState = (Normal fallback, initState) /\
    Server.structuredContent live = Some pl /\
    Server.structuredContent fallback = Some pf /\
    payloadInterestRate pl = lit 59 10 /\
    payloadInterestRate pf = lit 65 10.
Proof.
  destruct (mortgage_tool_key_matters_only_for_15_years Sample.host
              Fixture.now Sample.config
              (Fixture.fifteenYears None)
              initState)
    as [live [fallback [pl [pf [E1 [E2 [P1 [P2 [_ [_ H15]]]]]]]]]].
  destruct H15 as [R1 R2]; [reflexivity |].
  exists live, fallback, pl, pf.
  split; [exact E1 |]. split; [exact E2 |]. split; [exact P1 |].
  split; [exact P2 |]. split; [exact R1 | exact R2].
Defined.


(** *** The dispatcher as a whole *)

Section CallToolFacts.
Context {host : Host}.
Variable w : World.
Variable now : string.
Variable areasInputParser : json -> completion Server.AreasArgs.t.
Variable affordabilityInputParser :
  json -> completion Server.AffordabilityArgs.t.
Variable mortgageRateInputParser :
  json -> completion Dispatcher.MortgageArgs.t.
Variable propertySearchInputParser :
  json -> completion Server.PropertySearchArgs.t.

Let run (api : option Server.ZillowApiConfig) :=
  Dispatcher.callTool w now api areasInputParser affordabilityInputParser
    mortgageRateInputParser propertySearchInputParser.

Lemma callTool_without_client (toolName : string) (arguments : option json)
    (s : State) :
  snd (run None toolName arguments s) = s /\
  forall r s',
    run None toolName arguments s = (Normal r, s') ->
    Dispatcher.responseIsError r = false /\ responseUsingMockData r = true.
Proof.
  unfold run, Dispatcher.callTool.
  destruct (String.eqb toolName _).
  { unfold bind at 1, liftC.
    destruct (areasInputParser _) as [args | e].
    - split; [reflexivity |]. intros r s' H. inversion H. split; reflexivity.
    - split; [reflexivity |]. intros r s' H. discriminate H. }
  destruct (String.eqb toolName _).
  { unfold bind at 1, liftC.
    destruct (affordabilityInputParser _) as [args | e].
    - split; [reflexivity |]. intros r s' H. inversion H. split; reflexivity.
    - split; [reflexivity |]. intros r s' H. discriminate H. }
  destruct (String.eqb toolName _).
  { unfold bind at 1, liftC.
    destruct (mortgageRateInputParser _) as [args | e].
    - split; [reflexivity |]. intros r s' H. inversion H. split; reflexivity.
    - split; [reflexivity |]. intros r s' H. discriminate H. }
  destruct (String.eqb toolName _).
  { unfold bind at 1, liftC.
    destruct (propertySearchInputParser _) as [args | e].
    - split; [reflexivity |]. intros r s' H. inversion H. split; reflexivity.
    - split; [reflexivity |]. intros r s' H. discriminate H. }
  split; [reflexivity |]. intros r s' H. discriminate H.
Qed.

End CallToolFacts.

Lemma initZillowApi_without_key (env : option string) :
  truthyStr env = false -> ClientLookups.initZillowApi env = None.
Proof.
  unfold ClientLookups.initZillowApi, truthyStr, orStr.
  destruct env as [key |]; [| reflexivity].
  intros H. rewrite H. reflexivity.
Qed.

(** X17.  When [RAPIDAPI_KEY] is unset or empty no client is created, and then
    a tool call never issues a request: whatever the tool and the
    arguments, the state is left as it was, and every response that is
    returned is not an error and carries [usingMockData]. *)
Theorem without_key_every_tool_uses_fallback :
  forall (host : Host) (w : World) (now : string)
         (areasInputParser : json -> completion Server.AreasArgs.t)
         (affordabilityInputParser :
            json -> completion Server.AffordabilityArgs.t)
         (mortgageRateInputParser :
            json -> completion Dispatcher.MortgageArgs.t)
         (propertySearchInputParser :
            json -> completion Server.PropertySearchArgs.t)
         (env : option string) (toolName : string) (arguments : option json)
         (s : State),
    truthyStr env = false ->
    snd (Dispatcher.callTool w now (ClientLookups.initZillowApi env)
           areasInputParser affordabilityInputParser mortgageRateInputParser
           propertySearchInputParser toolName arguments s) = s /\
    forall r s',
      Dispatcher.callTool w now (ClientLookups.initZillowApi env)
        areasInputParser affordabilityInputParser mortgageRateInputParser
        propertySearchInputParser toolName arguments s = (Normal r, s') ->
      Dispatcher.responseIsError r = false /\ responseUsingMockData r = true.
Proof.
  intros host w now p1 p2 p3 p4 env toolName arguments s Henv.
  rewrite (initZillowApi_without_key env Henv).
  apply callTool_without_client.
Qed.

Lemma without_key_every_tool_uses_fallback_witness :
  snd (Dispatcher.callTool (host := Sample.host) Sample.world
         Fixture.now (ClientLookups.initZillowApi None)
         (@Fixture.rejecting _) (@Fixture.rejecting _)
         (@Fixture.rejecting _) Fixture.acceptingSearch
         "zillow_property_search" None initState) = initState.
Proof.
  apply (@without_key_every_tool_uses_fallback Sample.host Sample.world
           Fixture.now
           (@Fixture.rejecting _) (@Fixture.rejecting _)
           (@Fixture.rejecting _) Fixture.acceptingSearch
           None "zillow_property_search" None initState).
  reflexivity.
Defined.

Section HandlersReturn.
Context {host : Host}.
Variable w : World.
Variable api : option Server.ZillowApiConfig.

Lemma areasHandler_returns (args : Server.AreasArgs.t) (s : State) :
  exists r s', Server.areasHandler w api args s = (Normal r, s').
Proof.
  unfold Server.areasHandler, bind, attempt.
  destruct api as [cfg |].
  - destruct (Server.areasLive w args s) as [[r | e] s'];
      eexists; eexists; reflexivity.
  - eexists. eexists. reflexivity.
Qed.

Lemma affordabilityHandler_returns (args : Server.AffordabilityArgs.t)
    (s : State) :
  exists r s', Server.affordabilityHandler w api args s = (Normal r, s').
Proof.
  unfold Server.affordabilityHandler, bind, attempt.
  destruct api as [cfg |].
  - destruct (Server.affordabilityLive w args s) as [[r | e] s'];
      eexists; eexists; reflexivity.
  - eexists. eexists. reflexivity.
Qed.

Lemma mortgageHandler_returns (now : string)
    (args : Dispatcher.MortgageArgs.t) (s : State) :
  exists r s', Dispatcher.mortgageHandler now api args s = (Normal r, s').
Proof.
  unfold Dispatcher.mortgageHandler, bind, attempt.
  destruct api as [cfg |].
  - destruct (Dispatcher.mortgageLive now args s) as [[r | e] s'];
      eexists; eexists; reflexivity.
  - eexists. eexists. reflexivity.
Qed.

Lemma propertySearchHandler_returns (args : Server.PropertySearchArgs.t)
    (s : State) :
  exists r s', Server.propertySearchHandler w api args s = (Normal r, s').
Proof.
  unfold Server.propertySearchHandler, bind, attempt.
  destruct api as [cfg |].
  - destruct (Server.propertySearchLive w args s) as [[r | e] s'];
      eexists; eexists; reflexivity.
  - eexists. eexists. reflexivity.
Qed.

End HandlersReturn.

(** X18.  A tool call throws only before any work is done, and only the
    validator of the tool that was named is consulted.  For each of the
    four tools: when its own validator throws on the arguments, the call
    throws the same value and no request has been issued, whatever the
    other three validators would say; when its own validator accepts, the
    call returns the response of that tool's handler, failures of the
    provider being reported inside it.  For a name that is not one of the
    four tools the call throws [Unknown tool: <name>] and no request has
    been issued. *)
Theorem callTool_throws_only_before_dispatch :
  forall (host : Host) (w : World) (now : string)
         (api : option Server.ZillowApiConfig)
         (areasInputParser : json -> completion Server.AreasArgs.t)
         (affordabilityInputParser :
            json -> completion Server.AffordabilityArgs.t)
         (mortgageRateInputParser :
            json -> completion Dispatcher.MortgageArgs.t)
         (propertySearchInputParser :
            json -> completion Server.PropertySearchArgs.t)
         (arguments : option json) (s : State),
    let input := Dispatcher.argumentsOrEmpty arguments in
    let call := fun toolName =>
      Dispatcher.callTool w now api areasInputParser affordabilityInputParser
        mortgageRateInputParser propertySearchInputParser
        toolName arguments s in
    ((forall e, areasInputParser input = Throw e ->
        call "zillow_city_neighborhood_real_estate_information"
        = (Throw e, s)) /\
     (forall args, areasInputParser input = Normal args ->
        exists r s',
          Server.areasHandler w api args s = (Normal r, s') /\
          call "zillow_city_neighborhood_real_estate_information"
          = (Normal (Dispatcher.AreasResponse r), s'))) /\
    ((forall e, affordabilityInputParser input = Throw e ->
        call "calculateHomeAffordability" = (Throw e, s)) /\
     (forall args, affordabilityInputParser input = Normal args ->
        exists r s',
          Server.affordabilityHandler w api args s = (Normal r, s') /\
          call "calculateHomeAffordability"
          = (Normal (Dispatcher.AffordabilityResponse r), s'))) /\
    ((forall e, mortgageRateInputParser input = Throw e ->
        call "interestRateMortgagePaymentSimulator" = (Throw e, s)) /\
     (forall args, mortgageRateInputParser input = Normal args ->
        exists r s',
          Dispatcher.mortgageHandler now api args s = (Normal r, s') /\
          call "interestRateMortgagePaymentSimulator"
          = (Normal (Dispatcher.MortgageResponse r), s'))) /\
    ((forall e, propertySearchInputParser input = Throw e ->
        call "zillow_property_search" = (Throw e, s)) /\
     (forall args, propertySearchInputParser input = Normal args ->
        exists r s',
          Server.propertySearchHandler w api args s = (Normal r, s') /\
          call "zillow_property_search"
          = (Normal (Dispatcher.PropertySearchResponse r), s'))) /\
    (forall toolName,
       ~ In toolName toolNames ->
       call toolName
       = (Throw (ErrorObj ("Unknown tool: " ++ toolName)%string), s)).
Proof.
  intros host w now api p1 p2 p3 p4 arguments s input call.
  subst call. cbv beta.
  split; [| split; [| split; [| split]]].
  - unfold Dispatcher.callTool. fold input. cbn [String.eqb Ascii.eqb Bool.eqb].
    unfold bind at 1 3, liftC. split.
    + intros e Ep. rewrite Ep. reflexivity.
    + intros args Ep. rewrite Ep.
      destruct (areasHandler_returns w api args s) as [r [s' E]].
      exists r, s'. split; [exact E |].
      unfold bind. rewrite E. reflexivity.
  - unfold Dispatcher.callTool. fold input. cbn [String.eqb Ascii.eqb Bool.eqb].
    unfold bind at 1 3, liftC. split.
    + intros e Ep. rewrite Ep. reflexivity.
    + intros args Ep. rewrite Ep.
      destruct (affordabilityHandler_returns w api args s) as [r [s' E]].
      exists r, s'. split; [exact E |].
      unfold bind. rewrite E. reflexivity.
  - unfold Dispatcher.callTool. fold input. cbn [String.eqb Ascii.eqb Bool.eqb].
    unfold bind at 1 3, liftC. split.
    + intros e Ep. rewrite Ep. reflexivity.
    + intros args Ep. rewrite Ep.
      destruct (mortgageHandler_returns api now args s) as [r [s' E]].
      exists r, s'. split; [exact E |].
      unfold bind. rewrite E. reflexivity.
  - unfold Dispatcher.callTool. fold input. cbn [String.eqb Ascii.eqb Bool.eqb].
    unfold bind at 1 3, liftC. split.
    + intros e Ep. rewrite Ep. reflexivity.
    + intros args Ep. rewrite Ep.
      destruct (propertySearchHandler_returns w api args s) as [r [s' E]].
      exists r, s'. split; [exact E |].
      unfold bind. rewrite E. reflexivity.
  - intros toolName Hnot. unfold Dispatcher.callTool.
    destruct (String.eqb_spec toolName
                "zillow_city_neighborhood_real_estate_information")
      as [E1 | N1]; [exfalso; apply Hnot; subst; simpl; tauto |].
    destruct (String.eqb_spec toolName "calculateHomeAffordability")
      as [E2 | N2]; [exfalso; apply Hnot; subst; simpl; tauto |].
    destruct (String.eqb_spec toolName "interestRateMortgagePaymentSimulator")
      as [E3 | N3]; [exfalso; apply Hnot; subst; simpl; tauto |].
    destruct (String.eqb_spec toolName "zillow_property_search")
      as [E4 | N4]; [exfalso; apply Hnot; subst; simpl; tauto |].
    reflexivity.
Qed.

Lemma callTool_throws_only_before_dispatch_witness :
  (exists r s',
     Dispatcher.callTool (host := Sample.host) Sample.world
       Fixture.now (Some Sample.config)
       (@Fixture.rejecting _) Fixture.acceptingAffordability
       (@Fixture.rejecting _) (@Fixture.rejecting _)
       "calculateHomeAffordability" None initState
     = (Normal (Dispatcher.AffordabilityResponse r), s')) /\
  Dispatcher.callTool (host := Sample.host) Sample.world
    Fixture.now (Some Sample.config)
    (@Fixture.rejecting _) Fixture.acceptingAffordability
    (@Fixture.rejecting _) (@Fixture.rejecting _)
    "zillow_property_search" None initState
  = (Throw OtherThrown, initState) /\
  Dispatcher.callTool (host := Sample.host) Sample.world
    Fixture.now (Some Sample.config)
    (@Fixture.rejecting _) Fixture.acceptingAffordability
    (@Fixture.rejecting _) (@Fixture.rejecting _)
    "get_weather" None initState
  = (Throw (ErrorObj "Unknown tool: get_weather"), initState).
Proof.
  destruct (callTool_throws_only_before_dispatch Sample.host Sample.world
              Fixture.now (Some Sample.config)
              (@Fixture.rejecting _) Fixture.acceptingAffordability
              (@Fixture.rejecting _) (@Fixture.rejecting _)
              None initState)
    as [_ [[_ Haccept] [_ [[Hreject _] Hunknown]]]].
  split; [| split].
  - destruct (Haccept Fixture.affordabilityNoLocation eq_refl)
      as [r [s' [_ E]]].
    exists r, s'. exact E.
  - apply Hreject. reflexivity.
  - apply Hunknown.
    simpl. intros [H | [H | [H | [H | []]]]]; discriminate H.
Defined.


(** *** The legacy region search *)

(** X19.  [searchRegions] issues exactly one [/locationSuggestions] request.
    A failure of that request is passed on unchanged; a [null] body makes
    it throw; any other body gives a list: the results of the first group,
    and the empty list when the groups, the first group or its results are
    missing. *)
Theorem searchRegions_outcomes :
  forall (w : World) (location : string) (s : State),
    let request :=
      {| endpoint := "/locationSuggestions";
         query := [("location", QStr location)] |} in
    trace (snd (ClientLookups.searchRegions w location s))
    = trace s ++ [request] /\
    match fetchSuggestions w (trace s) request with
    | Throw e => fst (ClientLookups.searchRegions w location s) = Throw e
    | Normal None => throws (fst (ClientLookups.searchRegions w location s))
    | Normal (Some body) =>
        fst (ClientLookups.searchRegions w location s)
        = Normal {| LocationSuggestionsResult.results :=
                      candidates (Some body) |}
    end.
Proof.
  intros w location s request.
  unfold ClientLookups.searchRegions, bind,
    ZillowApiClient.searchLocationSuggestions, ZillowApiClient.makeRequest.
  cbn [ZillowApiClient.present]. fold request.
  destruct (fetchSuggestions w (trace s) request) as [[body |] | e].
  - split; reflexivity.
  - split; [reflexivity |]. eexists. reflexivity.
  - split; reflexivity.
Qed.

(** *** Widgets as resources *)

Section JsMapFacts.
Variable V : Type.

Lemma mapGet_mapSet_same (k : string) (v : V) (m : list (string * V)) :
  Dispatcher.mapGet k (Dispatcher.mapSet k v m) = Some v.
Proof.
  induction m as [| [k' v'] rest IH]; simpl.
  - rewrite String.eqb_refl. reflexivity.
  - destruct (String.eqb_spec k' k) as [E | N]; simpl.
    + rewrite String.eqb_refl. reflexivity.
    + destruct (String.eqb_spec k' k) as [E | _]; [contradiction | exact IH].
Qed.

Lemma mapGet_mapSet_other (k k' : string) (v : V) (m : list (string * V)) :
  k <> k' ->
  Dispatcher.mapGet k (Dispatcher.mapSet k' v m) = Dispatcher.mapGet k m.
Proof.
  intros Hne. induction m as [| [k0 v0] rest IH]; simpl.
  - destruct (String.eqb_spec k' k) as [E | _]; [congruence | reflexivity].
  - destruct (String.eqb_spec k0 k') as [E | N]; simpl.
    + subst k0.
      destruct (String.eqb_spec k' k) as [E | _]; [congruence | reflexivity].
    + destruct (String.eqb_spec k0 k); [reflexivity | exact IH].
Qed.

(** Setting a key that is not yet present appends it. *)
Lemma mapSet_fresh (k : string) (v : V) (m : list (string * V)) :
  ~ In k (map fst m) -> Dispatcher.mapSet k v m = m ++ [(k, v)].
Proof.
  induction m as [| [k' v'] rest IH]; simpl; intros Hfresh.
  - reflexivity.
  - destruct (String.eqb_spec k' k) as [E | N]; [tauto |].
    rewrite IH by tauto. reflexivity.
Qed.

Lemma find_snoc (f : V -> bool) (l : list V) (a : V) :
  find f (l ++ [a])
  = match find f l with
    | Some x => Some x
    | None => if f a then Some a else None
    end.
Proof.
  induction l as [| x rest IH]; simpl; [reflexivity |].
  destruct (f x); [reflexivity | exact IH].
Qed.

Variable key : V -> string.

(** A map filled from a list by [set]: a lookup finds the last element
    registered under the key. *)
Lemma mapGet_filled (k : string) (l : list V) :
  forall m,
    Dispatcher.mapGet k
      (fold_left (fun m a => Dispatcher.mapSet (key a) a m) l m)
    = match find (fun a => String.eqb (key a) k) (rev l) with
      | Some a => Some a
      | None => Dispatcher.mapGet k m
      end.
Proof.
  induction l as [| a rest IH]; intros m; simpl.
  - reflexivity.
  - rewrite IH, find_snoc.
    destruct (find (fun a0 => String.eqb (key a0) k) (rev rest));
      [reflexivity |].
    destruct (String.eqb_spec (key a) k) as [E | N].
    + rewrite <- E. apply mapGet_mapSet_same.
    + apply mapGet_mapSet_other. congruence.
Qed.

Lemma filled_distinct (l : list V) :
  forall m,
    NoDup (map fst m ++ map key l) ->
    fold_left (fun m a => Dispatcher.mapSet (key a) a m) l m
    = m ++ map (fun a => (key a, a)) l.
Proof.
  induction l as [| a rest IH]; intros m Hnd; simpl.
  - rewrite app_nil_r. reflexivity.
  - simpl in Hnd.
    assert (Hfresh : ~ In (key a) (map fst m)).
    { apply NoDup_remove_2 in Hnd. intros Hin. apply Hnd.
      apply in_or_app. left. exact Hin. }
    rewrite (@mapSet_fresh (key a) a m Hfresh).
    rewrite IH.
    + rewrite <- app_assoc. reflexivity.
    + rewrite map_app. simpl. rewrite <- app_assoc. simpl. exact Hnd.
Qed.

End JsMapFacts.

(** X20.  Reading a resource succeeds exactly for the template URI of a
    registered widget: the answer then carries that URI, the markup and the
    metadata of a widget registered under it; for any other URI the handler
    throws [Unknown resource: <uri>]. *)
Theorem readResource_finds_registered_widget :
  forall (widgets : list Dispatcher.WidgetAsset) (uri : string),
    match Dispatcher.readResource widgets uri with
    | Normal contents =>
        exists a,
          In a widgets /\
          Server.templateUri (Dispatcher.widget a) = uri /\
          contents = contentsOf a
    | Throw e =>
        e = ErrorObj ("Unknown resource: " ++ uri)%string /\
        forall a,
          In a widgets -> Server.templateUri (Dispatcher.widget a) <> uri
    end.
Proof.
  intros widgets uri.
  unfold Dispatcher.readResource, Dispatcher.widgetsByUri.
  rewrite (mapGet_filled
             (fun a => Server.templateUri (Dispatcher.widget a)) uri widgets).
  destruct (find _ (rev widgets)) as [a |] eqn:F.
  - apply find_some in F. destruct F as [Hin Heq].
    exists a. split; [apply in_rev; exact Hin |].
    split; [apply String.eqb_eq; exact Heq | reflexivity].
  - simpl. split; [reflexivity |].
    intros a Hin Heq.
    pose proof (find_none _ _ F a (proj1 (in_rev widgets a) Hin)) as N.
    simpl in N. rewrite Heq, String.eqb_refl in N. discriminate N.
Qed.

Lemma readResource_finds_registered_widget_witness :
  exists a,
    In a Fixture.widgetsNamed /\
    Server.templateUri (Dispatcher.widget a)
    = "ui://widget/zillow-areas.html" /\
    contentsOf {| Dispatcher.widget := Server.areasWidget;
                  Dispatcher.html := "zillow-areas" |}
    = contentsOf a.
Proof.
  exact (readResource_finds_registered_widget Fixture.widgetsNamed
           "ui://widget/zillow-areas.html").
Defined.

Lemma NoDup_map_injective {A B : Type} (f : A -> B) (l : list A) :
  NoDup (map f l) ->
  forall x y, In x l -> In y l -> f x = f y -> x = y.
Proof.
  induction l as [| a rest IH]; simpl; intros Hnd x y Hx Hy E.
  - contradiction.
  - inversion Hnd as [| b bs Hnot Hrest]; subst.
    destruct Hx as [Hx | Hx]; destruct Hy as [Hy | Hy].
    + congruence.
    + subst a. exfalso. apply Hnot. rewrite E. apply in_map. exact Hy.
    + subst a. exfalso. apply Hnot. rewrite <- E. apply in_map. exact Hx.
    + apply IH; assumption.
Qed.

(** X21.  When the widgets have distinct identifiers and distinct template
    URIs (as the server's three have), the resource list has one entry per
    widget, in order, and reading the URI of a listed entry returns the
    markup and the metadata of that very widget. *)
Theorem listed_resources_are_readable :
  forall widgets : list Dispatcher.WidgetAsset,
    NoDup (map (fun a => Server.id (Dispatcher.widget a)) widgets) ->
    NoDup (map (fun a => Server.templateUri (Dispatcher.widget a)) widgets) ->
    Dispatcher.resources widgets = map resourceOf widgets /\
    forall a,
      In a widgets ->
      Dispatcher.readResource widgets
        (Dispatcher.Resource.uri (resourceOf a))
      = Normal (contentsOf a).
Proof.
  intros widgets Hids Huris. split.
  - unfold Dispatcher.resources, Dispatcher.widgetsById,
      Dispatcher.mapValues.
    rewrite (filled_distinct
               (fun a => Server.id (Dispatcher.widget a)) widgets [])
      by exact Hids.
    simpl. rewrite !map_map. reflexivity.
  - intros a Hin.
    unfold Dispatcher.readResource, Dispatcher.widgetsByUri.
    rewrite (mapGet_filled
               (fun a => Server.templateUri (Dispatcher.widget a))
               (Dispatcher.Resource.uri (resourceOf a)) widgets).
    destruct (find _ (rev widgets)) as [b |] eqn:F.
    + apply find_some in F. destruct F as [Hb Heq].
      apply String.eqb_eq in Heq. apply in_rev in Hb.
      assert (b = a)
        by (apply (NoDup_map_injective _ _ Huris); assumption).
      subst b. reflexivity.
    + exfalso.
      pose proof (find_none _ _ F a (proj1 (in_rev widgets a) Hin)) as N.
      simpl in N. rewrite String.eqb_refl in N. discriminate N.
Qed.

Lemma listed_resources_are_readable_witness :
  List.length (Dispatcher.resources Fixture.widgetsNamed)
  = 3%nat /\
  Dispatcher.readResource Fixture.widgetsNamed
    "ui://widget/zillow-buyability.html"
  = Normal (contentsOf {| Dispatcher.widget := Server.affordabilityWidget;
                          Dispatcher.html := "zillow-buyability" |}).
Proof.
  destruct (@listed_resources_are_readable
              Fixture.widgetsNamed)
    as [Hlist Hread].
  - repeat constructor; simpl; intuition discriminate.
  - repeat constructor; simpl; intuition discriminate.
  - split.
    + rewrite Hlist. reflexivity.
    + apply (Hread {| Dispatcher.widget := Server.affordabilityWidget;
                      Dispatcher.html := "zillow-buyability" |}).
      simpl. tauto.
Defined.

(** *** Loading the widget markup *)

Lemma string_leb_trans (a b c : string) :
  String.leb a b = true -> String.leb b c = true -> String.leb a c = true.
Proof.
  unfold String.leb. revert b c.
  induction a as [| x a IH]; intros [| y b] [| z c]; simpl;
    try reflexivity; try discriminate.
  unfold Ascii.compare.
  destruct (N.compare_spec (N_of_ascii x) (N_of_ascii y)) as [Exy | Lxy | Gxy];
    destruct (N.compare_spec (N_of_ascii y) (N_of_ascii z))
      as [Eyz | Lyz | Gyz];
    destruct (N.compare_spec (N_of_ascii x) (N_of_ascii z))
      as [Exz | Lxz | Gxz];
    try reflexivity; try discriminate; try lia.
  apply IH.
Qed.

Lemma insertSorted_In (x y : string) (l : list string) :
  In y (Assets.insertSorted x l) <-> y = x \/ In y l.
Proof.
  induction l as [| z rest IH]; simpl.
  - intuition.
  - destruct (String.leb x z); simpl; [intuition |].
    rewrite IH. intuition.
Qed.

Lemma sort_In (y : string) (l : list string) :
  In y (Assets.sort l) <-> In y l.
Proof.
  induction l as [| x rest IH]; simpl; [reflexivity |].
  rewrite insertSorted_In, IH. intuition.
Qed.

Lemma insertSorted_sorted (x : string) (l : list string) :
  StronglySorted leS l -> StronglySorted leS (Assets.insertSorted x l).
Proof.
  induction 1 as [| z rest Hrest IH Hall]; simpl.
  - repeat constructor.
  - destruct (String.leb x z) eqn:L.
    + constructor; [constructor; assumption |].
      constructor; [exact L |].
      apply Forall_forall. intros y Hy.
      apply string_leb_trans with z; [exact L |].
      exact (proj1 (Forall_forall _ _) Hall y Hy).
    + constructor; [exact IH |].
      apply Forall_forall. intros y Hy.
      apply insertSorted_In in Hy. destruct Hy as [Hy | Hy].
      * subst y. destruct (String.leb_total x z) as [T | T];
          [rewrite T in L; discriminate | exact T].
      * exact (proj1 (Forall_forall _ _) Hall y Hy).
Qed.

Lemma sort_sorted (l : list string) : StronglySorted leS (Assets.sort l).
Proof.
  induction l as [| x rest IH]; simpl.
  - constructor.
  - apply insertSorted_sorted. exact IH.
Qed.

Lemma sorted_last_greatest (l : list string) (d : string) :
  StronglySorted leS l ->
  forall y, In y l -> leS y (last l d).
Proof.
  induction 1 as [| z rest Hrest IH Hall]; intros y Hy.
  - contradiction.
  - destruct rest as [| z' rest'].
    + destruct Hy as [Hy | []]. subst y. simpl.
      unfold leS. destruct (String.leb_total z z); assumption.
    + change (last (z :: z' :: rest') d) with (last (z' :: rest') d).
      destruct Hy as [Hy | Hy].
      * subst y.
        apply string_leb_trans with z'.
        -- inversion Hall. assumption.
        -- apply IH. left. reflexivity.
      * apply IH. exact Hy.
Qed.

Lemma last_Some (l : list string) (d : string) :
  l <> [] -> last (map Some l) None = Some (last l d).
Proof.
  induction l as [| x rest IH]; intros Hne; [congruence |].
  destruct rest as [| y rest']; [reflexivity |].
  change (last (map Some (x :: y :: rest')) None)
    with (last (map Some (y :: rest')) None).
  change (last (x :: y :: rest') d) with (last (y :: rest') d).
  apply IH. discriminate.
Qed.

Lemma last_In (l : list string) (d : string) : l <> [] -> In (last l d) l.
Proof.
  induction l as [| x rest IH]; intros Hne; [congruence |].
  destruct rest as [| y rest']; [left; reflexivity |].
  right. apply IH. discriminate.
Qed.

(** The versioned file that is chosen: the greatest candidate. *)
Lemma fallback_is_greatest (componentName : string) (files : list string)
    (chosen : string) :
  In chosen files ->
  Assets.isCandidate componentName chosen = true ->
  (forall other,
     In other files -> Assets.isCandidate componentName other = true ->
     String.leb other chosen = true) ->
  last (map Some (Assets.sort (filter (Assets.isCandidate componentName) files)))
       None
  = Some chosen.
Proof.
  intros Hin Hcand Hmax.
  set (cands := filter (Assets.isCandidate componentName) files).
  assert (Hc : In chosen (Assets.sort cands)).
  { apply sort_In. apply filter_In. split; assumption. }
  assert (Hne : Assets.sort cands <> []).
  { intros E. rewrite E in Hc. contradiction. }
  rewrite (last_Some EmptyString Hne). apply (f_equal Some).
  apply String.leb_antisym.
  - apply Hmax.
    + pose proof (last_In EmptyString Hne) as L.
      apply (proj1 (sort_In _ _)) in L.
      apply (proj1 (filter_In _ _ _)) in L. tauto.
    + pose proof (last_In EmptyString Hne) as L.
      apply (proj1 (sort_In _ _)) in L.
      apply (proj1 (filter_In _ _ _)) in L. tauto.
  - apply (sorted_last_greatest EmptyString (sort_sorted cands)). exact Hc.
Qed.

(** X22.  [readWidgetHtml] throws the assets-missing error when the assets
    directory does not exist, whatever else is on disk.  Whenever it
    returns, the directory exists and the markup returned is the non-empty
    content of a file that was read: an empty file is never returned. *)
Theorem readWidgetHtml_nonempty_or_throws :
  forall (fs : Assets.FileSystem) (ASSETS_DIR componentName : string),
    (Assets.existsSync fs ASSETS_DIR = false ->
     Assets.readWidgetHtml fs ASSETS_DIR componentName
     = Throw (Assets.assetsMissing ASSETS_DIR)) /\
    (forall html,
       Assets.readWidgetHtml fs ASSETS_DIR componentName = Normal html ->
       nonEmpty html = true /\
       Assets.existsSync fs ASSETS_DIR = true /\
       exists path, Assets.readFileSync fs path = Normal html).
Proof.
  intros fs dir name. unfold Assets.readWidgetHtml. split.
  - intros H. rewrite H. reflexivity.
  - intros html.
    destruct (Assets.existsSync fs dir); simpl; [| discriminate].
    destruct (Assets.locate fs dir name) as [[contents |] | e] eqn:L;
      try discriminate.
    destruct (nonEmpty contents) eqn:Ne; [| discriminate].
    intros H. inversion H. subst contents.
    split; [exact Ne |]. split; [reflexivity |].
    unfold Assets.locate in L.
    destruct (Assets.existsSync fs _).
    + destruct (Assets.readFileSync fs _) as [c |] eqn:R; [| discriminate].
      inversion L. subst c. eexists. exact R.
    + destruct (Assets.readdirSync fs dir) as [files |]; [| discriminate].
      destruct (last _ None) as [fallback |].
      * destruct (Assets.readFileSync fs _) as [c |] eqn:R; [| discriminate].
        inversion L. subst c. eexists. exact R.
      * destruct (Assets.existsSync fs _); [| discriminate].
        destruct (Assets.readFileSync fs _) as [c |] eqn:R; [| discriminate].
        inversion L. subst c. eexists. exact R.
Qed.

(** X23.  When the assets directory exists and holds no [<name>.html], the
    markup is read from the versioned file [<name>-*.html] that is greatest
    in the order of [sort()]: if that file is readable and not empty its
    content is what [readWidgetHtml] returns. *)
Theorem readWidgetHtml_picks_latest_version :
  forall (fs : Assets.FileSystem) (ASSETS_DIR componentName : string)
         (files : list string) (chosen html : string),
    Assets.existsSync fs ASSETS_DIR = true ->
    Assets.existsSync fs
      (Assets.join ASSETS_DIR (componentName ++ ".html")) = false ->
    Assets.readdirSync fs ASSETS_DIR = Normal files ->
    In chosen files ->
    Assets.isCandidate componentName chosen = true ->
    (forall other,
       In other files -> Assets.isCandidate componentName other = true ->
       String.leb other chosen = true) ->
    Assets.readFileSync fs (Assets.join ASSETS_DIR chosen) = Normal html ->
    nonEmpty html = true ->
    Assets.readWidgetHtml fs ASSETS_DIR componentName = Normal html.
Proof.
  intros fs dir name files chosen html Hdir Hdirect Hls Hin Hcand Hmax
    Hread Hne.
  unfold Assets.readWidgetHtml, Assets.locate.
  rewrite Hdir, Hdirect, Hls. simpl negb. cbv iota.
  rewrite (@fallback_is_greatest name files chosen Hin Hcand Hmax).
  rewrite Hread, Hne. reflexivity.
Qed.

Lemma readWidgetHtml_nonempty_or_throws_witness :
  Assets.readWidgetHtml Fixture.builtAssets "/srv/missing" "zillow-areas"
  = Throw (Assets.assetsMissing "/srv/missing").
Proof.
  apply (proj1 (readWidgetHtml_nonempty_or_throws Fixture.builtAssets
                  "/srv/missing" "zillow-areas")).
  reflexivity.
Defined.

Lemma readWidgetHtml_picks_latest_version_witness :
  Assets.readWidgetHtml Fixture.builtAssets "/srv/assets" "zillow-areas"
  = Normal "<div id=areas></div>".
Proof.
  apply (@readWidgetHtml_picks_latest_version Fixture.builtAssets
           "/srv/assets" "zillow-areas"
           [ "zillow-areas-2a1b.html"; "zillow-areas-9f3c.html";
             "zillow-areas-9f3c.js"; "zillow-buyability-11aa.html" ]
           "zillow-areas-9f3c.html" "<div id=areas></div>").
  - reflexivity.
  - reflexivity.
  - reflexivity.
  - simpl. tauto.
  - reflexivity.
  - intros other [H | [H | [H | [H | []]]]] C; subst other;
      first [reflexivity | discriminate C].
  - reflexivity.
  - reflexivity.
Defined.
